(** * CV matcher: a shallow embedding of the ingestion and analysis core

    The development follows the layout of the Python package:
    [PyStr] gathers the string primitives of the Python runtime the services
    rely on, [FileProcessor] embeds [app/services/file_processor.py],
    [LinkedInFetcher] embeds [app/services/linkedin_fetcher.py] and
    [CVAnalyzer] embeds [app/services/cv_analyzer.py].

    Text is modelled by [string]: a sequence of 8-bit characters, read as the
    code points 0..255 (Latin-1 text).  The character classes below are those
    of Python's [str] methods and of the [re] module on that range.
    Exceptions are modelled by their message, the value of [str(e)]. *)

From Stdlib Require Import String Ascii List ZArith NArith Lia Bool Arith.
From Stdlib Require Import Sorting.Sorted Numbers.DecimalString.
From Stdlib Require Import Sorting.Permutation.
Import ListNotations.
Open Scope string_scope.
Set Warnings "-register-all".

(** ** Results of fallible code *)

Inductive res (A : Type) : Type :=
| Ok (a : A)
| Err (msg : string).
Arguments Ok {A} a.
Arguments Err {A} msg.

Definition bind {A B : Type} (r : res A) (k : A -> res B) : res B :=
  match r with
  | Ok a => k a
  | Err e => Err e
  end.

Notation "'do' x <- r ; k" := (bind r (fun x => k))
  (at level 10, x name, r at level 100, k at level 200).

(** [try: ... except Exception as e: raise Exception(prefix + str(e))] *)
Definition wrap_exception {A : Type} (prefix : string) (r : res A) : res A :=
  match r with
  | Ok a => Ok a
  | Err e => Err (prefix ++ e)
  end.

(** ** Python string primitives *)

Module PyStr.

Definition code (c : ascii) : N := N_of_ascii c.

Definition in_range (lo hi : N) (c : ascii) : bool :=
  ((lo <=? code c) && (code c <=? hi))%N.

Definition is_code (n : N) (c : ascii) : bool := (code c =? n)%N.

(** [str.isspace] on one character, which is also the class [\s] of [re]:
    TAB..CR, FS..US, SPACE, NEL and NO-BREAK SPACE. *)
Definition isspace (c : ascii) : bool :=
  in_range 9 13 c || in_range 28 32 c || is_code 133 c || is_code 160 c.

(** The class [\w] of [re] on text patterns: letters, digits of every kind
    and the underscore. *)
Definition isword (c : ascii) : bool :=
  in_range 48 57 c || in_range 65 90 c || is_code 95 c || in_range 97 122 c
  || is_code 170 c || in_range 178 179 c || is_code 181 c
  || in_range 185 186 c || in_range 188 190 c
  || in_range 192 214 c || in_range 216 246 c || in_range 248 255 c.

(** [str.lower] on one character: A..Z and the accented capitals. *)
Definition lower_char (c : ascii) : ascii :=
  if in_range 65 90 c || (in_range 192 222 c && negb (is_code 215 c))
  then ascii_of_N (code c + 32)
  else c.

Fixpoint lower (s : string) : string :=
  match s with
  | "" => ""
  | String c s' => String (lower_char c) (lower s')
  end.

(** [sub in s] *)
Fixpoint contains (sub s : string) : bool :=
  prefix sub s ||
  match s with
  | "" => false
  | String _ s' => contains sub s'
  end.

(** [any(k in s for k in keys)] *)
Definition contains_any (keys : list string) (s : string) : bool :=
  existsb (fun k => contains k s) keys.

Fixpoint lstrip (s : string) : string :=
  match s with
  | "" => ""
  | String c s' => if isspace c then lstrip s' else s
  end.

Fixpoint rstrip (s : string) : string :=
  match s with
  | "" => ""
  | String c s' =>
      match rstrip s' with
      | "" => if isspace c then "" else String c ""
      | r => String c r
      end
  end.

(** [s.strip()] *)
Definition strip (s : string) : string := rstrip (lstrip s).

(** [s.split(sep)] for a one-character separator: never the empty list. *)
Fixpoint split (sep : ascii) (s : string) : list string :=
  match s with
  | "" => [""]
  | String c s' =>
      if Ascii.eqb c sep then "" :: split sep s'
      else match split sep s' with
           | [] => [String c ""]
           | h :: t => String c h :: t
           end
  end.

(** [sep.join(items)] *)
Fixpoint join (sep : string) (items : list string) : string :=
  match items with
  | [] => ""
  | [x] => x
  | x :: rest => x ++ sep ++ join sep rest
  end.

(** [s[:n]] for [n >= 0] *)
Fixpoint take (n : nat) (s : string) : string :=
  match n, s with
  | S n', String c s' => String c (take n' s')
  | _, _ => ""
  end.

(** [s[n:]] for [n >= 0] *)
Fixpoint drop (n : nat) (s : string) : string :=
  match n, s with
  | S n', String _ s' => drop n' s'
  | _, _ => s
  end.

(** [s[:-n]] for [n > 0] *)
Definition drop_last (n : nat) (s : string) : string :=
  take (String.length s - n) s.

Definition startswith (pre s : string) : bool := prefix pre s.

Definition endswith (suf s : string) : bool :=
  (String.length suf <=? String.length s)%nat
  && (drop (String.length s - String.length suf) s =? suf).

(** [re.sub(r'[class]+', repl, s)]: every maximal run of characters of the
    class [p] is replaced by [repl]; [in_run] tells that the previous
    character belonged to a run that was already replaced. *)
Fixpoint sub_runs (p : ascii -> bool) (repl : string) (in_run : bool)
  (s : string) : string :=
  match s with
  | "" => ""
  | String c s' =>
      if p c
      then if in_run then sub_runs p repl true s'
           else repl ++ sub_runs p repl true s'
      else String c (sub_runs p repl false s')
  end.

Definition re_sub_plus (p : ascii -> bool) (repl s : string) : string :=
  sub_runs p repl false s.

(** [re.sub(r'[^class]', '', s)]: the characters of the class [keep] stay. *)
Fixpoint re_strip_outside (keep : ascii -> bool) (s : string) : string :=
  match s with
  | "" => ""
  | String c s' =>
      if keep c then String c (re_strip_outside keep s')
      else re_strip_outside keep s'
  end.

(** [all(p(c) for c in s)] *)
Fixpoint forallb_str (p : ascii -> bool) (s : string) : bool :=
  match s with
  | "" => true
  | String c s' => p c && forallb_str p s'
  end.

(** Every whitespace character of [s] is a plain space, and no two of them
    are adjacent; [after_space] tells that a space precedes [s]. *)
Fixpoint single_spaced (after_space : bool) (s : string) : bool :=
  match s with
  | "" => true
  | String c s' =>
      if isspace c
      then Ascii.eqb c " " && negb after_space && single_spaced true s'
      else single_spaced false s'
  end.

(** [str(n)] for a natural number *)
Definition str_of_nat (n : nat) : string :=
  NilZero.string_of_uint (Nat.to_uint n).

(** ["".join(items)] *)
Definition cat (items : list string) : string := fold_right append "" items.

(** [s.split()]: the maximal runs of characters that are not whitespace. *)
Fixpoint split_whitespace (s : string) : list string :=
  match s with
  | "" => []
  | String c s' =>
      if isspace c then split_whitespace s'
      else
        match s' with
        | "" => [String c ""]
        | String d _ =>
            if isspace d then String c "" :: split_whitespace s'
            else
              match split_whitespace s' with
              | [] => [String c ""]
              | h :: t => String c h :: t
              end
        end
  end.

End PyStr.

(** ** app/services/file_processor.py *)

Module FileProcessor.
Import PyStr.

Definition is_newline (c : ascii) : bool := is_code 10 c.

(** The characters listed after [\w\s] in the class of [_clean_text]. *)
Definition punctuation : list ascii :=
  ["-"; "."; ","; ";"; ":"; "("; ")"; "["; "]"; "/"; "@"; "#"; "%"; "&"; "+"]%char.

(** [[\w\s\-.,;:()\[\]/@#%&+]] *)
Definition whitelisted (c : ascii) : bool :=
  isword c || isspace c || existsb (Ascii.eqb c) punctuation.

Definition _clean_text (text : string) : string :=
  match text with
  | "" => ""
  | _ =>
      let text := re_sub_plus is_newline (String "010" "") text in
      let text := re_sub_plus isspace " " text in
      let text := re_strip_outside whitelisted text in
      strip text
  end.

(** What [_clean_text] guarantees of its result: only whitelisted
    characters, no whitespace but plain spaces, none of them at either end. *)
Record cleaned (t : string) : Prop := {
  cleaned_whitelisted : forallb_str whitelisted t = true;
  cleaned_plain :
    forallb_str (fun c => negb (isspace c) || Ascii.eqb c " ") t = true;
  cleaned_lstrip : lstrip t = t;
  cleaned_rstrip : rstrip t = t
}.

(** What [_extract_from_pdf] and [_extract_from_word] read from the decoding
    libraries: the pages of a PDF, each with the outcome of its
    [extract_text()], and the paragraphs and tables of a Word document. *)
Record PdfPage := { page_extract_text : res string }.

Record DocxDocument := {
  paragraphs : list string;
  tables : list (list (list string))
}.

Definition bytes := list Byte.byte.

(** [PyPDF2.PdfReader(io.BytesIO(content)).pages] and
    [docx.Document(io.BytesIO(content))]; either may raise. *)
Class Decoders := {
  PdfReader : bytes -> res (list PdfPage);
  Document : bytes -> res DocxDocument
}.

Record UploadFile := {
  filename : option string;
  file_read : bytes
}.

Section Extraction.
Context {D : Decoders}.

Fixpoint pdf_pages_loop (pages : list PdfPage) (text : string) : res string :=
  match pages with
  | [] => Ok text
  | page :: rest =>
      do page_text <- page_extract_text page;
      match page_text with
      | "" => pdf_pages_loop rest text
      | _ => pdf_pages_loop rest (text ++ page_text ++ String "010" "")
      end
  end.

Definition _extract_from_pdf (content : bytes) : res string :=
  wrap_exception "Failed to extract PDF text: "
    (do pages <- PdfReader content;
     do text <- pdf_pages_loop pages "";
     Ok (_clean_text text)).

Definition paragraphs_loop (ps : list string) (text : string) : string :=
  fold_left (fun text p => text ++ p ++ String "010" "") ps text.

Definition row_loop (cells : list string) (text : string) : string :=
  fold_left (fun text cell => text ++ cell ++ " ") cells text ++ String "010" "".

Definition tables_loop (ts : list (list (list string))) (text : string) : string :=
  fold_left (fun text table =>
               fold_left (fun text row => row_loop row text) table text)
            ts text.

Definition _extract_from_word (content : bytes) : res string :=
  wrap_exception "Failed to extract Word document text: "
    (do doc <- Document content;
     let text := paragraphs_loop (paragraphs doc) "" in
     let text := tables_loop (tables doc) text in
     Ok (_clean_text text)).

(** [file.filename.lower().split('.')[-1]] *)
Definition file_extension (name : string) : string :=
  last (split "." (lower name)) "".

Definition extract_text (file : UploadFile) : res string :=
  wrap_exception "Error processing file: "
    (match filename file with
     | None => Err "'NoneType' object has no attribute 'lower'"
     | Some name =>
         let file_extension := file_extension name in
         let content := file_read file in
         if file_extension =? "pdf" then _extract_from_pdf content
         else if (file_extension =? "doc") || (file_extension =? "docx")
         then _extract_from_word content
         else Err ("Unsupported file type: " ++ file_extension)
     end).

End Extraction.

(** Decoders that refuse every payload, the way the libraries refuse a
    legacy binary [.doc] file. *)
Definition refusing_decoders : Decoders :=
  {| PdfReader := fun _ => Err "EOF marker not found";
     Document := fun _ => Err "File is not a zip file" |}.

(** The text the loops of [_extract_from_pdf] and [_extract_from_word]
    build, written with maps: a line for every page that has text; a line
    for every paragraph, then a line for every row of every table, each cell
    followed by a space. *)
Definition line (t : string) : string := t ++ String "010" "".

Definition pages_text (texts : list string) : string :=
  cat (map line (filter (fun t => negb (t =? "")) texts)).

Definition row_text (cells : list string) : string :=
  line (cat (map (fun cell => cell ++ " ") cells)).

Definition table_text (rows : list (list string)) : string :=
  cat (map row_text rows).

Definition document_text (doc : DocxDocument) : string :=
  cat (map line (paragraphs doc)) ++ cat (map table_text (tables doc)).

(** Decoders of payloads that are already text: a PDF payload holds one
    page per byte, each byte the one character of its page, a zero byte an
    empty page; a Word payload holds one paragraph per byte. *)
Definition plain_decoders : Decoders :=
  {| PdfReader := fun content =>
       Ok (map (fun b =>
                  {| page_extract_text :=
                       Ok (match Byte.to_N b with
                           | 0%N => ""
                           | n => String (ascii_of_N n) ""
                           end) |})
               content);
     Document := fun content =>
       Ok {| paragraphs :=
               map (fun b => String (ascii_of_N (Byte.to_N b)) "") content;
             tables := [] |} |}.

End FileProcessor.

(** ** app/services/linkedin_fetcher.py *)

Module LinkedInFetcher.
Import PyStr.

(** [len(s)] *)
Definition len (s : string) : Z := Z.of_nat (String.length s).

(** [s[:n]] for a non-negative [n] *)
Definition slice_to (n : Z) (s : string) : string := take (Z.to_nat n) s.

Record Response := {
  status_code : Z;
  text : string
}.

(** An element of the parsed page, with what the fetcher reads from it: its
    tag name and [get_text(separator=" ", strip=True)]. *)
Record Tag := {
  name : string;
  get_text : string
}.

(** The parsed page.  [soup_title] is [soup.title] with its [.string] (either
    may be [None]); [og_description] is the first [meta] element whose
    [property] is [og:description], with its [content] attribute;
    [elements] lists the elements of the page in document order. *)
Record Soup := {
  soup_title : option (option string);
  og_description : option (option string);
  elements : list Tag
}.

(** The collaborators: one HTTP GET against the outside world, which may
    raise, and the HTML parser. *)
Class Web := {
  World : Type;
  requests_get :
    string -> list (string * string) -> Z -> World -> World * res Response;
  BeautifulSoup : string -> res Soup
}.

Inductive event : Type :=
| HttpGet (url : string).

Record LinkedInFetcher := {
  request_timeout_seconds : Z;
  _headers : list (string * string)
}.

Definition __init__ (request_timeout_seconds : Z) : LinkedInFetcher :=
  {| request_timeout_seconds := request_timeout_seconds;
     _headers :=
       [("User-Agent",
         "Mozilla/5.0 (Windows NT 10.0; Win64; x64) AppleWebKit/537.36 "
         ++ "(KHTML, like Gecko) Chrome/125.0.0.0 Safari/537.36");
        ("Accept-Language", "en-US,en;q=0.9")] |}.

(** An element is identified by its position in document order. *)
Definition node : Type := nat * Tag.

Definition position (n : node) : nat := fst n.

Definition document (soup : Soup) : list node :=
  combine (seq 0 (List.length (elements soup))) (elements soup).

(** [soup.select(selector)] for a tag-name selector: the matching elements in
    document order. *)
Definition select (soup : Soup) (selector : string) : list node :=
  filter (fun n => name (snd n) =? selector) (document soup).

Definition selectors : list string := ["section"; "main"; "div"].

(** [for selector in [...]: candidates.extend(soup.select(selector))] *)
Definition collect_candidates (soup : Soup) : list node :=
  fold_left (fun candidates selector => (candidates ++ select soup selector)%list)
            selectors [].

Definition keywords : list string :=
  ["experience"; "education"; "skills"; "certification"; "projects"; "about";
   "summary"; "activity"; "languages"; "honors"; "awards"; "volunteer"].

(** The keyword loop of [score_section]. *)
Definition keyword_hits (text : string) : Z :=
  let lower := lower text in
  fold_left (fun score kw => if contains kw lower then (score + 1)%Z else score)
            keywords 0%Z.

Definition length_bonus (text : string) : Z := (Z.min (len text / 200) 5)%Z.

Definition score_text (text : string) : Z :=
  (keyword_hits text + length_bonus text)%Z.

Definition score_section (n : node) : Z := score_text (get_text (snd n)).

(** [sorted(items, key=key, reverse=True)]: the stable sort by decreasing
    key, written as an insertion sort.  An item is inserted in front of the
    items that followed it in the input, behind those of a greater key. *)
Fixpoint insert_desc {A : Type} (key : A -> Z) (x : A) (l : list A) : list A :=
  match l with
  | [] => [x]
  | y :: l' => if (key x <? key y)%Z then y :: insert_desc key x l' else x :: l
  end.

Definition sorted_desc {A : Type} (key : A -> Z) (l : list A) : list A :=
  fold_right (insert_desc key) [] l.

(** [sorted(candidates, key=score_section, reverse=True)[:12]] *)
Definition top_sections (candidates : list node) : list node :=
  firstn 12 (sorted_desc score_section candidates).

(** Items of equal key stand in [l] in the order [before]. *)
Definition ties_ordered {A : Type} (key : A -> Z) (before : A -> A -> Prop)
  (l : list A) : Prop :=
  forall i j a b,
    i < j -> nth_error l i = Some a -> nth_error l j = Some b ->
    key a = key b -> before a b.

(** The order in which the elements appear in the page. *)
Definition document_order (a b : node) : Prop := position a < position b.

(** The place of an element's selector in [selectors]. *)
Definition selector_rank (n : node) : nat :=
  if name (snd n) =? "section" then 0
  else if name (snd n) =? "main" then 1
  else if name (snd n) =? "div" then 2
  else 3.

(** The order of the candidate list: selector by selector, and in document
    order under one selector. *)
Definition candidate_order (a b : node) : Prop :=
  selector_rank a < selector_rank b
  \/ (selector_rank a = selector_rank b /\ position a < position b).

(** A page made of a [div] followed by a [section], of equal score. *)
Definition div_then_section : Soup :=
  {| soup_title := None;
     og_description := None;
     elements := [ {| name := "div"; get_text := "Open to work" |};
                   {| name := "section"; get_text := "Based in Lisbon" |} ] |}.

Definition artifacts : list string :=
  ["see more"; "show more"; "see less"; "show less"].

(** The alternative of [See more|Show more|See less|Show less] that matches
    at the start of [s] when case is ignored, by its length. *)
Definition match_artifact (s : string) : option nat :=
  option_map String.length (find (fun a => prefix a (lower s)) artifacts).

(** [re.sub(r"See more|Show more|See less|Show less", "", s,
    flags=re.IGNORECASE)]; [skip] counts the characters of a match that are
    still to be dropped. *)
Fixpoint remove_artifacts (skip : nat) (s : string) : string :=
  match s with
  | "" => ""
  | String c s' =>
      match skip with
      | S k => remove_artifacts k s'
      | O =>
          match match_artifact s with
          | Some n => remove_artifacts (Nat.pred n) s'
          | None => String c (remove_artifacts 0 s')
          end
      end
  end.

Definition _clean_text (text : string) : string :=
  let text := strip (re_sub_plus isspace " " text) in
  let text := remove_artifacts 0 text in
  strip text.

(** The loop of [_dedupe_preserve_order]; [seen] is the set of keys. *)
Fixpoint dedupe_loop (seen : list string) (items : list string) : list string :=
  match items with
  | [] => []
  | item :: rest =>
      let key := slice_to 200 item in
      if existsb (String.eqb key) seen then dedupe_loop seen rest
      else item :: dedupe_loop (key :: seen) rest
  end.

Definition _dedupe_preserve_order (items : list string) : list string :=
  dedupe_loop [] items.

Definition block_markers : list string :=
  ["signin"; "login"; "captcha"; "enable javascript"].

(** The part of the [try] block that follows a successful parse. *)
Definition extract_sections (soup : Soup) : list string :=
  let extracted_sections : list string := [] in
  let page_title :=
    match soup_title soup with
    | Some title_string =>
        strip (match title_string with Some s => s | None => "" end)
    | None => ""
    end in
  let extracted_sections :=
    match page_title with
    | "" => extracted_sections
    | _ => (extracted_sections ++ [("Title: " ++ page_title)%string])%list
    end in
  let extracted_sections :=
    match og_description soup with
    | Some (Some (String c content)) =>
        (extracted_sections
         ++ [("About: " ++ strip (String c content))%string])%list
    | _ => extracted_sections
    end in
  let candidates := top_sections (collect_candidates soup) in
  fold_left (fun extracted_sections n =>
               let text := _clean_text (get_text (snd n)) in
               if (len text >? 200)%Z then (extracted_sections ++ [text])%list
               else extracted_sections)
            candidates extracted_sections.

Section Fetch.
Context {W : Web}.

(** The body of the [try] block of [_fetch_profile_text_sync], with the
    requests it sent. *)
Definition fetch_body (self : LinkedInFetcher) (url : string) (w : World)
  : World * list event * res string :=
  if (url =? "") || negb (contains "linkedin.com" url) then (w, [], Ok "")
  else
    let '(w', r) :=
      requests_get url (_headers self) (request_timeout_seconds self) w in
    (w', [HttpGet url],
     do response <- r;
     if negb (status_code response =? 200)%Z then Ok ""
     else
       let html := text response in
       if contains_any block_markers (lower html) then Ok ""
       else
         do soup <- BeautifulSoup html;
         let combined :=
           join (String "010" (String "010" ""))
                (_dedupe_preserve_order (extract_sections soup)) in
         Ok (slice_to 30000 combined)).

(** [try: ... except Exception: return ""] *)
Definition _fetch_profile_text_sync (self : LinkedInFetcher) (url : string)
  (w : World) : World * list event * string :=
  let '(w', events, r) := fetch_body self url w in
  (w', events, match r with Ok s => s | Err _ => "" end).

End Fetch.

(** A network on which every request is refused; its state is the list of
    the addresses requested so far, latest first. *)
Definition offline_web : Web :=
  {| World := list string;
     requests_get := fun url _ _ w => (url :: w, Err "Connection refused");
     BeautifulSoup := fun _ => Err "unreachable" |}.

(** The key under which [_dedupe_preserve_order] remembers a fragment. *)
Definition dedupe_key (item : string) : string := slice_to 200 item.

(** [l1] is [l2] with some items left out, the order kept. *)
Inductive subsequence {A : Type} : list A -> list A -> Prop :=
| subsequence_nil : subsequence [] []
| subsequence_skip (x : A) (l1 l2 : list A) :
    subsequence l1 l2 -> subsequence l1 (x :: l2)
| subsequence_keep (x : A) (l1 l2 : list A) :
    subsequence l1 l2 -> subsequence (x :: l1) (x :: l2).

(** What [extract_sections] may put in its list for the page [soup]: the
    line of its title, when the stripped title is not empty; the line of
    its description, when it has one that is not empty; the cleaned text of
    a kept candidate element, when it is longer than 200 characters. *)
Definition fragment_of (soup : Soup) (fragment : string) : Prop :=
  (exists s, soup_title soup = Some (Some s) /\ strip s <> ""
             /\ fragment = "Title: " ++ strip s)
  \/ (exists d, og_description soup = Some (Some d) /\ d <> ""
                /\ fragment = "About: " ++ strip d)
  \/ (exists n, In n (top_sections (collect_candidates soup))
               /\ fragment = _clean_text (get_text (snd n))
               /\ (200 < len fragment)%Z).

(** A page with a title and a description and no element. *)
Definition titled_page : Soup :=
  {| soup_title := Some (Some "  Ada Lovelace | LinkedIn ");
     og_description := Some (Some "Mathematician. ");
     elements := [] |}.

(** A network that serves one page under every address. *)
Definition static_web (page : Response) : Web :=
  {| World := nat;
     requests_get := fun _ _ _ served => (S served, Ok page);
     BeautifulSoup := fun _ => Ok div_then_section |}.

End LinkedInFetcher.

(** ** app/models.py *)

Module Models.

Record Strength := {
  s_title : string;
  s_description : string
}.

Record Weakness := {
  w_title : string;
  w_description : string;
  w_suggestion : string
}.

Record AnalysisResult := {
  match_percentage : Z;
  strengths : list Strength;
  weaknesses : list Weakness;
  summary : string
}.

End Models.

(** ** app/services/cv_analyzer.py *)

Module CVAnalyzer.
Import PyStr Models.

(** *** Construction *)

(** [os.environ] *)
Definition environ : Type := string -> option string.

(** [os.getenv(key, default)] *)
Definition getenv (env : environ) (key default : string) : string :=
  match env key with
  | Some v => v
  | None => default
  end.

Record CVAnalyzer := {
  github_token : string;
  model_endpoint : string;
  model_id : string;
  model_candidates : list string
}.

Definition nonempty (s : string) : bool :=
  match s with
  | "" => false
  | _ => true
  end.

(** [[m.strip() for m in s.split(",") if m.strip()]] *)
Definition listed_candidates (candidates_from_env : string) : list string :=
  map strip (filter (fun m => nonempty (strip m)) (split "," candidates_from_env)).

Definition default_candidates (model_id : string) : list string :=
  [model_id; "openai/gpt-4o-mini"; "openai/gpt-4o"].

Definition __init__ (env : environ) : res CVAnalyzer :=
  let github_token := env "GITHUB_TOKEN" in
  let model_endpoint :=
    getenv env "GITHUB_MODEL_ENDPOINT" "https://models.github.ai/inference" in
  let model_id := getenv env "GITHUB_MODEL_ID" "openai/gpt-5" in
  let candidates_from_env := strip (getenv env "GITHUB_MODEL_CANDIDATES" "") in
  let model_candidates :=
    match listed_candidates candidates_from_env with
    | [] => default_candidates model_id
    | listed => listed
    end in
  match github_token with
  | Some (String c token) =>
      Ok {| github_token := String c token;
            model_endpoint := model_endpoint;
            model_id := model_id;
            model_candidates := model_candidates |}
  | _ => Err "GITHUB_TOKEN environment variable is required"
  end.

(** *** The model endpoint *)

Inductive Message : Type :=
| SystemMessage (content : string)
| UserMessage (content : string).

(** The reply of a chat completion call, as far as the analyzer reads it.
    [None] stands for a value that the test [not value] rejects. *)
Record ChatResponseMessage := { content : option string }.
Record ChatChoice := { message : option ChatResponseMessage }.
Record ChatCompletions := { choices : list ChatChoice }.

(** [ChatCompletionsClient(endpoint, credential).complete(messages, model)]
    against the remote service, whose state the call may change. *)
Class ModelEndpoint := {
  Remote : Type;
  complete :
    string -> string -> list Message -> string -> Remote ->
    Remote * res (option ChatCompletions)
}.

Definition set_model_id (self : CVAnalyzer) (m : string) : CVAnalyzer :=
  {| github_token := github_token self;
     model_endpoint := model_endpoint self;
     model_id := m;
     model_candidates := model_candidates self |}.

(** The test of the [except] clause on [str(e).lower()]. *)
Definition unavailable (error_text : string) : bool :=
  contains "unavailable model" error_text
  || contains "unavailable_model" error_text
  || contains "unknown model" error_text.

(** [f"{last_error}"] *)
Definition str_of_last_error (last_error : option string) : string :=
  match last_error with
  | Some e => e
  | None => "None"
  end.

Definition no_response : string := "No response returned from GitHub Models".

(** The two messages of every call. *)
Definition chat_messages (prompt : string) : list Message :=
  [SystemMessage
     "You are an expert HR analyst. Provide responses in valid JSON format only.";
   UserMessage prompt].

(** [text] contains [sub] when case is ignored: a part of [text] is [sub] once
    it is lowercased. *)
Definition mentions (sub text : string) : Prop :=
  exists pre mid post, text = pre ++ mid ++ post /\ lower mid = sub.

(** The failures that make the cascade move on. *)
Definition soft_failure (e : string) : Prop :=
  mentions "unavailable model" e
  \/ mentions "unavailable_model" e
  \/ mentions "unknown model" e.

Section Cascade.
Context {M : ModelEndpoint}.

(** [client.complete(messages=messages, model=candidate_model)] *)
Definition call_model (self : CVAnalyzer) (prompt candidate_model : string)
  (r : Remote) : Remote * res (option ChatCompletions) :=
  complete (model_endpoint self) (github_token self) (chat_messages prompt)
           candidate_model r.

(** The [try] block of one iteration: the call and the check of the reply. *)
Definition try_candidate (self : CVAnalyzer) (prompt candidate_model : string)
  (r : Remote) : Remote * res (option string) :=
  let '(r', response) := call_model self prompt candidate_model r in
  (r',
   do response <- response;
   match response with
   | None => Err no_response
   | Some response =>
       match choices response with
       | [] => Err no_response
       | choice :: _ =>
           match message choice with
           | None => Err no_response
           | Some m => Ok (content m)
           end
       end
   end).

(** [tried] was attempted before what [outcome] reports. *)
Definition with_attempts (tried : list string)
  (outcome : Remote * CVAnalyzer * list string * res (option string))
  : Remote * CVAnalyzer * list string * res (option string) :=
  let '(r, self, attempted, result) := outcome in
  (r, self, (tried ++ attempted)%list, result).

(** The loop of [_call_github_models] over the candidates still to try.  The
    result carries the remote state, the analyzer with its updated
    [model_id], the candidates attempted in order and the outcome. *)
Fixpoint cascade (self : CVAnalyzer) (prompt : string)
  (candidates : list string) (last_error : option string) (r : Remote)
  : Remote * CVAnalyzer * list string * res (option string) :=
  match candidates with
  | [] =>
      (r, self, [],
       Err ("Error calling GitHub Models API: none of the candidate models are available. "
            ++ "Tried: " ++ join ", " (model_candidates self)
            ++ ". Last error: " ++ str_of_last_error last_error))
  | candidate_model :: rest =>
      let '(r', outcome) := try_candidate self prompt candidate_model r in
      match outcome with
      | Ok text =>
          (r', set_model_id self candidate_model, [candidate_model], Ok text)
      | Err e =>
          let error_text := lower e in
          if unavailable error_text then
            with_attempts [candidate_model]
                          (cascade self prompt rest (Some e) r')
          else
            (r', self, [candidate_model],
             Err ("Error calling GitHub Models API: " ++ e))
      end
  end.

Definition _call_github_models (self : CVAnalyzer) (prompt : string)
  (r : Remote) : Remote * CVAnalyzer * list string * res (option string) :=
  cascade self prompt (model_candidates self) None r.

(** The candidates of [tried] are attempted in order from the remote state
    [r] and each one fails softly, leaving the remote state [r'] and the
    last error [last']. *)
Inductive soft_failures (self : CVAnalyzer) (prompt : string)
  : list string -> Remote -> option string -> Remote -> option string -> Prop :=
| soft_failures_nil (r : Remote) (last : option string) :
    soft_failures self prompt [] r last r last
| soft_failures_cons (c : string) (tried : list string) (r r' r'' : Remote)
    (e : string) (last last' : option string) :
    try_candidate self prompt c r = (r', Err e) ->
    soft_failure e ->
    soft_failures self prompt tried r' (Some e) r'' last' ->
    soft_failures self prompt (c :: tried) r last r'' last'.

End Cascade.

(** An endpoint that plays a script: each call consumes the next reply. *)
Definition scripted_endpoint : ModelEndpoint :=
  {| Remote := list (res (option ChatCompletions));
     complete := fun _ _ _ _ script =>
       match script with
       | [] => ([], Err "Connection error")
       | reply :: rest => (rest, reply)
       end |}.

(** An environment that sets the token only, and the analyzer built in it. *)
Definition token_only : environ :=
  fun key => if key =? "GITHUB_TOKEN" then Some "ghp_0123456789" else None.

Definition default_analyzer : CVAnalyzer :=
  {| github_token := "ghp_0123456789";
     model_endpoint := "https://models.github.ai/inference";
     model_id := "openai/gpt-5";
     model_candidates := default_candidates "openai/gpt-5" |}.

(** A reply with one choice. *)
Definition json_reply : ChatCompletions :=
  {| choices := [ {| message := Some {| content := Some "{}" |} |} ] |}.

(** An endpoint that answers by the name of the model it is asked for, and
    whose state is the list of the models asked for so far, latest first. *)
Definition catalogue_endpoint : ModelEndpoint :=
  {| Remote := list string;
     complete := fun _ _ _ model asked =>
       (model :: asked,
        if model =? "openai/gpt-4o" then Ok (Some json_reply)
        else if model =? "openai/gpt-4o-mini"
        then Err "(unavailable_model) Unavailable model: openai/gpt-4o-mini"
        else Err ("Unknown model: " ++ model)) |}.

(** The override names no candidate: it is absent, or made of commas and
    whitespace only. *)
Definition blank_override (env : environ) : Prop :=
  match env "GITHUB_MODEL_CANDIDATES" with
  | None => True
  | Some s => forallb_str (fun c => isspace c || Ascii.eqb c ",") s = true
  end.

(** *** The values [json.loads] returns *)

(** A [dict] is kept as the list of its items, in order; its keys are
    distinct.  A [float] is kept as its literal: the analyzer never computes
    with one. *)
Inductive pyval : Type :=
| PNone
| PBool (b : bool)
| PInt (n : Z)
| PFloat (literal : string)
| PStr (s : string)
| PList (items : list pyval)
| PDict (entries : list (string * pyval)).

Definition type_name (v : pyval) : string :=
  match v with
  | PNone => "NoneType"
  | PBool _ => "bool"
  | PInt _ => "int"
  | PFloat _ => "float"
  | PStr _ => "str"
  | PList _ => "list"
  | PDict _ => "dict"
  end.

(** [key in v] for a string [key]: a key of a dict, an item of a list, a
    substring of a string, a [TypeError] otherwise. *)
Definition py_in (key : string) (v : pyval) : res bool :=
  match v with
  | PDict entries => Ok (existsb (fun kv => fst kv =? key) entries)
  | PList items =>
      Ok (existsb (fun x => match x with PStr s => s =? key | _ => false end)
                  items)
  | PStr s => Ok (contains key s)
  | _ => Err ("argument of type '" ++ type_name v ++ "' is not iterable")
  end.

(** [v[key]] for a string [key] *)
Definition py_getitem (v : pyval) (key : string) : res pyval :=
  match v with
  | PDict entries =>
      match find (fun kv => fst kv =? key) entries with
      | Some kv => Ok (snd kv)
      | None => Err ("'" ++ key ++ "'")
      end
  | PList _ => Err "list indices must be integers or slices, not str"
  | PStr _ => Err "string indices must be integers, not 'str'"
  | _ => Err ("'" ++ type_name v ++ "' object is not subscriptable")
  end.

(** [for x in v]: the items of a list, the keys of a dict, the characters of
    a string. *)
Definition py_iter (v : pyval) : res (list pyval) :=
  match v with
  | PList items => Ok items
  | PDict entries => Ok (map (fun kv => PStr (fst kv)) entries)
  | PStr s => Ok (map (fun c => PStr (String c "")) (list_ascii_of_string s))
  | _ => Err ("'" ++ type_name v ++ "' object is not iterable")
  end.

(** [isinstance(v, int)], with the integer the comparisons then see:
    [bool] is a subclass of [int]. *)
Definition as_int (v : pyval) : option Z :=
  match v with
  | PInt n => Some n
  | PBool b => Some (Z.b2z b)
  | _ => None
  end.

(** [json.loads], which raises [JSONDecodeError] on a malformed text. *)
Class Json := {
  json_loads : string -> res pyval
}.

(** What the pydantic models accept for a field: a [str] field takes a
    string as it is, an [int] field takes an integer as it is and a boolean
    as 0 or 1.  Other values are converted or refused, depending on the
    version. *)
Class Pydantic := {
  validate_str : pyval -> res string;
  validate_int : pyval -> res Z;
  validate_str_str : forall s, validate_str (PStr s) = Ok s;
  validate_int_int : forall n, validate_int (PInt n) = Ok n;
  validate_int_bool : forall b, validate_int (PBool b) = Ok (Z.b2z b)
}.

Definition required_fields : list string :=
  ["match_percentage"; "strengths"; "weaknesses"; "summary"].

Definition required_weakness_fields : list string :=
  ["title"; "description"; "suggestion"].

(** [for field in fields: if field not in v: raise ValueError(msg + field)] *)
Fixpoint require_fields (msg : string) (fields : list string) (v : pyval)
  : res unit :=
  match fields with
  | [] => Ok tt
  | field :: rest =>
      do present <- py_in field v;
      if present then require_fields msg rest v else Err (msg ++ field)
  end.

Section Validation.
Context {J : Json} {P : Pydantic}.

Definition parse_strength (strength_data : pyval) : res Strength :=
  do has_title <- py_in "title" strength_data;
  do has_both <-
    (if has_title then py_in "description" strength_data else Ok false);
  if negb has_both then Err "Strength missing title or description"
  else
    do title <- py_getitem strength_data "title";
    do description <- py_getitem strength_data "description";
    do title <- validate_str title;
    do description <- validate_str description;
    Ok {| s_title := title; s_description := description |}.

Definition parse_weakness (weakness_data : pyval) : res Weakness :=
  do _ <- require_fields "Weakness missing " required_weakness_fields
                         weakness_data;
  do title <- py_getitem weakness_data "title";
  do description <- py_getitem weakness_data "description";
  do suggestion <- py_getitem weakness_data "suggestion";
  do title <- validate_str title;
  do description <- validate_str description;
  do suggestion <- validate_str suggestion;
  Ok {| w_title := title; w_description := description;
        w_suggestion := suggestion |}.

(** [for x in items: ...; acc.append(f(x))] *)
Fixpoint parse_each {A : Type} (f : pyval -> res A) (items : list pyval)
  : res (list A) :=
  match items with
  | [] => Ok []
  | x :: rest =>
      do a <- f x;
      do others <- parse_each f rest;
      Ok (a :: others)
  end.

(** The lines the two count checks print. *)
Definition count_warnings (n_strengths n_weaknesses : nat) : list string :=
  ((if (n_strengths =? 4)%nat then []
    else [("Warning: Expected 4 strengths, got "
           ++ str_of_nat n_strengths)%string])
   ++
   (if (n_weaknesses =? 5)%nat then []
    else [("Warning: Expected 5 weaknesses, got "
           ++ str_of_nat n_weaknesses)%string])
  )%list.

(** The checks up to the end of the two loops. *)
Definition parse_entries (data : pyval)
  : res (pyval * list Strength * list Weakness) :=
  do _ <- require_fields "Missing required field: " required_fields data;
  do match_percentage <- py_getitem data "match_percentage";
  match as_int match_percentage with
  | None => Err "Match percentage must be an integer between 0 and 100"
  | Some n =>
      if (n <? 0)%Z || (n >? 100)%Z
      then Err "Match percentage must be an integer between 0 and 100"
      else
        do strengths_data <- py_getitem data "strengths";
        do strengths_items <- py_iter strengths_data;
        do strengths <- parse_each parse_strength strengths_items;
        do weaknesses_data <- py_getitem data "weaknesses";
        do weaknesses_items <- py_iter weaknesses_data;
        do weaknesses <- parse_each parse_weakness weaknesses_items;
        Ok (match_percentage, strengths, weaknesses)
  end.

(** The [try] block from the required-field check on: what it prints and
    what it returns or raises. *)
Definition validate_data (data : pyval) : list string * res AnalysisResult :=
  match parse_entries data with
  | Err e => ([], Err e)
  | Ok (match_percentage, strengths, weaknesses) =>
      (count_warnings (List.length strengths) (List.length weaknesses),
       do summary <- py_getitem data "summary";
       do match_percentage <- validate_int match_percentage;
       do summary <- validate_str summary;
       Ok {| match_percentage := match_percentage;
             strengths := strengths;
             weaknesses := weaknesses;
             summary := summary |})
  end.

(** [response.strip()], without the code fence, stripped again. *)
Definition strip_fences (response : string) : string :=
  let response := strip response in
  let response :=
    if startswith "```json" response then drop 7 response else response in
  let response :=
    if endswith "```" response then drop_last 3 response else response in
  strip response.

Definition _parse_analysis_response (response : option string)
  : list string * res AnalysisResult :=
  match response with
  | None =>
      ([], Err ("Error parsing analysis response: "
                ++ "'NoneType' object has no attribute 'strip'"))
  | Some response =>
      match json_loads (strip_fences response) with
      | Err e => ([], Err ("Invalid JSON response from GitHub Models: " ++ e))
      | Ok data =>
          let '(printed, result) := validate_data data in
          (printed, wrap_exception "Error parsing analysis response: " result)
      end
  end.

End Validation.

(** An entry of the reply that passes the checks of [parse_strength]. *)
Definition strength_entry (v : pyval) (s : Strength) : Prop :=
  exists entries,
    v = PDict entries
    /\ py_getitem v "title" = Ok (PStr (s_title s))
    /\ py_getitem v "description" = Ok (PStr (s_description s)).

(** An entry of the reply that passes the checks of [parse_weakness]. *)
Definition weakness_entry (v : pyval) (w : Weakness) : Prop :=
  exists entries,
    v = PDict entries
    /\ py_getitem v "title" = Ok (PStr (w_title w))
    /\ py_getitem v "description" = Ok (PStr (w_description w))
    /\ py_getitem v "suggestion" = Ok (PStr (w_suggestion w)).

(** The fields of [fields] that the dict [entries] lacks, in order. *)
Definition absent_fields (fields : list string)
  (entries : list (string * pyval)) : list string :=
  filter (fun field => negb (existsb (fun kv => fst kv =? field) entries))
         fields.

(** Replies that lack a key, a field of a strength, a field of a
    weakness. *)
Definition reply_without_lists : pyval :=
  PDict [("match_percentage", PInt 72); ("summary", PStr "Fine.")].

Definition reply_incomplete_strength : pyval :=
  PDict [("match_percentage", PInt 72);
         ("strengths",
          PList [PDict [("title", PStr "Python");
                        ("description", PStr "Five years")];
                 PDict [("title", PStr "Cloud")]]);
         ("weaknesses", PList []);
         ("summary", PStr "Fine.")].

Definition reply_incomplete_weakness : pyval :=
  PDict [("match_percentage", PInt 72);
         ("strengths", PList []);
         ("weaknesses",
          PList [PDict [("title", PStr "Testing");
                        ("suggestion", PStr "Write tests")]]);
         ("summary", PStr "Fine.")].

(** Models that refuse what is not of the type of the field. *)
Definition strict_models : Pydantic :=
  {| validate_str := fun v =>
       match v with
       | PStr s => Ok s
       | _ => Err "Input should be a valid string"
       end;
     validate_int := fun v =>
       match v with
       | PInt n => Ok n
       | PBool b => Ok (Z.b2z b)
       | _ => Err "Input should be a valid integer"
       end;
     validate_str_str := fun _ => eq_refl;
     validate_int_int := fun _ => eq_refl;
     validate_int_bool := fun _ => eq_refl |}.

(** A decoder that knows one document. *)
Definition canned_json (document : string) (data : pyval) : Json :=
  {| json_loads := fun s =>
       if s =? document then Ok data
       else Err "Expecting value: line 1 column 1 (char 0)" |}.

(** A reply with three strengths and no weakness. *)
Definition drifting_reply : pyval :=
  PDict
    [("match_percentage", PInt 72);
     ("strengths",
      PList [PDict [("title", PStr "Python");
                    ("description", PStr "Five years of services in Python")];
             PDict [("title", PStr "Cloud");
                    ("description", PStr "Runs workloads on two providers")];
             PDict [("description", PStr "Leads a team of four");
                    ("title", PStr "Leadership")]]);
     ("weaknesses", PList []);
     ("summary", PStr "A good match with gaps in testing.")].

(** A model reply in a code fence around [document]. *)
Definition fenced (document : string) : string :=
  "```json" ++ String "010" document ++ String "010" "```".

(** A reply whose percentage is the JSON literal [true]. *)
Definition boolean_reply : pyval :=
  PDict
    [("match_percentage", PBool true);
     ("strengths", PList []);
     ("weaknesses", PList []);
     ("summary", PStr "No assessment.")].

(** A model name as the override can list it: not empty, without
    whitespace at either end, without a comma. *)
Definition model_name (m : string) : Prop :=
  m <> "" /\ strip m = m
  /\ forallb_str (fun c => negb (Ascii.eqb c ",")) m = true.

(** An environment that sets the token and the override. *)
Definition with_override (override : string) : environ :=
  fun key =>
    if key =? "GITHUB_TOKEN" then Some "ghp_0123456789"
    else if key =? "GITHUB_MODEL_CANDIDATES" then Some override
    else None.

(** The three layers of context an error of the analysis can carry. *)
Definition analysis_stages : list string :=
  ["Error calling GitHub Models API: ";
   "Invalid JSON response from GitHub Models: ";
   "Error parsing analysis response: "].

(** *** The prompt, the analysis and the fallback *)

(** A text between double quotes. *)
Definition quoted (s : string) : string := String "034" (s ++ String "034" "").

(** The lines of a text, each ended by a newline. *)
Definition unlines (lines : list string) : string :=
  cat (map (fun l => l ++ String "010" "") lines).

(** The lines of the template before the job description, between it and
    the CV, and after the CV. *)
Definition prompt_head : list string :=
  [""; "You are an expert HR analyst specializing in CV evaluation. Analyze the following CV against the job description and provide a detailed assessment.";
   ""; "JOB DESCRIPTION:"].

Definition prompt_middle : list string := [""; "CV CONTENT:"].

Definition prompt_tail : list string :=
  [""; "Please analyze the CV and provide a response in the following JSON format:";
   ""; "{";
   "    " ++ quoted "match_percentage" ++ ": <integer between 0-100>,";
   "    " ++ quoted "strengths" ++ ": [";
   "        {";
   "            " ++ quoted "title" ++ ": " ++ quoted "<strength title>" ++ ",";
   "            " ++ quoted "description" ++ ": "
     ++ quoted "<detailed explanation of why this is a strength>";
   "        }";
   "    ],";
   "    " ++ quoted "weaknesses" ++ ": [";
   "        {";
   "            " ++ quoted "title" ++ ": " ++ quoted "<weakness title>" ++ ",";
   "            " ++ quoted "description" ++ ": "
     ++ quoted "<explanation of the weakness>" ++ ",";
   "            " ++ quoted "suggestion" ++ ": "
     ++ quoted "<specific actionable suggestion for improvement>";
   "        }";
   "    ],";
   "    " ++ quoted "summary" ++ ": "
     ++ quoted "<overall assessment summary in 2-3 sentences>";
   "}";
   "";
   "ANALYSIS CRITERIA:";
   "1. Technical skills alignment (35% weight)";
   "2. Experience level and relevance (25% weight)";
   "3. Education and certifications (20% weight)";
   "4. Soft skills and cultural fit (15% weight)";
   "5. Additional qualifications and achievements (5% weight)";
   "";
   "REQUIREMENTS:";
   "- Provide exactly 4 strengths";
   "- Provide exactly 5 weaknesses";
   "- Match percentage should be realistic and justified";
   "- Strengths should highlight the best matching aspects";
   "- Weaknesses should focus on gaps that matter most for this role";
   "- Suggestions should be specific and actionable";
   "- Consider both explicit matches and transferable skills";
   "- Account for experience level expectations vs. actual experience";
   "";
   "Return ONLY the JSON response, no additional text."].

Definition _create_analysis_prompt (cv_text job_description : string) : string :=
  unlines (prompt_head ++ [job_description] ++ prompt_middle ++ [cv_text]
           ++ prompt_tail)%list.

Section Analysis.
Context {M : ModelEndpoint} {J : Json} {P : Pydantic}.

(** [analyze]: the remote state, the analyzer, the candidates attempted
    and the lines printed come with the result. *)
Definition analyze (self : CVAnalyzer) (cv_text job_description : string)
  (r : Remote)
  : Remote * CVAnalyzer * list string * list string * res AnalysisResult :=
  let prompt := _create_analysis_prompt cv_text job_description in
  let '(r', self', attempted, response_text) :=
    _call_github_models self prompt r in
  match response_text with
  | Err e => (r', self', attempted, [], Err ("Error during CV analysis: " ++ e))
  | Ok response_text =>
      let '(printed, analysis_result) :=
        _parse_analysis_response response_text in
      (r', self', attempted, printed,
       wrap_exception "Error during CV analysis: " analysis_result)
  end.

End Analysis.

(** [set(text.lower().split())], without repetition. *)
Definition word_set (text : string) : list string :=
  nodup string_dec (split_whitespace (lower text)).

(** [a.intersection(b)] *)
Definition intersection (a b : list string) : list string :=
  filter (fun w => existsb (String.eqb w) b) a.

Definition _fallback_analysis (cv_text job_description : string)
  : AnalysisResult :=
  let cv_words := word_set cv_text in
  let job_words := word_set job_description in
  let common_words := intersection cv_words job_words in
  let match_percentage :=
    Z.min 100 (Z.of_nat (List.length common_words) * 2) in
  {| match_percentage := match_percentage;
     strengths :=
       [ {| s_title := "Basic Match Found";
            s_description :=
              "Some keywords match between CV and job description" |};
         {| s_title := "Document Processed";
            s_description := "CV was successfully processed and analyzed" |};
         {| s_title := "Format Compatible";
            s_description := "CV format is supported by the system" |};
         {| s_title := "Content Available";
            s_description := "CV contains readable text content" |} ];
     weaknesses :=
       [ {| w_title := "Detailed Analysis Unavailable";
            w_description := "Full AI analysis could not be completed";
            w_suggestion := "Try again later or check your connection" |};
         {| w_title := "Limited Matching";
            w_description := "Only basic keyword matching was performed";
            w_suggestion := "Ensure your CV contains relevant keywords" |};
         {| w_title := "No Skill Analysis";
            w_description := "Technical skills could not be properly analyzed";
            w_suggestion := "List your technical skills clearly" |};
         {| w_title := "No Experience Evaluation";
            w_description := "Work experience could not be evaluated";
            w_suggestion := "Include detailed work history" |};
         {| w_title := "No Education Assessment";
            w_description := "Educational background was not assessed";
            w_suggestion := "Include education and certifications" |} ];
     summary :=
       "Basic analysis completed with limited functionality. Full AI analysis was not available." |}.

End CVAnalyzer.

(** ** app/main.py *)

Module Main.
Import PyStr Models.

(** What the route answers: the analysis, or an [HTTPException]. *)
Inductive Reply : Type :=
| Respond (analysis_result : AnalysisResult)
| HTTPException (status_code : Z) (detail : string).

Definition supported_suffixes : list string := [".pdf"; ".doc"; ".docx"].

(** [name.endswith((".pdf", ".doc", ".docx"))] *)
Definition endswith_any (suffixes : list string) (name : string) : bool :=
  existsb (fun suffix => endswith suffix name) suffixes.

(** [cv_file and getattr(cv_file, "filename", "")]: the file, when it is
    there and has a name. *)
Definition named_file (cv_file : option FileProcessor.UploadFile)
  : option (FileProcessor.UploadFile * string) :=
  match cv_file with
  | Some file =>
      match FileProcessor.filename file with
      | Some (String c name) => Some (file, String c name)
      | _ => None
      end
  | None => None
  end.

(** [linkedin_url and linkedin_url.strip()]: the stripped address, when it
    is not empty. *)
Definition given_url (linkedin_url : option string) : option string :=
  match linkedin_url with
  | Some (String c url) =>
      match strip (String c url) with
      | "" => None
      | stripped => Some stripped
      end
  | _ => None
  end.

(** [text and text.strip()] *)
Definition has_text (text : string) : bool :=
  CVAnalyzer.nonempty text && CVAnalyzer.nonempty (strip text).

Definition separator : string :=
  String "010" (String "010" ("---" ++ String "010" (String "010" ""))).

Section Route.
Context {D : FileProcessor.Decoders} {W : LinkedInFetcher.Web}
  {M : CVAnalyzer.ModelEndpoint} {J : CVAnalyzer.Json}
  {P : CVAnalyzer.Pydantic}.

(** What a request leaves behind, with its reply: the state of the network
    and of the model service, the analyzer, the requests sent, the
    candidates attempted and the lines printed. *)
Record Outcome := {
  world : LinkedInFetcher.World;
  remote : CVAnalyzer.Remote;
  analyzer : CVAnalyzer.CVAnalyzer;
  requests : list LinkedInFetcher.event;
  attempted : list string;
  printed : list string;
  reply : Reply
}.

(** The first part of the route: the text of the uploaded file, when there
    is one, or the exception that ends the request. *)
Definition cv_sources (cv_file : option FileProcessor.UploadFile)
  : Reply + list string :=
  match named_file cv_file with
  | None => inr []
  | Some (file, name) =>
      if negb (endswith_any supported_suffixes (lower name))
      then inl (HTTPException 400 "Only PDF, DOC, and DOCX files are supported")
      else
        match FileProcessor.extract_text file with
        | Err e => inl (HTTPException 500 e)
        | Ok cv_text =>
            if has_text cv_text
            then inr [("CV Document:" ++ String "010" cv_text)%string]
            else inr []
        end
  end.

(** A request that ends before the model is consulted. *)
Definition ended (cv_analyzer : CVAnalyzer.CVAnalyzer)
  (w : LinkedInFetcher.World) (r : CVAnalyzer.Remote)
  (requests : list LinkedInFetcher.event) (reply : Reply) : Outcome :=
  {| world := w; remote := r; analyzer := cv_analyzer;
     requests := requests; attempted := []; printed := [];
     reply := reply |}.

(** The second part of the route: the text of the profile page, when an
    address is given, added to the sources. *)
Definition profile_sources (linkedin_fetcher : LinkedInFetcher.LinkedInFetcher)
  (url : option string) (sources_text : list string)
  (w : LinkedInFetcher.World)
  : LinkedInFetcher.World * list LinkedInFetcher.event * list string :=
  match url with
  | None => (w, [], sources_text)
  | Some url =>
      let '(w', events, li_text) :=
        LinkedInFetcher._fetch_profile_text_sync linkedin_fetcher url w in
      (w', events,
       if has_text li_text
       then (sources_text
             ++ [("LinkedIn Profile:" ++ String "010" li_text)%string])%list
       else sources_text)
  end.

(** The last part of the route: the analysis of the sources, when there
    are any. *)
Definition analyze_sources (cv_analyzer : CVAnalyzer.CVAnalyzer)
  (job_description : string) (sources_text : list string)
  (w : LinkedInFetcher.World) (requests : list LinkedInFetcher.event)
  (r : CVAnalyzer.Remote) : Outcome :=
  match sources_text with
  | [] =>
      ended cv_analyzer w r requests
        (HTTPException 400 "Could not extract text from the provided inputs.")
  | _ =>
      let combined_text := join separator sources_text in
      let '(r', self', attempted, printed, analysis_result) :=
        CVAnalyzer.analyze cv_analyzer combined_text job_description r in
      {| world := w; remote := r'; analyzer := self';
         requests := requests; attempted := attempted; printed := printed;
         reply :=
           match analysis_result with
           | Ok analysis_result => Respond analysis_result
           | Err e => HTTPException 500 e
           end |}
  end.

Definition analyze_cv (cv_analyzer : CVAnalyzer.CVAnalyzer)
  (linkedin_fetcher : LinkedInFetcher.LinkedInFetcher)
  (job_description : string) (cv_file : option FileProcessor.UploadFile)
  (linkedin_url : option string)
  (w : LinkedInFetcher.World) (r : CVAnalyzer.Remote) : Outcome :=
  match named_file cv_file, given_url linkedin_url with
  | None, None =>
      ended cv_analyzer w r []
        (HTTPException 400 "Please upload a CV or provide a LinkedIn URL.")
  | _, url =>
      match cv_sources cv_file with
      | inl exception => ended cv_analyzer w r [] exception
      | inr sources_text =>
          let '(w', requests, sources_text) :=
            profile_sources linkedin_fetcher url sources_text w in
          analyze_sources cv_analyzer job_description sources_text w' requests r
      end
  end.

(** Some text was extracted for a request: the named file was read as a
    text that is not blank, or the page at the given address was fetched as
    a text that is not blank. *)
Definition text_extracted
  (linkedin_fetcher : LinkedInFetcher.LinkedInFetcher)
  (cv_file : option FileProcessor.UploadFile) (linkedin_url : option string)
  (w : LinkedInFetcher.World) : Prop :=
  (exists file name cv_text,
      named_file cv_file = Some (file, name)
      /\ FileProcessor.extract_text file = Ok cv_text
      /\ strip cv_text <> "")
  \/ (exists u,
         given_url linkedin_url = Some u
         /\ strip (snd (LinkedInFetcher._fetch_profile_text_sync
                          linkedin_fetcher u w)) <> "").

End Route.

End Main.

(** * Properties *)

(** ** Facts about the string primitives *)

Module PyStrFacts.
Import PyStr.

Local Abbreviation collapse := (sub_runs isspace " ").

Lemma isspace_space : isspace " " = true.
Proof. reflexivity. Qed.

Lemma length_take (n : nat) (s : string) : String.length (take n s) <= n.
Proof.
  revert s; induction n as [|n IH]; intros [|c s]; simpl; try lia.
  specialize (IH s); lia.
Qed.

Lemma length_lstrip (s : string) : String.length (lstrip s) <= String.length s.
Proof.
  induction s as [|c s IH]; simpl; [lia|].
  destruct (isspace c); simpl; lia.
Qed.

Lemma length_collapse (b : bool) (s : string) :
  String.length (collapse b s) <= String.length s.
Proof.
  revert b; induction s as [|c s IH]; intros b; cbn [sub_runs]; [simpl; lia|].
  destruct (isspace c).
  - destruct b; cbn [append String.length];
      [specialize (IH true) | specialize (IH true)]; lia.
  - cbn [String.length]. specialize (IH false); lia.
Qed.

(** *** Properties of every character *)

Lemma forallb_str_lstrip (p : ascii -> bool) (s : string) :
  forallb_str p s = true -> forallb_str p (lstrip s) = true.
Proof.
  induction s as [|c s IH]; cbn [lstrip forallb_str]; [easy|].
  intros H; apply andb_prop in H as [Hc Hs].
  destruct (isspace c); [auto|].
  cbn [forallb_str]; now rewrite Hc, Hs.
Qed.

Lemma forallb_str_rstrip (p : ascii -> bool) (s : string) :
  forallb_str p s = true -> forallb_str p (rstrip s) = true.
Proof.
  induction s as [|c s IH]; cbn [rstrip forallb_str]; [easy|].
  intros H; apply andb_prop in H as [Hc Hs]. specialize (IH Hs).
  destruct (rstrip s) as [|d r].
  - destruct (isspace c); cbn [forallb_str]; [easy | now rewrite Hc].
  - change (forallb_str p (String c (String d r)))
      with (p c && forallb_str p (String d r)).
    now rewrite Hc, IH.
Qed.

Lemma forallb_str_strip (p : ascii -> bool) (s : string) :
  forallb_str p s = true -> forallb_str p (strip s) = true.
Proof.
  intros H; unfold strip. now apply forallb_str_rstrip, forallb_str_lstrip.
Qed.

Lemma forallb_str_strip_outside (p keep : ascii -> bool) (s : string) :
  forallb_str p s = true -> forallb_str p (re_strip_outside keep s) = true.
Proof.
  induction s as [|c s IH]; cbn [re_strip_outside forallb_str]; [easy|].
  intros H; apply andb_prop in H as [Hc Hs].
  destruct (keep c); cbn [forallb_str]; [rewrite Hc|]; auto.
Qed.

Lemma strip_outside_kept (keep : ascii -> bool) (s : string) :
  forallb_str keep (re_strip_outside keep s) = true.
Proof.
  induction s as [|c s IH]; cbn [re_strip_outside]; [easy|].
  destruct (keep c) eqn:E; cbn [forallb_str]; [rewrite E|]; auto.
Qed.

Lemma strip_outside_fixed (keep : ascii -> bool) (s : string) :
  forallb_str keep s = true -> re_strip_outside keep s = s.
Proof.
  induction s as [|c s IH]; cbn [re_strip_outside forallb_str]; [easy|].
  intros H; apply andb_prop in H as [Hc Hs]. rewrite Hc. f_equal; auto.
Qed.

Lemma forallb_str_sub_runs (p q : ascii -> bool) (r : ascii) (b : bool)
  (s : string) :
  p r = true -> forallb_str p s = true ->
  forallb_str p (sub_runs q (String r "") b s) = true.
Proof.
  intros Hr. revert b; induction s as [|c s IH]; intros b;
    cbn [sub_runs forallb_str]; [easy|].
  intros H; apply andb_prop in H as [Hc Hs].
  destruct (q c).
  - destruct b; [auto|]. cbn [append forallb_str]. rewrite Hr. cbn. auto.
  - cbn [forallb_str]. rewrite Hc. cbn. auto.
Qed.

Lemma sub_runs_absent (q : ascii -> bool) (r : string) (b : bool) (s : string) :
  forallb_str (fun c => negb (q c)) s = true -> sub_runs q r b s = s.
Proof.
  revert b; induction s as [|c s IH]; intros b; cbn [sub_runs forallb_str];
    [easy|].
  intros H; apply andb_prop in H as [Hc Hs].
  destruct (q c); [discriminate|]. f_equal; auto.
Qed.

(** *** Collapsed whitespace *)

Lemma collapse_single_spaced (b : bool) (s : string) :
  single_spaced b (collapse b s) = true.
Proof.
  revert b; induction s as [|c s IH]; intros b; cbn [sub_runs]; [easy|].
  destruct (isspace c) eqn:E.
  - destruct b; [apply IH|].
    cbn [append single_spaced]. rewrite isspace_space. apply IH.
  - cbn [single_spaced]. rewrite E. apply IH.
Qed.

Lemma single_spaced_fixed (b : bool) (s : string) :
  single_spaced b s = true -> collapse b s = s.
Proof.
  revert b; induction s as [|c s IH]; intros b; cbn [sub_runs single_spaced];
    [easy|].
  destruct (isspace c).
  - intros H. apply andb_prop in H as [H Hs]. apply andb_prop in H as [Hc Hb].
    apply Ascii.eqb_eq in Hc; subst c.
    destruct b; [discriminate|]. cbn [append]. f_equal; auto.
  - intros H. f_equal; auto.
Qed.

Lemma fixed_single_spaced (b : bool) (s : string) :
  collapse b s = s -> single_spaced b s = true.
Proof.
  intros H. rewrite <- H. apply collapse_single_spaced.
Qed.

Lemma single_spaced_plain (b : bool) (s : string) :
  single_spaced b s = true ->
  forallb_str (fun c => negb (isspace c) || Ascii.eqb c " ") s = true.
Proof.
  revert b; induction s as [|c s IH]; intros b;
    cbn [single_spaced forallb_str]; [easy|].
  destruct (isspace c).
  - intros H. apply andb_prop in H as [H Hs]. apply andb_prop in H as [Hc Hb].
    rewrite Hc. cbn. eauto.
  - cbn. eauto.
Qed.

Lemma single_spaced_lstrip (b : bool) (s : string) :
  single_spaced b s = true -> single_spaced false (lstrip s) = true.
Proof.
  revert b; induction s as [|c s IH]; intros b; cbn [single_spaced lstrip];
    [easy|].
  destruct (isspace c) eqn:E.
  - intros H. apply andb_prop in H as [_ Hs]. eauto.
  - cbn [single_spaced]. now rewrite E.
Qed.

Lemma single_spaced_rstrip (b : bool) (s : string) :
  single_spaced b s = true -> single_spaced b (rstrip s) = true.
Proof.
  revert b; induction s as [|c s IH]; intros b; cbn [single_spaced rstrip];
    [easy|].
  destruct (isspace c) eqn:E.
  - intros H. apply andb_prop in H as [H Hs]. specialize (IH _ Hs).
    destruct (rstrip s) as [|d r]; [easy|].
    change (single_spaced b (String c (String d r)))
      with (if isspace c
            then Ascii.eqb c " " && negb b && single_spaced true (String d r)
            else single_spaced false (String d r)).
    rewrite E, H. exact IH.
  - intros H. specialize (IH _ H).
    destruct (rstrip s) as [|d r].
    + cbn [single_spaced]. now rewrite E.
    + change (single_spaced b (String c (String d r)))
        with (if isspace c
              then Ascii.eqb c " " && negb b && single_spaced true (String d r)
              else single_spaced false (String d r)).
      now rewrite E.
Qed.

Lemma single_spaced_strip (b : bool) (s : string) :
  single_spaced b s = true -> single_spaced false (strip s) = true.
Proof.
  intros H. unfold strip. eapply single_spaced_rstrip, single_spaced_lstrip.
  exact H.
Qed.

(** *** Stripped strings *)

Lemma lstrip_fixed_head (c : ascii) (s : string) :
  lstrip (String c s) = String c s -> isspace c = false.
Proof.
  cbn [lstrip]. destruct (isspace c); [|easy].
  intros H. pose proof (length_lstrip s) as L. rewrite H in L.
  cbn [String.length] in L. lia.
Qed.

Lemma lstrip_lstrip (s : string) : lstrip (lstrip s) = lstrip s.
Proof.
  induction s as [|c s IH]; cbn [lstrip]; [easy|].
  destruct (isspace c) eqn:E; [exact IH|]. cbn [lstrip]. now rewrite E.
Qed.

Lemma rstrip_fixed_cons (c : ascii) (s : string) :
  rstrip (String c s) = String c s ->
  (s = "" /\ isspace c = false) \/ (s <> "" /\ rstrip s = s).
Proof.
  cbn [rstrip]. destruct (rstrip s) as [|d r] eqn:E.
  - destruct (isspace c); [discriminate|].
    intros H. injection H as <-. now left.
  - intros H. injection H as <-. now right.
Qed.

Lemma rstrip_rstrip (s : string) : rstrip (rstrip s) = rstrip s.
Proof.
  induction s as [|c s IH]; [easy|]. cbn [rstrip].
  destruct (rstrip s) as [|d r] eqn:E.
  - destruct (isspace c) eqn:Ec; [easy|]. cbn [rstrip]. now rewrite Ec.
  - change (rstrip (String c (String d r)))
      with (match rstrip (String d r) with
            | "" => if isspace c then "" else String c ""
            | String a r' => String c (String a r')
            end).
    now rewrite IH.
Qed.

Lemma lstrip_rstrip (s : string) :
  lstrip s = s -> lstrip (rstrip s) = rstrip s.
Proof.
  destruct s as [|c s]; [easy|]. intros H.
  apply lstrip_fixed_head in H. cbn [rstrip].
  destruct (rstrip s) as [|d r]; rewrite ?H; cbn [lstrip]; now rewrite H.
Qed.

Lemma strip_fixed (s : string) :
  lstrip s = s -> rstrip s = s -> strip s = s.
Proof. intros Hl Hr. unfold strip. now rewrite Hl. Qed.

Lemma lstrip_strip (s : string) : lstrip (strip s) = strip s.
Proof. unfold strip. apply lstrip_rstrip, lstrip_lstrip. Qed.

Lemma rstrip_strip (s : string) : rstrip (strip s) = strip s.
Proof. unfold strip. apply rstrip_rstrip. Qed.

Lemma lstrip_collapse (s : string) :
  lstrip s = s -> lstrip (collapse false s) = collapse false s.
Proof.
  destruct s as [|c s]; [easy|]. intros H.
  apply lstrip_fixed_head in H. cbn [sub_runs]. rewrite H.
  cbn [lstrip]. now rewrite H.
Qed.

Lemma collapse_empty (b : bool) (s : string) :
  collapse b s = "" -> rstrip s = "".
Proof.
  revert b; induction s as [|c s IH]; intros b; cbn [sub_runs]; [easy|].
  destruct (isspace c) eqn:E; [|discriminate].
  destruct b; [|discriminate].
  intros H. cbn [rstrip]. now rewrite (IH _ H), E.
Qed.

Lemma rstrip_collapse (b : bool) (s : string) :
  rstrip s = s -> rstrip (collapse b s) = collapse b s.
Proof.
  revert b; induction s as [|c s IH]; intros b H; [easy|].
  apply rstrip_fixed_cons in H as [[-> Hc] | [Hne Hs]].
  - cbn [sub_runs]. rewrite Hc. cbn [rstrip]. now rewrite Hc.
  - cbn [sub_runs]. destruct (isspace c) eqn:E.
    + destruct b; [auto|]. cbn [append rstrip]. rewrite (IH true Hs).
      destruct (collapse true s) eqn:X; [|easy].
      apply collapse_empty in X. congruence.
    + cbn [rstrip]. rewrite (IH false Hs).
      destruct (collapse false s) eqn:X; [|easy].
      apply collapse_empty in X. congruence.
Qed.

(** *** Substrings *)

Lemma prefix_app (sub a b : string) :
  prefix sub a = true -> prefix sub (a ++ b) = true.
Proof.
  revert a; induction sub as [|c sub IH]; intros a.
  - intros _. destruct a; [destruct b|]; reflexivity.
  - destruct a as [|d a]; cbn [prefix append]; [discriminate|].
    destruct (ascii_dec c d); [apply IH | discriminate].
Qed.

Lemma contains_app (sub a b : string) :
  contains sub a = true -> contains sub (a ++ b) = true.
Proof.
  induction a as [|d a IH].
  - destruct sub; [|discriminate]. intros _. now destruct b.
  - change (String d a ++ b) with (String d (a ++ b)). cbn [contains].
    intros H. apply orb_prop in H as [H|H].
    + apply (prefix_app _ _ b) in H.
      change (String d a ++ b) with (String d (a ++ b)) in H. now rewrite H.
    + rewrite (IH H). apply orb_true_r.
Qed.

Lemma lower_app (a b : string) : lower (a ++ b) = lower a ++ lower b.
Proof. induction a as [|c a IH]; cbn [lower append]; now rewrite ?IH. Qed.

Lemma contains_unfold (sub s : string) :
  contains sub s
  = prefix sub s || match s with "" => false | String _ s' => contains sub s' end.
Proof. now destruct s. Qed.

Lemma prefix_iff (sub s : string) :
  prefix sub s = true <-> exists post, s = sub ++ post.
Proof.
  split.
  - revert s; induction sub as [|c sub IH]; intros s H; [now exists s|].
    destruct s as [|d s]; cbn [prefix] in H; [discriminate|].
    destruct (ascii_dec c d) as [<-|]; [|discriminate].
    destruct (IH _ H) as [post ->]. now exists post.
  - intros [post ->]. induction sub as [|c sub IH]; [now destruct post|].
    cbn [append prefix]. now destruct (ascii_dec c c).
Qed.

Lemma contains_iff (sub s : string) :
  contains sub s = true <-> exists pre post, s = pre ++ sub ++ post.
Proof.
  split.
  - induction s as [|d s IH]; rewrite contains_unfold; intros H;
      apply orb_prop in H as [H|H]; try discriminate.
    + apply prefix_iff in H as [post H]. now exists "", post.
    + apply prefix_iff in H as [post H]. now exists "", post.
    + destruct (IH H) as (pre & post & ->). now exists (String d pre), post.
  - intros (pre & post & ->). induction pre as [|d pre IH].
    + rewrite contains_unfold. apply orb_true_intro. left.
      apply prefix_iff. now exists post.
    + cbn [append contains]. rewrite IH. apply orb_true_r.
Qed.

Lemma lower_app_inv (e a b : string) :
  lower e = a ++ b -> exists e1 e2, e = e1 ++ e2 /\ lower e1 = a /\ lower e2 = b.
Proof.
  revert e; induction a as [|c a IH]; intros e H; [now exists "", e|].
  destruct e as [|d e]; [discriminate|]. cbn [lower append] in H.
  injection H as Hc H. destruct (IH _ H) as (e1 & e2 & -> & <- & <-).
  exists (String d e1), e2. cbn [lower append]. now rewrite Hc.
Qed.

End PyStrFacts.

(** ** The document extractor *)

Module FileProcessorSpec.
Import PyStr PyStrFacts FileProcessor.

Local Abbreviation collapse := (sub_runs isspace " ").

Example clean_text_runs :
  _clean_text ("  Hello," ++ String "010" (String "010" " wor$ld  "))
  = "Hello, world".
Proof. reflexivity. Qed.

Example clean_text_leaves_two_spaces :
  _clean_text "a ! b" = "a  b" /\ _clean_text "a  b" = "a b".
Proof. split; reflexivity. Qed.

Example file_extension_last_part :
  file_extension "cv.final.PDF" = "pdf" /\ file_extension "pdf" = "pdf".
Proof. split; reflexivity. Qed.

Lemma newline_is_space (c : ascii) : is_newline c = true -> isspace c = true.
Proof.
  unfold is_newline, is_code, code. intros H. apply N.eqb_eq in H.
  rewrite <- (ascii_N_embedding c), H. reflexivity.
Qed.

Lemma newline_not_plain (c : ascii) :
  is_newline c = true -> Ascii.eqb c " " = false.
Proof.
  unfold is_newline, is_code, code. intros H. apply N.eqb_eq in H.
  rewrite <- (ascii_N_embedding c), H. reflexivity.
Qed.

Lemma space_whitelisted (c : ascii) : isspace c = true -> whitelisted c = true.
Proof.
  intros H. unfold whitelisted. rewrite H. now rewrite orb_true_r.
Qed.

Lemma plain_no_newline (s : string) :
  forallb_str (fun c => negb (isspace c) || Ascii.eqb c " ") s = true ->
  forallb_str (fun c => negb (is_newline c)) s = true.
Proof.
  induction s as [|c s IH]; cbn [forallb_str]; [easy|].
  intros H. apply andb_prop in H as [Hc Hs]. rewrite (IH Hs), andb_true_r.
  destruct (is_newline c) eqn:E; [|easy].
  now rewrite (newline_is_space _ E), (newline_not_plain _ E) in Hc.
Qed.

Lemma clean_text_cleaned (s : string) : cleaned (_clean_text s).
Proof.
  destruct s as [|c s]; [now split|].
  unfold _clean_text, re_sub_plus.
  split.
  - apply forallb_str_strip, strip_outside_kept.
  - apply forallb_str_strip, forallb_str_strip_outside.
    eapply single_spaced_plain, collapse_single_spaced.
  - apply lstrip_strip.
  - apply rstrip_strip.
Qed.

(** On a text that is already clean, cleaning only collapses the runs of
    spaces. *)
Lemma clean_text_of_cleaned (t : string) :
  cleaned t -> _clean_text t = collapse false t.
Proof.
  intros [Hw Hp Hl Hr]. destruct t as [|c t]; [easy|].
  unfold _clean_text, re_sub_plus.
  rewrite (sub_runs_absent is_newline) by now apply plain_no_newline.
  rewrite strip_outside_fixed
    by (apply forallb_str_sub_runs; [reflexivity | exact Hw]).
  apply strip_fixed; [now apply lstrip_collapse | now apply rstrip_collapse].
Qed.

Lemma collapse_cleaned (t : string) : cleaned t -> cleaned (collapse false t).
Proof.
  intros [Hw Hp Hl Hr]. split.
  - apply forallb_str_sub_runs; [reflexivity | exact Hw].
  - eapply single_spaced_plain, collapse_single_spaced.
  - now apply lstrip_collapse.
  - now apply rstrip_collapse.
Qed.

(** C5, as the code has it: a second cleaning changes the text exactly when
    the first left two adjacent spaces, which it does not when every
    character of the input is on the whitelist; a third cleaning never
    changes anything. *)
Theorem clean_text_stable (s : string) :
  (_clean_text (_clean_text s) = _clean_text s
   <-> single_spaced false (_clean_text s) = true)
  /\ (forallb_str whitelisted s = true ->
      _clean_text (_clean_text s) = _clean_text s)
  /\ _clean_text (_clean_text (_clean_text s)) = _clean_text (_clean_text s).
Proof.
  pose proof (clean_text_cleaned s) as C.
  assert (E : _clean_text (_clean_text s) = collapse false (_clean_text s))
    by now apply clean_text_of_cleaned.
  assert (I : _clean_text (_clean_text s) = _clean_text s
              <-> single_spaced false (_clean_text s) = true).
  { rewrite E. split;
      [apply fixed_single_spaced | apply single_spaced_fixed]. }
  split; [exact I|]. split.
  - intros Hw. apply I. destruct s as [|c s]; [easy|].
    unfold _clean_text, re_sub_plus.
    rewrite strip_outside_fixed.
    + eapply single_spaced_strip, collapse_single_spaced.
    + apply forallb_str_sub_runs; [reflexivity|].
      apply forallb_str_sub_runs; [reflexivity | exact Hw].
  - rewrite E at 1. rewrite (clean_text_of_cleaned _ (collapse_cleaned _ C)).
    rewrite E. apply single_spaced_fixed, collapse_single_spaced.
Qed.

Lemma clean_text_stable_witness :
  _clean_text (_clean_text "Senior  Engineer (C++), 2019-2024 ")
  = _clean_text "Senior  Engineer (C++), 2019-2024 ".
Proof.
  apply (proj1 (proj2 (clean_text_stable "Senior  Engineer (C++), 2019-2024 "))).
  reflexivity.
Defined.

(** C5, as the specification words it, fails: a character outside the
    whitelist that stands between two spaces leaves them adjacent. *)
Lemma clean_text_not_idempotent :
  ~ (forall s : string, _clean_text (_clean_text s) = _clean_text s).
Proof.
  intros H. specialize (H "a ! b"). vm_compute in H. discriminate.
Qed.

(** *** Dispatch on the file name *)

Lemma split_nonempty (sep : ascii) (s : string) : split sep s <> [].
Proof.
  destruct s as [|c s]; cbn [split]; [easy|].
  destruct (Ascii.eqb c sep); [easy|]. now destruct (split sep s).
Qed.

Lemma split_without_sep (sep : ascii) (s : string) :
  forallb_str (fun c => negb (Ascii.eqb c sep)) s = true -> split sep s = [s].
Proof.
  induction s as [|c s IH]; cbn [split forallb_str]; [easy|].
  intros H. apply andb_prop in H as [Hc Hs].
  destruct (Ascii.eqb c sep); [discriminate|]. now rewrite (IH Hs).
Qed.

Lemma split_app (sep : ascii) (pre rest : string) :
  split sep (pre ++ String sep rest) = (split sep pre ++ split sep rest)%list.
Proof.
  induction pre as [|c pre IH]; cbn [append split].
  - now rewrite Ascii.eqb_refl.
  - destruct (Ascii.eqb c sep); rewrite IH; [easy|].
    pose proof (split_nonempty sep pre) as N.
    now destruct (split sep pre).
Qed.

Lemma last_app_nonempty {A : Type} (l1 l2 : list A) (d : A) :
  l2 <> [] -> last (l1 ++ l2) d = last l2 d.
Proof.
  intros N. induction l1 as [|x l1 IH]; [easy|].
  cbn [app]. cbn [last]. destruct (l1 ++ l2)%list eqn:E; [|exact IH].
  apply app_eq_nil in E as [_ E]. contradiction.
Qed.

Lemma file_extension_after_last_dot (name pre ext : string) :
  lower name = pre ++ "." ++ ext ->
  forallb_str (fun c => negb (Ascii.eqb c ".")) ext = true ->
  file_extension name = ext.
Proof.
  intros E N. unfold file_extension. rewrite E.
  change (pre ++ "." ++ ext) with (pre ++ String "." ext).
  rewrite split_app, last_app_nonempty by apply split_nonempty.
  now rewrite split_without_sep.
Qed.

(** A name without a dot is its own extension, once lowercased. *)
Lemma file_extension_without_dot (name : string) :
  forallb_str (fun c => negb (Ascii.eqb c ".")) (lower name) = true ->
  file_extension name = lower name.
Proof.
  intros N. unfold file_extension. now rewrite split_without_sep.
Qed.

Section Dispatch.
Context {D : Decoders}.

(** C10: the extractor dispatches on the part of the lowercased file name
    that follows its last dot and on nothing else of the name; [doc] goes to
    the decoder of [docx]; a payload that decoder refuses makes the
    extraction of a [.doc] file fail. *)
Theorem extract_text_dispatch :
  (forall name pre ext,
      lower name = pre ++ "." ++ ext ->
      forallb_str (fun c => negb (Ascii.eqb c ".")) ext = true ->
      file_extension name = ext)
  /\ (forall name1 name2 content,
         file_extension name1 = file_extension name2 ->
         extract_text {| filename := Some name1; file_read := content |}
         = extract_text {| filename := Some name2; file_read := content |})
  /\ (forall name content,
         file_extension name = "doc" \/ file_extension name = "docx" ->
         extract_text {| filename := Some name; file_read := content |}
         = wrap_exception "Error processing file: "
                          (_extract_from_word content))
  /\ (forall name content e,
         file_extension name = "doc" ->
         Document content = Err e ->
         extract_text {| filename := Some name; file_read := content |}
         = Err ("Error processing file: "
                ++ "Failed to extract Word document text: " ++ e)).
Proof.
  split; [exact file_extension_after_last_dot|].
  split; [|split].
  - intros name1 name2 content E. unfold extract_text.
    cbn [filename file_read]. now rewrite E.
  - intros name content [E|E]; unfold extract_text;
      cbn [filename file_read]; now rewrite E.
  - intros name content e E R. unfold extract_text, _extract_from_word.
    cbn [filename file_read]. rewrite E, R. reflexivity.
Qed.

End Dispatch.

Lemma extract_text_dispatch_witness :
  file_extension "Resume.2019.DOC" = "doc"
  /\ extract_text (D := refusing_decoders)
       {| filename := Some "Resume.2019.DOC"; file_read := [Byte.xd0; Byte.xcf] |}
     = Err ("Error processing file: "
            ++ "Failed to extract Word document text: "
            ++ "File is not a zip file").
Proof.
  pose proof (extract_text_dispatch (D := refusing_decoders))
    as [Hext [_ [_ Hfail]]].
  assert (E : file_extension "Resume.2019.DOC" = "doc").
  { apply (Hext "Resume.2019.DOC" "resume.2019" "doc"); reflexivity. }
  split; [exact E|].
  apply Hfail; [exact E | reflexivity].
Defined.

End FileProcessorSpec.

(** ** The profile page extractor *)

Module LinkedInFetcherSpec.
Import PyStr PyStrFacts LinkedInFetcher.
Local Open Scope Z_scope.

Example score_counts_each_keyword_once :
  score_text "Experience, education and SKILLS; experience again" = 3.
Proof. reflexivity. Qed.

Example sorted_desc_keeps_ties :
  sorted_desc snd [("a", 1); ("b", 3); ("c", 1); ("d", 3); ("e", 2)]
  = [("b", 3); ("d", 3); ("e", 2); ("a", 1); ("c", 1)].
Proof. reflexivity. Qed.

Example clean_text_drops_artifacts :
  _clean_text ("  About  me See More and" ++ String "010" "show LESS done ")
  = "About me  and  done".
Proof. reflexivity. Qed.

Example dedupe_keeps_first :
  _dedupe_preserve_order ["a"; "b"; "a"; "c"; "b"] = ["a"; "b"; "c"].
Proof. reflexivity. Qed.

Example section_ranked_before_div :
  map position (top_sections (collect_candidates div_then_section))
  = [1%nat; 0%nat].
Proof. reflexivity. Qed.

(** *** The relevance score *)

Lemma count_loop (p : string -> bool) (l : list string) (acc : Z) :
  fold_left (fun score kw => if p kw then score + 1 else score) l acc
  = acc + Z.of_nat (List.length (filter p l)).
Proof.
  revert acc; induction l as [|kw l IH]; intros acc; cbn [fold_left filter].
  - cbn. lia.
  - rewrite IH. destruct (p kw); cbn [List.length]; lia.
Qed.

Lemma keyword_hits_count (t : string) :
  keyword_hits t
  = Z.of_nat (List.length (filter (fun kw => contains kw (lower t)) keywords)).
Proof. unfold keyword_hits. now rewrite count_loop. Qed.

Lemma filter_length_incl {A : Type} (p q : A -> bool) (l : list A) :
  (forall x, In x l -> p x = true -> q x = true) ->
  (List.length (filter p l) <= List.length (filter q l))%nat.
Proof.
  induction l as [|x l IH]; intros H; cbn [filter]; [lia|].
  assert (IH' : (List.length (filter p l) <= List.length (filter q l))%nat)
    by (apply IH; intros y Hy; apply H; now right).
  destruct (p x) eqn:Ep.
  - rewrite (H x (or_introl eq_refl) Ep). cbn [List.length]. lia.
  - destruct (q x); cbn [List.length]; lia.
Qed.

Lemma keyword_hits_bounds (t : string) : 0 <= keyword_hits t <= 12.
Proof.
  rewrite keyword_hits_count.
  pose proof (filter_length_le (fun kw => contains kw (lower t)) keywords) as L.
  change (List.length keywords) with 12%nat in L. lia.
Qed.

Lemma length_bonus_monotone (t1 t2 : string) :
  len t1 <= len t2 -> length_bonus t1 <= length_bonus t2.
Proof.
  intros H. unfold length_bonus.
  apply Z.min_le_compat_r, Z.div_le_mono; lia.
Qed.

Lemma len_app (a b : string) : len (a ++ b) = len a + len b.
Proof.
  unfold len. induction a as [|c a IH]; cbn [append String.length]; lia.
Qed.

Lemma score_text_monotone (t1 t2 : string) :
  keyword_hits t1 <= keyword_hits t2 -> len t1 <= len t2 ->
  score_text t1 <= score_text t2.
Proof.
  intros Hk Hl. unfold score_text.
  pose proof (length_bonus_monotone t1 t2 Hl). lia.
Qed.

Lemma keyword_hits_incl (t1 t2 : string) :
  (forall kw, In kw keywords ->
     contains kw (lower t1) = true -> contains kw (lower t2) = true) ->
  keyword_hits t1 <= keyword_hits t2.
Proof.
  intros H. rewrite !keyword_hits_count. apply Nat2Z.inj_le.
  now apply filter_length_incl.
Qed.

(** Appending text to an element never lowers its score. *)
Lemma score_text_app (t u : string) : score_text t <= score_text (t ++ u).
Proof.
  apply score_text_monotone.
  - apply keyword_hits_incl. intros kw _ H.
    rewrite lower_app. now apply contains_app.
  - rewrite len_app. unfold len. lia.
Qed.

(** C8: the score of an element is its number of keyword hits plus the
    length bonus [min(len // 200, 5)], and it does not decrease when the
    hits do not decrease and the text does not get shorter; the hits do not
    decrease when every keyword found in the first text is found in the
    second. *)
Theorem score_section_monotone (n1 n2 : node) :
  let t1 := get_text (snd n1) in
  let t2 := get_text (snd n2) in
  score_section n1 = keyword_hits t1 + Z.min (len t1 / 200) 5
  /\ (keyword_hits t1 <= keyword_hits t2 -> len t1 <= len t2 ->
      score_section n1 <= score_section n2)
  /\ ((forall kw, In kw keywords ->
         contains kw (lower t1) = true -> contains kw (lower t2) = true) ->
      keyword_hits t1 <= keyword_hits t2).
Proof.
  intros t1 t2. split; [reflexivity|]. split.
  - apply score_text_monotone.
  - apply keyword_hits_incl.
Qed.

Lemma score_section_monotone_witness :
  score_section (0%nat, {| name := "div"; get_text := "Work experience" |})
  <= score_section
       (1%nat, {| name := "section";
                  get_text := "Work experience and education" |}).
Proof.
  pose proof (score_section_monotone
                (0%nat, {| name := "div"; get_text := "Work experience" |})
                (1%nat, {| name := "section";
                           get_text := "Work experience and education" |}))
    as [_ [M K]].
  apply M.
  - apply K. cbn [snd get_text]. intros kw Hin.
    cbn [keywords In] in Hin.
    repeat (destruct Hin as [<-|Hin];
            [vm_compute; intros E; first [exact E | discriminate E]|]).
    destruct Hin.
  - vm_compute. discriminate.
Defined.

(** *** The ranking of the candidates *)

Section Sorted.
Context {A : Type}.

Lemma StronglySorted_app_l (R : A -> A -> Prop) (l1 l2 : list A) :
  StronglySorted R (l1 ++ l2) -> StronglySorted R l1.
Proof.
  induction l1 as [|x l1 IH]; cbn [app]; intros H; [constructor|].
  apply StronglySorted_inv in H as [H F]. constructor; [auto|].
  apply Forall_app in F. tauto.
Qed.

Lemma StronglySorted_app (R : A -> A -> Prop) (l1 l2 : list A) :
  StronglySorted R l1 -> StronglySorted R l2 ->
  (forall a b, In a l1 -> In b l2 -> R a b) ->
  StronglySorted R (l1 ++ l2).
Proof.
  intros H1 H2 H. induction H1 as [|x l1 H1 IH F]; cbn [app]; [exact H2|].
  constructor.
  - apply IH. intros a b Ha. apply H. now right.
  - apply Forall_app. split; [exact F|].
    apply Forall_forall. intros b Hb. apply H; [now left | exact Hb].
Qed.

Lemma StronglySorted_filter (R : A -> A -> Prop) (p : A -> bool) (l : list A) :
  StronglySorted R l -> StronglySorted R (filter p l).
Proof.
  induction 1 as [|x l H IH F]; cbn [filter]; [constructor|].
  destruct (p x); [|exact IH]. constructor; [exact IH|].
  apply Forall_forall. intros y Hy. apply filter_In in Hy as [Hy _].
  revert y Hy. now apply Forall_forall.
Qed.

Lemma StronglySorted_among (R R' : A -> A -> Prop) (l : list A) :
  (forall a b, In a l -> In b l -> R a b -> R' a b) ->
  StronglySorted R l -> StronglySorted R' l.
Proof.
  intros H S. induction S as [|x l S IH F]; constructor.
  - apply IH. intros a b Ha Hb. apply H; now right.
  - rewrite Forall_forall in *. intros y Hy.
    apply H; [now left | now right | auto].
Qed.

(** Two items of a list that both pass a filter stand in the order of the
    filtered list. *)
Lemma sorted_filter_nth (R : A -> A -> Prop) (p : A -> bool) (l : list A) :
  StronglySorted R (filter p l) ->
  forall i j a b,
    (i < j)%nat -> nth_error l i = Some a -> nth_error l j = Some b ->
    p a = true -> p b = true -> R a b.
Proof.
  induction l as [|x l IH]; intros S i j a b Hij Hi Hj Ha Hb.
  - now destruct i.
  - destruct j as [|j]; [lia|]. cbn [nth_error] in Hj.
    destruct i as [|i].
    + cbn [nth_error] in Hi. injection Hi as ->.
      cbn [filter] in S. rewrite Ha in S.
      apply StronglySorted_inv in S as [_ F].
      rewrite Forall_forall in F. apply F, filter_In.
      split; [eapply nth_error_In; eauto | exact Hb].
    + cbn [nth_error] in Hi. apply (IH) with (i := i) (j := j); auto; [|lia].
      cbn [filter] in S. destruct (p x); [|exact S].
      now apply StronglySorted_inv in S.
Qed.

Variable key : A -> Z.

Lemma insert_desc_In (x y : A) (l : list A) :
  In y (insert_desc key x l) <-> y = x \/ In y l.
Proof.
  induction l as [|z l IH]; cbn [insert_desc].
  - cbn. intuition.
  - destruct (key x <? key z); cbn [In]; [rewrite IH|]; intuition.
Qed.

Lemma insert_desc_sorted (x : A) (l : list A) :
  StronglySorted (fun a b => key b <= key a) l ->
  StronglySorted (fun a b => key b <= key a) (insert_desc key x l).
Proof.
  induction 1 as [|z l S IH F]; cbn [insert_desc].
  - repeat constructor.
  - destruct (key x <? key z) eqn:E.
    + apply Z.ltb_lt in E. constructor; [exact IH|].
      rewrite Forall_forall in *. intros y Hy.
      apply insert_desc_In in Hy as [->|Hy]; [lia | auto].
    + apply Z.ltb_ge in E. constructor; [now constructor|].
      constructor; [exact E|].
      rewrite Forall_forall in *. intros y Hy. specialize (F y Hy). lia.
Qed.

Lemma sorted_desc_sorted (l : list A) :
  StronglySorted (fun a b => key b <= key a) (sorted_desc key l).
Proof.
  induction l as [|x l IH]; cbn [sorted_desc fold_right]; [constructor|].
  now apply insert_desc_sorted.
Qed.

(** The sort is stable: the items of one key keep their order. *)
Lemma filter_insert_desc (k : Z) (x : A) (l : list A) :
  filter (fun y => key y =? k) (insert_desc key x l)
  = filter (fun y => key y =? k) (x :: l).
Proof.
  induction l as [|z l IH]; cbn [insert_desc]; [easy|].
  destruct (key x <? key z) eqn:E; [|easy].
  apply Z.ltb_lt in E. cbn [filter] in *. rewrite IH.
  destruct (key x =? k) eqn:Ex, (key z =? k) eqn:Ez; try easy.
  apply Z.eqb_eq in Ex, Ez. lia.
Qed.

Lemma filter_sorted_desc (k : Z) (l : list A) :
  filter (fun y => key y =? k) (sorted_desc key l)
  = filter (fun y => key y =? k) l.
Proof.
  induction l as [|x l IH]; [easy|].
  change (sorted_desc key (x :: l)) with (insert_desc key x (sorted_desc key l)).
  rewrite filter_insert_desc. cbn [filter]. now rewrite IH.
Qed.

(** Ties of the first [n] items of the sorted list stand in any order in
    which the input was sorted. *)
Lemma firstn_sorted_desc_ties (R : A -> A -> Prop) (n : nat) (l : list A) :
  StronglySorted R l ->
  ties_ordered key R (firstn n (sorted_desc key l)).
Proof.
  intros S i j a b Hij Hi Hj E.
  apply (sorted_filter_nth R (fun y => key y =? key a)
                           (firstn n (sorted_desc key l))) with i j; auto.
  - apply StronglySorted_app_l
      with (l2 := filter (fun y => key y =? key a)
                         (skipn n (sorted_desc key l))).
    rewrite <- filter_app, firstn_skipn, filter_sorted_desc.
    now apply StronglySorted_filter.
  - apply Z.eqb_refl.
  - apply Z.eqb_eq. now symmetry.
Qed.

End Sorted.

Lemma position_combine_seq (els : list Tag) (start : nat) (n : node) :
  In n (combine (seq start (List.length els)) els) -> (start <= position n)%nat.
Proof.
  destruct n as [i e]. intros H. apply in_combine_l, in_seq in H.
  cbn [position fst]. lia.
Qed.

Lemma combine_seq_sorted (els : list Tag) (start : nat) :
  StronglySorted document_order (combine (seq start (List.length els)) els).
Proof.
  revert start; induction els as [|e els IH]; intros start;
    cbn [List.length seq combine]; constructor; [apply IH|].
  apply Forall_forall. intros n Hn. apply position_combine_seq in Hn.
  unfold document_order. cbn [position fst]. lia.
Qed.

Lemma select_rank (soup : Soup) (sel : string) (n : node) :
  In n (select soup sel) -> name (snd n) = sel.
Proof.
  unfold select. intros H. apply filter_In in H as [_ H].
  now apply String.eqb_eq.
Qed.

Lemma select_sorted (soup : Soup) (sel : string) :
  StronglySorted candidate_order (select soup sel).
Proof.
  apply StronglySorted_among with (R := document_order).
  - intros a b Ha Hb H. right. split; [|exact H].
    unfold selector_rank.
    now rewrite (select_rank _ _ _ Ha), (select_rank _ _ _ Hb).
  - apply StronglySorted_filter, combine_seq_sorted.
Qed.

Lemma collect_candidates_sorted (soup : Soup) :
  StronglySorted candidate_order (collect_candidates soup).
Proof.
  unfold collect_candidates. cbn [fold_left selectors app].
  repeat apply StronglySorted_app; try apply select_sorted;
    intros a b Ha Hb; left; unfold selector_rank.
  - rewrite (select_rank _ _ _ Ha), (select_rank _ _ _ Hb); cbn; lia.
  - apply in_app_or in Ha as [Ha|Ha];
      rewrite (select_rank _ _ _ Ha), (select_rank _ _ _ Hb); cbn; lia.
Qed.

(** C6, as the code has it: the kept candidates are at most 12, by
    decreasing score, and two of equal score stand in the order of the
    candidate list, which lists the [section] elements, then the [main]
    elements, then the [div] elements, each group in document order. *)
Theorem top_sections_ties (soup : Soup) :
  let kept := top_sections (collect_candidates soup) in
  (List.length kept <= 12)%nat
  /\ StronglySorted (fun a b => score_section b <= score_section a) kept
  /\ ties_ordered score_section candidate_order kept.
Proof.
  cbn zeta. unfold top_sections. split; [apply firstn_le_length|]. split.
  - apply StronglySorted_app_l
      with (l2 := skipn 12 (sorted_desc score_section (collect_candidates soup))).
    rewrite firstn_skipn. apply sorted_desc_sorted.
  - apply firstn_sorted_desc_ties, collect_candidates_sorted.
Qed.

Lemma top_sections_ties_witness :
  candidate_order
    (1%nat, {| name := "section"; get_text := "Based in Lisbon" |})
    (0%nat, {| name := "div"; get_text := "Open to work" |}).
Proof.
  apply (proj2 (proj2 (top_sections_ties div_then_section)) 0%nat 1%nat);
    [lia | reflexivity | reflexivity | reflexivity].
Defined.

(** C6, as the specification words it, fails: a [div] that precedes a
    [section] of the same score in the page is ranked behind it. *)
Lemma top_sections_not_document_order :
  ~ (forall soup : Soup,
        ties_ordered score_section document_order
                     (top_sections (collect_candidates soup))).
Proof.
  intros H.
  specialize (H div_then_section 0%nat 1%nat
                (1%nat, {| name := "section"; get_text := "Based in Lisbon" |})
                (0%nat, {| name := "div"; get_text := "Open to work" |})).
  unfold document_order in H. cbn [position fst] in H.
  assert (1 < 0)%nat; [|lia].
  apply H; [lia | reflexivity | reflexivity | reflexivity].
Qed.

(** *** Degrading to the empty string *)

Lemma len_slice_to (n : Z) (s : string) : 0 <= n -> len (slice_to n s) <= n.
Proof.
  intros H. unfold len, slice_to.
  pose proof (length_take (Z.to_nat n) s). lia.
Qed.

Section Degrade.
Context {W : Web}.

Lemma fetch_body_bounded (self : LinkedInFetcher) (url : string) (w : World)
  (out : string) :
  snd (fetch_body self url w) = Ok out -> len out <= 30000.
Proof.
  unfold fetch_body.
  destruct ((url =? "")%string || negb (contains "linkedin.com" url))%bool.
  - cbn [snd]. intros H. injection H as <-. cbn. lia.
  - destruct (requests_get _ _ _ _) as [w1 [response|e]]; cbn [snd bind];
      [|discriminate].
    destruct (negb (status_code response =? 200));
      [intros H; injection H as <-; cbn; lia|].
    destruct (contains_any _ _);
      [intros H; injection H as <-; cbn; lia|].
    destruct (BeautifulSoup _) as [soup|e]; cbn [bind]; [|discriminate].
    intros H. injection H as <-. apply len_slice_to. lia.
Qed.

Lemma fetch_body_not_profile (self : LinkedInFetcher) (url : string)
  (w : World) :
  contains "linkedin.com" url = false -> fetch_body self url w = (w, [], Ok "").
Proof.
  intros H. unfold fetch_body. rewrite H. cbn [negb].
  now rewrite orb_true_r.
Qed.

Lemma fetch_body_request_raises (self : LinkedInFetcher) (url : string)
  (w : World) (e : string) :
  snd (requests_get url (_headers self) (request_timeout_seconds self) w)
  = Err e ->
  snd (fetch_body self url w) = Ok "" \/ snd (fetch_body self url w) = Err e.
Proof.
  unfold fetch_body.
  destruct ((url =? "")%string || negb (contains "linkedin.com" url))%bool;
    [now left|].
  destruct (requests_get _ _ _ _) as [w1 r]. cbn [snd].
  intros ->. now right.
Qed.

Lemma fetch_body_response_unusable (self : LinkedInFetcher) (url : string)
  (w : World) (response : Response) :
  snd (requests_get url (_headers self) (request_timeout_seconds self) w)
  = Ok response ->
  status_code response <> 200
  \/ (exists e, BeautifulSoup (text response) = Err e) ->
  snd (fetch_body self url w) = Ok ""
  \/ (exists e, snd (fetch_body self url w) = Err e).
Proof.
  unfold fetch_body.
  destruct ((url =? "")%string || negb (contains "linkedin.com" url))%bool;
    [now left|].
  destruct (requests_get _ _ _ _) as [w1 r]. cbn [snd].
  intros -> [S|[e P]]; unfold bind.
  - apply Z.eqb_neq in S. rewrite S. now left.
  - destruct (negb (status_code response =? 200)); [now left|].
    destruct (contains_any block_markers _); [now left|].
    rewrite P. right. now exists e.
Qed.

(** C4: the extractor returns a string for every address, of at most 30000
    characters; an address without the profile-site domain yields the empty
    string with no request sent and the world untouched; whenever the body
    of the [try] block raises, be it the request or the parser, and whenever
    the status is not 200, the result is the empty string. *)
Theorem fetch_profile_text_degrades (self : LinkedInFetcher) (url : string)
  (w : World) :
  exists w' events out,
    _fetch_profile_text_sync self url w = (w', events, out)
    /\ len out <= 30000
    /\ (contains "linkedin.com" url = false ->
        out = "" /\ events = [] /\ w' = w)
    /\ (forall e, snd (fetch_body self url w) = Err e -> out = "")
    /\ (forall e,
           snd (requests_get url (_headers self)
                             (request_timeout_seconds self) w) = Err e ->
           out = "")
    /\ (forall response,
           snd (requests_get url (_headers self)
                             (request_timeout_seconds self) w) = Ok response ->
           status_code response <> 200 \/
           (exists e, BeautifulSoup (text response) = Err e) ->
           out = "").
Proof.
  unfold _fetch_profile_text_sync.
  pose proof (fetch_body_bounded self url w) as B.
  pose proof (fetch_body_not_profile self url w) as N.
  pose proof (fetch_body_request_raises self url w) as R.
  pose proof (fetch_body_response_unusable self url w) as U.
  destruct (fetch_body self url w) as [[w' events] r].
  exists w', events, (match r with Ok s => s | Err _ => "" end).
  cbn [snd] in *.
  split; [reflexivity|].
  split; [destruct r; [now apply B | cbn; lia]|].
  split; [intros H; specialize (N H); now inversion N|].
  split; [now intros e ->|].
  split.
  - intros e H. now destruct (R e H) as [-> | ->].
  - intros response H1 H2. now destruct (U response H1 H2) as [-> | [e ->]].
Qed.

End Degrade.

Lemma fetch_profile_text_degrades_witness :
  _fetch_profile_text_sync (W := offline_web) (__init__ 20)
    "https://example.com/not-linkedin" []
  = ([], [], "")
  /\ snd (_fetch_profile_text_sync (W := offline_web) (__init__ 20)
            "https://www.linkedin.com/in/someone" [])
     = "".
Proof.
  split.
  - destruct (fetch_profile_text_degrades (W := offline_web) (__init__ 20)
                "https://example.com/not-linkedin" [])
      as (w' & events & out & E & _ & N & _).
    destruct N as (-> & -> & ->); [reflexivity | exact E].
  - destruct (fetch_profile_text_degrades (W := offline_web) (__init__ 20)
                "https://www.linkedin.com/in/someone" [])
      as (w' & events & out & E & _ & _ & _ & R & _).
    rewrite E. cbn [snd]. apply (R "Connection refused"). reflexivity.
Defined.

End LinkedInFetcherSpec.

(** ** The model orchestrator and the response validator *)

Module CVAnalyzerSpec.
Import PyStr PyStrFacts Models CVAnalyzer.

Example listed_candidates_skips_blanks :
  listed_candidates (strip " openai/gpt-4o-mini , ,openai/gpt-4o, ")
  = ["openai/gpt-4o-mini"; "openai/gpt-4o"].
Proof. reflexivity. Qed.

Example init_without_token :
  __init__ (fun _ => None)
  = Err "GITHUB_TOKEN environment variable is required".
Proof. reflexivity. Qed.

Example strip_fences_fenced : strip_fences (fenced "{}") = "{}".
Proof. reflexivity. Qed.

Example unavailable_ignores_case :
  unavailable (lower "Unknown Model: openai/gpt-5") = true
  /\ unavailable (lower "Rate limit exceeded") = false.
Proof. split; reflexivity. Qed.

Example percentage_out_of_range {P : Pydantic} :
  validate_data
    (PDict [("match_percentage", PInt 150); ("strengths", PList []);
            ("weaknesses", PList []); ("summary", PStr "")])
  = ([], Err "Match percentage must be an integer between 0 and 100").
Proof. reflexivity. Qed.

Example percentage_float {P : Pydantic} :
  validate_data
    (PDict [("match_percentage", PFloat "85.0"); ("strengths", PList []);
            ("weaknesses", PList []); ("summary", PStr "")])
  = ([], Err "Match percentage must be an integer between 0 and 100").
Proof. reflexivity. Qed.

(** *** Soft failures *)

Lemma mentions_iff (sub e : string) :
  contains sub (lower e) = true <-> mentions sub e.
Proof.
  split.
  - intros H. apply contains_iff in H as (pre & post & H).
    apply lower_app_inv in H as (e1 & e23 & -> & _ & H).
    apply lower_app_inv in H as (e2 & e3 & -> & H & _).
    now exists e1, e2, e3.
  - intros (pre & mid & post & -> & <-). apply contains_iff.
    exists (lower pre), (lower post). now rewrite !lower_app.
Qed.

Lemma unavailable_iff (e : string) :
  unavailable (lower e) = true <-> soft_failure e.
Proof.
  unfold unavailable, soft_failure.
  rewrite !orb_true_iff, !mentions_iff. tauto.
Qed.

Lemma unavailable_false_iff (e : string) :
  unavailable (lower e) = false <-> ~ soft_failure e.
Proof.
  rewrite <- unavailable_iff. now destruct (unavailable (lower e)).
Qed.

Lemma no_response_is_hard : ~ soft_failure no_response.
Proof. now apply unavailable_false_iff. Qed.

Section CascadeFacts.
Context {M : ModelEndpoint}.

Lemma with_attempts_nil outcome : with_attempts [] outcome = outcome.
Proof. now destruct outcome as [[[r self] attempted] result]. Qed.

Lemma with_attempts_app (t1 t2 : list string) outcome :
  with_attempts (t1 ++ t2) outcome = with_attempts t1 (with_attempts t2 outcome).
Proof.
  destruct outcome as [[[r self] attempted] result]. cbn [with_attempts].
  now rewrite app_assoc.
Qed.

Lemma try_candidate_raises (self : CVAnalyzer) (prompt c : string)
  (r r' : Remote) (e : string) :
  call_model self prompt c r = (r', Err e) ->
  try_candidate self prompt c r = (r', Err e).
Proof. intros H. unfold try_candidate. now rewrite H. Qed.

Lemma try_candidate_replies (self : CVAnalyzer) (prompt c : string)
  (r r' : Remote) (reply : ChatCompletions) (choice : ChatChoice)
  (others : list ChatChoice) (m : ChatResponseMessage) :
  call_model self prompt c r = (r', Ok (Some reply)) ->
  choices reply = choice :: others ->
  message choice = Some m ->
  try_candidate self prompt c r = (r', Ok (content m)).
Proof.
  intros H Hc Hm. unfold try_candidate. rewrite H. cbn [bind].
  now rewrite Hc, Hm.
Qed.

Lemma cascade_success (self : CVAnalyzer) (prompt c : string)
  (rest : list string) (last : option string) (r r' : Remote)
  (text : option string) :
  try_candidate self prompt c r = (r', Ok text) ->
  cascade self prompt (c :: rest) last r
  = (r', set_model_id self c, [c], Ok text).
Proof. intros H. cbn [cascade]. now rewrite H. Qed.

Lemma cascade_soft (self : CVAnalyzer) (prompt c : string)
  (rest : list string) (last : option string) (r r' : Remote) (e : string) :
  try_candidate self prompt c r = (r', Err e) ->
  soft_failure e ->
  cascade self prompt (c :: rest) last r
  = with_attempts [c] (cascade self prompt rest (Some e) r').
Proof.
  intros H S. apply unavailable_iff in S. cbn [cascade]. now rewrite H, S.
Qed.

Lemma cascade_hard (self : CVAnalyzer) (prompt c : string)
  (rest : list string) (last : option string) (r r' : Remote) (e : string) :
  try_candidate self prompt c r = (r', Err e) ->
  ~ soft_failure e ->
  cascade self prompt (c :: rest) last r
  = (r', self, [c], Err ("Error calling GitHub Models API: " ++ e)).
Proof.
  intros H S. apply unavailable_false_iff in S. cbn [cascade].
  now rewrite H, S.
Qed.

Lemma cascade_after_soft_failures (self : CVAnalyzer) (prompt : string)
  (tried : list string) (r r' : Remote) (last last' : option string) :
  soft_failures self prompt tried r last r' last' ->
  forall rest,
    cascade self prompt (tried ++ rest) last r
    = with_attempts tried (cascade self prompt rest last' r').
Proof.
  induction 1 as [r last | c tried r r' r'' e last last' H S _ IH];
    intros rest.
  - now rewrite with_attempts_nil.
  - cbn [app]. rewrite (cascade_soft _ _ _ _ _ _ _ _ H S), IH.
    now rewrite <- with_attempts_app.
Qed.

(** An empty reply is a hard failure. *)
Lemma cascade_no_response (self : CVAnalyzer) (prompt c : string)
  (rest : list string) (last : option string) (r r' : Remote) :
  call_model self prompt c r = (r', Ok None) ->
  cascade self prompt (c :: rest) last r
  = (r', self, [c], Err ("Error calling GitHub Models API: " ++ no_response)).
Proof.
  intros H. apply cascade_hard; [|exact no_response_is_hard].
  unfold try_candidate. now rewrite H.
Qed.

Lemma cascade_attempts (self : CVAnalyzer) (prompt c : string)
  (rest : list string) (last : option string) (r : Remote) :
  exists others,
    snd (fst (cascade self prompt (c :: rest) last r)) = c :: others.
Proof.
  cbn [cascade]. destruct (try_candidate self prompt c r) as [r' [text|e]].
  - now exists [].
  - destruct (unavailable (lower e)); [|now exists []].
    destruct (cascade self prompt rest (Some e) r')
      as [[[r'' self'] attempted] result].
    now exists attempted.
Qed.

(** C1: with the candidates [A; B; C], when the service, asked for [A]
    and then for [B] with the analyzer's endpoint and token and the two
    messages of the prompt, raises errors that name an unavailable or
    unknown model, and, asked for [C], returns a reply with a first choice
    and its message, the orchestrator asks for [A], [B] and [C] in this
    order and nothing else, leaves the service in the state of the third
    call, returns the content of that message and records [C] as its
    model. *)
Theorem cascade_third_candidate (self : CVAnalyzer) (prompt A B C : string)
  (r0 r1 r2 r3 : Remote) (e1 e2 : string) (reply : ChatCompletions)
  (choice : ChatChoice) (others : list ChatChoice) (m : ChatResponseMessage) :
  let messages :=
    [SystemMessage
       "You are an expert HR analyst. Provide responses in valid JSON format only.";
     UserMessage prompt] in
  model_candidates self = [A; B; C] ->
  complete (model_endpoint self) (github_token self) messages A r0
  = (r1, Err e1) ->
  soft_failure e1 ->
  complete (model_endpoint self) (github_token self) messages B r1
  = (r2, Err e2) ->
  soft_failure e2 ->
  complete (model_endpoint self) (github_token self) messages C r2
  = (r3, Ok (Some reply)) ->
  choices reply = choice :: others ->
  message choice = Some m ->
  _call_github_models self prompt r0
  = (r3, set_model_id self C, [A; B; C], Ok (content m))
  /\ model_id (set_model_id self C) = C.
Proof.
  intros messages HC HA SA HB SB HR Hc Hm. split; [|reflexivity].
  unfold _call_github_models. rewrite HC.
  rewrite (cascade_soft self prompt A [B; C] None r0 r1 e1
             (try_candidate_raises self prompt A r0 r1 e1 HA) SA).
  rewrite (cascade_soft self prompt B [C] (Some e1) r1 r2 e2
             (try_candidate_raises self prompt B r1 r2 e2 HB) SB).
  rewrite (cascade_success self prompt C [] (Some e2) r2 r3 (content m)
             (try_candidate_replies self prompt C r2 r3 reply choice others m
                HR Hc Hm)).
  reflexivity.
Qed.

(** C2: after the candidates [tried] have failed softly, a failure of the
    next candidate moves the cascade on to the rest when its text names an
    unavailable or unknown model, and otherwise ends it at once with the
    wrapped error, the rest unattempted; and when all the candidates have
    failed softly the error lists them all with the last failure. *)
Theorem cascade_failures (self : CVAnalyzer) (prompt : string)
  (tried : list string) (r0 r1 : Remote) (last : option string) :
  soft_failures self prompt tried r0 None r1 last ->
  (forall c rest r2 e,
      model_candidates self = (tried ++ c :: rest)%list ->
      try_candidate self prompt c r1 = (r2, Err e) ->
      (soft_failure e ->
       _call_github_models self prompt r0
       = with_attempts (tried ++ [c])
                       (cascade self prompt rest (Some e) r2))
      /\ (~ soft_failure e ->
          _call_github_models self prompt r0
          = (r2, self, (tried ++ [c])%list,
             Err ("Error calling GitHub Models API: " ++ e))))
  /\ (model_candidates self = tried ->
      _call_github_models self prompt r0
      = (r1, self, tried,
         Err ("Error calling GitHub Models API: "
              ++ "none of the candidate models are available. "
              ++ "Tried: " ++ join ", " tried
              ++ ". Last error: " ++ str_of_last_error last))).
Proof.
  intros S. pose proof (cascade_after_soft_failures _ _ _ _ _ _ _ S) as K.
  unfold _call_github_models. split.
  - intros c rest r2 e HC H. rewrite HC, K. split; intros F.
    + rewrite (cascade_soft _ _ _ _ _ _ _ _ H F).
      now rewrite with_attempts_app.
    + now rewrite (cascade_hard _ _ _ _ _ _ _ _ H F).
  - intros HC. rewrite <- (app_nil_r (model_candidates self)), HC, K.
    cbn [cascade with_attempts]. now rewrite HC, !app_nil_r.
Qed.

End CascadeFacts.

Lemma cascade_third_candidate_witness :
  _call_github_models (M := catalogue_endpoint) default_analyzer "prompt" []
  = (["openai/gpt-4o"; "openai/gpt-4o-mini"; "openai/gpt-5"],
     set_model_id default_analyzer "openai/gpt-4o",
     ["openai/gpt-5"; "openai/gpt-4o-mini"; "openai/gpt-4o"], Ok (Some "{}")).
Proof.
  apply (cascade_third_candidate (M := catalogue_endpoint)
           default_analyzer "prompt"
           "openai/gpt-5" "openai/gpt-4o-mini" "openai/gpt-4o"
           []
           ["openai/gpt-5"]
           ["openai/gpt-4o-mini"; "openai/gpt-5"]
           ["openai/gpt-4o"; "openai/gpt-4o-mini"; "openai/gpt-5"]
           "Unknown model: openai/gpt-5"
           "(unavailable_model) Unavailable model: openai/gpt-4o-mini"
           json_reply
           {| message := Some {| content := Some "{}" |} |} []
           {| content := Some "{}" |});
    try reflexivity; apply unavailable_iff; reflexivity.
Defined.

Lemma cascade_failures_witness :
  _call_github_models (M := scripted_endpoint) default_analyzer "prompt"
    [Err "Unknown model: openai/gpt-5";
     Err "Unavailable model: openai/gpt-4o-mini";
     Err "unavailable_model"]
  = ([], default_analyzer,
     ["openai/gpt-5"; "openai/gpt-4o-mini"; "openai/gpt-4o"],
     Err ("Error calling GitHub Models API: "
          ++ "none of the candidate models are available. "
          ++ "Tried: openai/gpt-5, openai/gpt-4o-mini, openai/gpt-4o. "
          ++ "Last error: unavailable_model"))
  /\ _call_github_models (M := scripted_endpoint) default_analyzer "prompt"
       [Err "Unknown model: openai/gpt-5"; Err "Rate limit exceeded";
        Ok (Some json_reply)]
     = ([Ok (Some json_reply)], default_analyzer,
        ["openai/gpt-5"; "openai/gpt-4o-mini"],
        Err "Error calling GitHub Models API: Rate limit exceeded").
Proof.
  split.
  - refine (proj2 (cascade_failures (M := scripted_endpoint)
              default_analyzer "prompt"
              ["openai/gpt-5"; "openai/gpt-4o-mini"; "openai/gpt-4o"]
              _ [] (Some "unavailable_model") _) eq_refl).
    eapply soft_failures_cons;
      [reflexivity | apply unavailable_iff; reflexivity |].
    eapply soft_failures_cons;
      [reflexivity | apply unavailable_iff; reflexivity |].
    eapply soft_failures_cons;
      [reflexivity | apply unavailable_iff; reflexivity |].
    apply soft_failures_nil.
  - refine (proj2 (proj1 (cascade_failures (M := scripted_endpoint)
              default_analyzer "prompt" ["openai/gpt-5"]
              _ [Err "Rate limit exceeded"; Ok (Some json_reply)]
              (Some "Unknown model: openai/gpt-5") _)
              "openai/gpt-4o-mini" ["openai/gpt-4o"]
              [Ok (Some json_reply)] "Rate limit exceeded" eq_refl eq_refl) _).
    + eapply soft_failures_cons;
        [reflexivity | apply unavailable_iff; reflexivity |].
      apply soft_failures_nil.
    + apply unavailable_false_iff. reflexivity.
Defined.

(** *** Construction *)

Lemma lstrip_blank (m : string) :
  forallb_str isspace m = true -> lstrip m = "".
Proof.
  induction m as [|c m IH]; cbn [forallb_str lstrip]; [easy|].
  intros H. apply andb_prop in H as [-> H]. auto.
Qed.

Lemma strip_blank (m : string) : forallb_str isspace m = true -> strip m = "".
Proof. intros H. unfold strip. now rewrite lstrip_blank. Qed.

Lemma split_blank (s : string) :
  forallb_str (fun c => isspace c || Ascii.eqb c ",") s = true ->
  Forall (fun m => forallb_str isspace m = true) (split "," s).
Proof.
  induction s as [|c s IH]; cbn [forallb_str split].
  - now repeat constructor.
  - intros H. apply andb_prop in H as [Hc H]. specialize (IH H).
    destruct (Ascii.eqb c ","); [now constructor|].
    rewrite orb_false_r in Hc.
    destruct (split "," s) as [|h t].
    + constructor; [|constructor]. cbn [forallb_str]. now rewrite Hc.
    + apply Forall_cons_iff in IH as [Hh Ht].
      constructor; [cbn [forallb_str]; now rewrite Hc | exact Ht].
Qed.

Lemma listed_candidates_blank (s : string) :
  forallb_str (fun c => isspace c || Ascii.eqb c ",") s = true ->
  listed_candidates (strip s) = [].
Proof.
  intros H. apply (forallb_str_strip _ s), split_blank in H.
  unfold listed_candidates. induction H as [|m l Hm _ IH]; [easy|].
  cbn [filter]. now rewrite (strip_blank _ Hm).
Qed.

Lemma blank_override_listed (env : environ) :
  blank_override env ->
  listed_candidates (strip (getenv env "GITHUB_MODEL_CANDIDATES" "")) = [].
Proof.
  unfold blank_override, getenv.
  destruct (env "GITHUB_MODEL_CANDIDATES") as [s|]; [|easy].
  apply listed_candidates_blank.
Qed.

Lemma init_fields (env : environ) (self : CVAnalyzer) :
  __init__ env = Ok self ->
  model_id self = getenv env "GITHUB_MODEL_ID" "openai/gpt-5"
  /\ model_candidates self
     = match listed_candidates
               (strip (getenv env "GITHUB_MODEL_CANDIDATES" "")) with
       | [] => default_candidates (model_id self)
       | listed => listed
       end.
Proof.
  unfold __init__. destruct (env "GITHUB_TOKEN") as [[|c token]|];
    try discriminate.
  intros [= <-]. now split.
Qed.

Section Construction.
Context {M : ModelEndpoint}.

(** C9: an analyzer that was constructed has a candidate list that is not
    empty; when the override names no candidate, be it absent, empty or made
    of commas and whitespace, the list is the configured model followed by
    the two defaults; so every run of the cascade attempts its first
    candidate. *)
Theorem init_candidates (env : environ) (self : CVAnalyzer) :
  __init__ env = Ok self ->
  model_candidates self <> []
  /\ model_id self = getenv env "GITHUB_MODEL_ID" "openai/gpt-5"
  /\ (blank_override env ->
      model_candidates self
      = [model_id self; "openai/gpt-4o-mini"; "openai/gpt-4o"])
  /\ (forall prompt r,
         exists c others,
           hd_error (model_candidates self) = Some c
           /\ snd (fst (_call_github_models self prompt r)) = c :: others).
Proof.
  intros H. apply init_fields in H as [Hid Hc].
  assert (N : model_candidates self <> []).
  { rewrite Hc. now destruct (listed_candidates _). }
  split; [exact N|]. split; [exact Hid|]. split.
  - intros B. rewrite Hc. now rewrite (blank_override_listed _ B).
  - intros prompt r. unfold _call_github_models.
    destruct (model_candidates self) as [|c rest]; [contradiction|].
    destruct (cascade_attempts self prompt c rest None r) as [others E].
    now exists c, others.
Qed.

End Construction.

Lemma init_candidates_witness :
  model_candidates default_analyzer
  = ["openai/gpt-5"; "openai/gpt-4o-mini"; "openai/gpt-4o"].
Proof.
  refine (proj1 (proj2 (proj2 (init_candidates (M := scripted_endpoint)
            token_only default_analyzer eq_refl))) _).
  exact I.
Defined.

(** *** The response validator *)

Lemma getitem_in (entries : list (string * pyval)) (key : string) (v : pyval) :
  py_getitem (PDict entries) key = Ok v -> py_in key (PDict entries) = Ok true.
Proof.
  cbn [py_getitem py_in]. induction entries as [|kv entries IH];
    cbn [find existsb]; [discriminate|].
  destruct (fst kv =? key); [reflexivity|]. exact IH.
Qed.

Lemma getitem_dict (data : pyval) (key : string) (v : pyval) :
  py_getitem data key = Ok v -> exists entries, data = PDict entries.
Proof. destruct data; try discriminate. intros _. now eexists. Qed.

Section ValidatorFacts.
Context {J : Json} {P : Pydantic}.

Lemma validate_int_as_int (v : pyval) (n : Z) :
  as_int v = Some n -> validate_int v = Ok n.
Proof.
  destruct v; try discriminate; intros [= <-];
    [apply validate_int_bool | apply validate_int_int].
Qed.

Lemma parse_strength_entry (v : pyval) (s : Strength) :
  strength_entry v s -> parse_strength v = Ok s.
Proof.
  intros (entries & -> & Ht & Hd). unfold parse_strength.
  rewrite (getitem_in _ _ _ Ht). cbn [bind].
  rewrite (getitem_in _ _ _ Hd). cbn [bind negb].
  rewrite Ht, Hd. cbn [bind]. rewrite !validate_str_str. cbn [bind].
  now destruct s.
Qed.

Lemma parse_weakness_entry (v : pyval) (w : Weakness) :
  weakness_entry v w -> parse_weakness v = Ok w.
Proof.
  intros (entries & -> & Ht & Hd & Hs). unfold parse_weakness.
  cbn [require_fields required_weakness_fields].
  rewrite (getitem_in _ _ _ Ht). cbn [bind].
  rewrite (getitem_in _ _ _ Hd). cbn [bind].
  rewrite (getitem_in _ _ _ Hs). cbn [bind].
  rewrite Ht, Hd, Hs. cbn [bind]. rewrite !validate_str_str. cbn [bind].
  now destruct w.
Qed.

Lemma parse_each_entries {A : Type} (f : pyval -> res A)
  (entry : pyval -> A -> Prop) (items : list pyval) (parsed : list A) :
  (forall v a, entry v a -> f v = Ok a) ->
  Forall2 entry items parsed -> parse_each f items = Ok parsed.
Proof.
  intros H. induction 1 as [|v a items parsed Hv _ IH]; [easy|].
  cbn [parse_each]. rewrite (H _ _ Hv). cbn [bind]. now rewrite IH.
Qed.

Lemma count_warnings_strengths (n m : nat) :
  n <> 4 ->
  In ("Warning: Expected 4 strengths, got " ++ str_of_nat n)
     (count_warnings n m).
Proof.
  intros H. unfold count_warnings. apply Nat.eqb_neq in H. rewrite H.
  now left.
Qed.

Lemma count_warnings_weaknesses (n m : nat) :
  m <> 5 ->
  In ("Warning: Expected 5 weaknesses, got " ++ str_of_nat m)
     (count_warnings n m).
Proof.
  intros H. unfold count_warnings. apply Nat.eqb_neq in H. rewrite H.
  apply in_or_app. right. now left.
Qed.

Lemma validate_data_entries (data mp : pyval) (n : Z)
  (s_items w_items : list pyval) (ss : list Strength) (ws : list Weakness)
  (text : string) :
  py_getitem data "match_percentage" = Ok mp ->
  as_int mp = Some n -> (0 <= n <= 100)%Z ->
  py_getitem data "strengths" = Ok (PList s_items) ->
  Forall2 strength_entry s_items ss ->
  py_getitem data "weaknesses" = Ok (PList w_items) ->
  Forall2 weakness_entry w_items ws ->
  py_getitem data "summary" = Ok (PStr text) ->
  validate_data data
  = (count_warnings (List.length ss) (List.length ws),
     Ok {| match_percentage := n; strengths := ss; weaknesses := ws;
           summary := text |}).
Proof.
  intros Hm Hn Hr Hs Fs Hw Fw Ht.
  destruct (getitem_dict _ _ _ Hm) as [entries ->].
  unfold validate_data, parse_entries.
  cbn [require_fields required_fields].
  rewrite (getitem_in _ _ _ Hm). cbn [bind].
  rewrite (getitem_in _ _ _ Hs). cbn [bind].
  rewrite (getitem_in _ _ _ Hw). cbn [bind].
  rewrite (getitem_in _ _ _ Ht). cbn [bind].
  rewrite Hm. cbn [bind]. rewrite Hn.
  replace ((n <? 0)%Z || (n >? 100)%Z) with false
    by (symmetry; apply orb_false_intro; lia).
  rewrite Hs. cbn [bind py_iter].
  rewrite (parse_each_entries _ _ _ _ parse_strength_entry Fs). cbn [bind].
  rewrite Hw. cbn [bind py_iter].
  rewrite (parse_each_entries _ _ _ _ parse_weakness_entry Fw). cbn [bind].
  rewrite Ht. cbn [bind]. rewrite (validate_int_as_int _ _ Hn).
  cbn [bind]. now rewrite validate_str_str.
Qed.

(** C7: a reply that passes the key, type and range checks is returned as an
    [AnalysisResult] holding every strength and every weakness it lists,
    whatever their numbers; a number other than 4, or 5, only adds a warning
    to what is printed. *)
Theorem count_drift_not_fatal (reply : string) (data mp : pyval) (n : Z)
  (s_items w_items : list pyval) (ss : list Strength) (ws : list Weakness)
  (text : string) :
  json_loads (strip_fences reply) = Ok data ->
  py_getitem data "match_percentage" = Ok mp ->
  as_int mp = Some n -> (0 <= n <= 100)%Z ->
  py_getitem data "strengths" = Ok (PList s_items) ->
  Forall2 strength_entry s_items ss ->
  py_getitem data "weaknesses" = Ok (PList w_items) ->
  Forall2 weakness_entry w_items ws ->
  py_getitem data "summary" = Ok (PStr text) ->
  _parse_analysis_response (Some reply)
  = (count_warnings (List.length ss) (List.length ws),
     Ok {| match_percentage := n; strengths := ss; weaknesses := ws;
           summary := text |})
  /\ List.length ss = List.length s_items
  /\ List.length ws = List.length w_items
  /\ (List.length ss <> 4 ->
      In ("Warning: Expected 4 strengths, got " ++ str_of_nat (List.length ss))
         (count_warnings (List.length ss) (List.length ws)))
  /\ (List.length ws <> 5 ->
      In ("Warning: Expected 5 weaknesses, got " ++ str_of_nat (List.length ws))
         (count_warnings (List.length ss) (List.length ws))).
Proof.
  intros Hj Hm Hn Hr Hs Fs Hw Fw Ht.
  split; [|split; [|split; [|split]]].
  - unfold _parse_analysis_response. rewrite Hj.
    now rewrite (validate_data_entries _ _ _ _ _ _ _ _ Hm Hn Hr Hs Fs Hw Fw Ht).
  - symmetry. eapply Forall2_length; eauto.
  - symmetry. eapply Forall2_length; eauto.
  - apply count_warnings_strengths.
  - apply count_warnings_weaknesses.
Qed.

(** What the validator does guarantee of the percentage it returns. *)
Lemma validate_data_range (data : pyval) (printed : list string)
  (result : AnalysisResult) :
  validate_data data = (printed, Ok result) ->
  exists mp,
    py_getitem data "match_percentage" = Ok mp
    /\ as_int mp = Some (match_percentage result)
    /\ (0 <= match_percentage result <= 100)%Z.
Proof.
  unfold validate_data, parse_entries.
  destruct (require_fields _ _ _); cbn [bind]; [|discriminate].
  destruct (py_getitem data "match_percentage") as [mp|]; cbn [bind];
    [|discriminate].
  destruct (as_int mp) as [n|] eqn:Hn; [|discriminate].
  destruct ((n <? 0)%Z || (n >? 100)%Z) eqn:Hr; [discriminate|].
  apply orb_false_elim in Hr as [H0 H100].
  destruct (bind (py_getitem data "strengths") _) as [[[mp' ss] ws]|] eqn:E;
    [|discriminate].
  assert (mp' = mp) as ->.
  { unfold bind in E.
    repeat match type of E with
           | match ?x with _ => _ end = _ => destruct x; try discriminate
           end.
    now injection E. }
  rewrite (validate_int_as_int _ _ Hn).
  destruct (py_getitem data "summary") as [sm|]; cbn [bind]; [|discriminate].
  destruct (validate_str sm); cbn [bind]; [|discriminate].
  intros [= _ <-]. exists mp. cbn [match_percentage]. repeat split; auto; lia.
Qed.

(** C3 at the reply whose percentage is [true]: the validator returns a
    result, with the percentage 1, where the claim has it fail. *)
Theorem boolean_percentage_accepted :
  validate_data boolean_reply
  = (["Warning: Expected 4 strengths, got 0";
      "Warning: Expected 5 weaknesses, got 0"],
     Ok {| match_percentage := 1; strengths := []; weaknesses := [];
           summary := "No assessment." |})
  /\ _parse_analysis_response (J := canned_json "{ ... }" boolean_reply)
       (Some (fenced "{ ... }"))
     = (["Warning: Expected 4 strengths, got 0";
         "Warning: Expected 5 weaknesses, got 0"],
        Ok {| match_percentage := 1; strengths := []; weaknesses := [];
              summary := "No assessment." |}).
Proof.
  assert (E : validate_data boolean_reply
              = (["Warning: Expected 4 strengths, got 0";
                  "Warning: Expected 5 weaknesses, got 0"],
                 Ok {| match_percentage := 1; strengths := [];
                       weaknesses := []; summary := "No assessment." |})).
  { apply (validate_data_entries boolean_reply (PBool true) 1 [] [] [] []
             "No assessment."); try reflexivity; try constructor; lia. }
  split; [exact E|].
  unfold _parse_analysis_response.
  change (json_loads (strip_fences (fenced "{ ... }")))
    with (Ok (A := pyval) boolean_reply).
  cbv beta iota. now rewrite E.
Qed.

End ValidatorFacts.

Lemma count_drift_not_fatal_witness :
  fst (_parse_analysis_response (J := canned_json "{ ... }" drifting_reply)
         (P := strict_models) (Some (fenced "{ ... }")))
  = ["Warning: Expected 4 strengths, got 3";
     "Warning: Expected 5 weaknesses, got 0"]
  /\ exists result,
      snd (_parse_analysis_response (J := canned_json "{ ... }" drifting_reply)
             (P := strict_models) (Some (fenced "{ ... }")))
      = Ok result
      /\ List.length (strengths result) = 3
      /\ List.length (weaknesses result) = 0.
Proof.
  destruct (count_drift_not_fatal
              (J := canned_json "{ ... }" drifting_reply) (P := strict_models)
              (fenced "{ ... }") drifting_reply (PInt 72) 72
              [PDict [("title", PStr "Python");
                      ("description", PStr "Five years of services in Python")];
               PDict [("title", PStr "Cloud");
                      ("description", PStr "Runs workloads on two providers")];
               PDict [("description", PStr "Leads a team of four");
                      ("title", PStr "Leadership")]]
              []
              [ {| s_title := "Python";
                   s_description := "Five years of services in Python" |};
                {| s_title := "Cloud";
                   s_description := "Runs workloads on two providers" |};
                {| s_title := "Leadership";
                   s_description := "Leads a team of four" |} ]
              []
              "A good match with gaps in testing.")
    as [E _]; try reflexivity; try lia.
  - repeat constructor; eexists; repeat split; reflexivity.
  - constructor.
  - rewrite E. split; [reflexivity|].
    eexists. split; [reflexivity|]. split; reflexivity.
Defined.

End CVAnalyzerSpec.

(** * Further properties *)

(** ** More facts about the string primitives *)

Module PyStrMore.
Import PyStr PyStrFacts.

Lemma str_app_assoc (a b c : string) : (a ++ b) ++ c = a ++ b ++ c.
Proof. induction a as [|x a IH]; cbn [append]; now rewrite ?IH. Qed.

Lemma str_app_nil_r (a : string) : a ++ "" = a.
Proof. induction a as [|x a IH]; cbn [append]; now rewrite ?IH. Qed.

Lemma length_str_app (a b : string) :
  String.length (a ++ b) = String.length a + String.length b.
Proof. induction a as [|x a IH]; cbn [append String.length]; now rewrite ?IH. Qed.

Lemma length_sub_runs (p : ascii -> bool) (r : ascii) (b : bool) (s : string) :
  String.length (sub_runs p (String r "") b s) <= String.length s.
Proof.
  revert b; induction s as [|c s IH]; intros b; cbn [sub_runs]; [easy|].
  destruct (p c).
  - destruct b; cbn [append String.length]; specialize (IH true); lia.
  - cbn [String.length]. specialize (IH false). lia.
Qed.

Lemma length_strip_outside (keep : ascii -> bool) (s : string) :
  String.length (re_strip_outside keep s) <= String.length s.
Proof.
  induction s as [|c s IH]; cbn [re_strip_outside]; [easy|].
  destruct (keep c); cbn [String.length]; lia.
Qed.

Lemma length_rstrip (s : string) : String.length (rstrip s) <= String.length s.
Proof.
  induction s as [|c s IH]; cbn [rstrip]; [easy|].
  destruct (rstrip s) as [|d r].
  - destruct (isspace c); cbn [String.length]; lia.
  - cbn [String.length] in *. lia.
Qed.

Lemma length_strip (s : string) : String.length (strip s) <= String.length s.
Proof.
  unfold strip. pose proof (length_rstrip (lstrip s)).
  pose proof (length_lstrip s). lia.
Qed.

End PyStrMore.

(** ** More on the document extractor *)

Module FileProcessorMore.
Import PyStr PyStrFacts PyStrMore FileProcessor.

Lemma cleaned_clean_text (s : string) : cleaned (_clean_text s).
Proof.
  destruct s as [|c s]; [now split|].
  unfold _clean_text, re_sub_plus. split.
  - apply forallb_str_strip, strip_outside_kept.
  - apply forallb_str_strip, forallb_str_strip_outside.
    eapply single_spaced_plain, collapse_single_spaced.
  - apply lstrip_strip.
  - apply rstrip_strip.
Qed.

(** X1: the cleaned text holds only whitelisted characters, no whitespace
    other than the plain space and none at either end, and it is never
    longer than the text it comes from. *)
Theorem clean_text_output (s : string) :
  cleaned (_clean_text s)
  /\ String.length (_clean_text s) <= String.length s.
Proof.
  split; [apply cleaned_clean_text|].
  destruct s as [|c s]; [easy|].
  unfold _clean_text, re_sub_plus.
  set (s0 := String c s).
  pose proof (length_sub_runs is_newline "010" false s0) as L1.
  pose proof (length_sub_runs isspace " " false
                (sub_runs is_newline (String "010" "") false s0)) as L2.
  pose proof (length_strip_outside whitelisted
                (sub_runs isspace " " false
                   (sub_runs is_newline (String "010" "") false s0))) as L3.
  pose proof (length_strip
                (re_strip_outside whitelisted
                   (sub_runs isspace " " false
                      (sub_runs is_newline (String "010" "") false s0)))) as L4.
  lia.
Qed.

Section Extraction.
Context {D : Decoders}.

Lemma pdf_pages_loop_texts (pages : list PdfPage) (texts : list string)
  (acc : string) :
  map page_extract_text pages = map Ok texts ->
  pdf_pages_loop pages acc = Ok (acc ++ pages_text texts).
Proof.
  revert texts acc; induction pages as [|page pages IH];
    intros [|t texts] acc H; try discriminate.
  - cbn. now rewrite str_app_nil_r.
  - cbn [map] in H. injection H as Hp H. cbn [pdf_pages_loop].
    rewrite Hp. cbn [bind]. unfold pages_text. cbn [filter].
    destruct t as [|c t].
    + cbn [String.eqb negb]. now apply IH.
    + rewrite (IH _ _ H).
      change (negb (String c t =? "")) with true. cbv iota.
      cbn [map cat fold_right]. unfold pages_text, cat, line.
      now rewrite !str_app_assoc.
Qed.

Lemma pdf_pages_loop_raises (good : list PdfPage) (texts : list string)
  (bad : PdfPage) (rest : list PdfPage) (e acc : string) :
  map page_extract_text good = map Ok texts ->
  page_extract_text bad = Err e ->
  pdf_pages_loop (good ++ bad :: rest) acc = Err e.
Proof.
  revert texts acc; induction good as [|page good IH];
    intros [|t texts] acc H Hb; try discriminate.
  - cbn [app pdf_pages_loop]. now rewrite Hb.
  - cbn [map] in H. injection H as Hp H. cbn [app pdf_pages_loop].
    rewrite Hp. cbn [bind]. destruct t; eapply IH; eauto.
Qed.

(** X2: when every page of a PDF gives its text, the extraction is the
    cleaning of those texts, a line each, the pages without text left out;
    when a page fails, the extraction fails with the error of the first such
    page and no text. *)
Theorem extract_from_pdf_pages (content : bytes) (pages : list PdfPage) :
  PdfReader content = Ok pages ->
  (forall texts,
      map page_extract_text pages = map Ok texts ->
      _extract_from_pdf content = Ok (_clean_text (pages_text texts)))
  /\ (forall good texts bad rest e,
         pages = (good ++ bad :: rest)%list ->
         map page_extract_text good = map Ok texts ->
         page_extract_text bad = Err e ->
         _extract_from_pdf content
         = Err ("Failed to extract PDF text: " ++ e)).
Proof.
  intros R. unfold _extract_from_pdf. rewrite R. cbn [bind]. split.
  - intros texts H. now rewrite (pdf_pages_loop_texts _ _ _ H).
  - intros good texts bad rest e -> H Hb.
    now rewrite (pdf_pages_loop_raises _ _ _ _ _ _ H Hb).
Qed.

Lemma paragraphs_loop_lines (ps : list string) (acc : string) :
  paragraphs_loop ps acc = acc ++ cat (map line ps).
Proof.
  unfold paragraphs_loop. revert acc; induction ps as [|p ps IH]; intros acc;
    cbn [fold_left map cat fold_right]; [now rewrite str_app_nil_r|].
  rewrite IH. unfold cat, line. now rewrite !str_app_assoc.
Qed.

Lemma cells_loop_text (cells : list string) (acc : string) :
  fold_left (fun text cell => text ++ cell ++ " ") cells acc
  = acc ++ cat (map (fun cell => cell ++ " ") cells).
Proof.
  revert acc; induction cells as [|cell cells IH]; intros acc;
    cbn [fold_left map cat fold_right]; [now rewrite str_app_nil_r|].
  rewrite IH. unfold cat. now rewrite !str_app_assoc.
Qed.

Lemma row_loop_text (cells : list string) (acc : string) :
  row_loop cells acc = acc ++ row_text cells.
Proof.
  unfold row_loop, row_text, line. rewrite cells_loop_text.
  now rewrite !str_app_assoc.
Qed.

Lemma rows_loop_text (rows : list (list string)) (acc : string) :
  fold_left (fun text row => row_loop row text) rows acc
  = acc ++ table_text rows.
Proof.
  unfold table_text. revert acc; induction rows as [|row rows IH]; intros acc;
    cbn [fold_left map cat fold_right]; [now rewrite str_app_nil_r|].
  rewrite IH, row_loop_text. unfold cat. now rewrite !str_app_assoc.
Qed.

Lemma tables_loop_text (ts : list (list (list string))) (acc : string) :
  tables_loop ts acc = acc ++ cat (map table_text ts).
Proof.
  unfold tables_loop. revert acc; induction ts as [|t ts IH]; intros acc;
    cbn [fold_left map cat fold_right]; [now rewrite str_app_nil_r|].
  rewrite IH, rows_loop_text. unfold cat. now rewrite !str_app_assoc.
Qed.

(** X3: a Word document the decoder accepts is always extracted: the result
    is the cleaning of its paragraphs, a line each, followed by its tables,
    a line for each row with a space after each cell. *)
Theorem extract_from_word_text (content : bytes) (doc : DocxDocument) :
  Document content = Ok doc ->
  _extract_from_word content = Ok (_clean_text (document_text doc)).
Proof.
  intros R. unfold _extract_from_word. rewrite R. cbn [bind wrap_exception].
  rewrite paragraphs_loop_lines, tables_loop_text. reflexivity.
Qed.

Lemma extract_from_pdf_outcome (content : bytes) :
  match _extract_from_pdf content with
  | Ok t => cleaned t
  | Err e => exists cause, e = "Failed to extract PDF text: " ++ cause
  end.
Proof.
  unfold _extract_from_pdf.
  destruct (PdfReader content) as [pages|e]; cbn [bind wrap_exception];
    [|now exists e].
  destruct (pdf_pages_loop pages "") as [t|e]; cbn [bind];
    [apply cleaned_clean_text | now exists e].
Qed.

Lemma extract_from_word_outcome (content : bytes) :
  match _extract_from_word content with
  | Ok t => cleaned t
  | Err e => exists cause, e = "Failed to extract Word document text: " ++ cause
  end.
Proof.
  unfold _extract_from_word.
  destruct (Document content) as [doc|e]; cbn [bind wrap_exception];
    [apply cleaned_clean_text | now exists e].
Qed.

(** X4: whatever the file, a text that [extract_text] returns is a cleaned
    text, and an error it raises is one layer of [Error processing file: ]
    around its cause. *)
Theorem extract_text_outcome (file : UploadFile) :
  match extract_text file with
  | Ok t => cleaned t
  | Err e => exists cause, e = "Error processing file: " ++ cause
  end.
Proof.
  unfold extract_text. destruct (filename file) as [name|];
    [|cbn; now eexists].
  destruct (file_extension name =? "pdf").
  { pose proof (extract_from_pdf_outcome (file_read file)) as H.
    destruct (_extract_from_pdf _); cbn; [exact H | now eexists]. }
  destruct ((file_extension name =? "doc") || (file_extension name =? "docx")).
  { pose proof (extract_from_word_outcome (file_read file)) as H.
    destruct (_extract_from_word _); cbn; [exact H | now eexists]. }
  cbn. now eexists.
Qed.

(** A file whose extension is none of [pdf], [doc] and [docx] is
    refused with an error that names the extension, whatever the payload and
    the decoders; so is a file without a name. *)
Theorem extract_text_unsupported (name : string) (content : bytes) :
  file_extension name <> "pdf" ->
  file_extension name <> "doc" ->
  file_extension name <> "docx" ->
  extract_text {| filename := Some name; file_read := content |}
  = Err ("Error processing file: Unsupported file type: "
         ++ file_extension name)
  /\ exists e,
      extract_text {| filename := None; file_read := content |} = Err e.
Proof.
  intros H1 H2 H3. apply String.eqb_neq in H1, H2, H3.
  unfold extract_text. cbn [filename file_read]. rewrite H1, H2, H3.
  split; [reflexivity | now eexists].
Qed.

End Extraction.

Lemma extract_from_pdf_pages_witness :
  _extract_from_pdf (D := plain_decoders) [Byte.x4f; Byte.x00; Byte.x4b]
  = Ok "O K".
Proof.
  refine (proj1 (extract_from_pdf_pages (D := plain_decoders)
                   [Byte.x4f; Byte.x00; Byte.x4b] _ eq_refl)
                ["O"; ""; "K"] eq_refl).
Defined.

Lemma extract_from_word_text_witness :
  _extract_from_word (D := plain_decoders) [Byte.x4f; Byte.x4b] = Ok "O K".
Proof.
  exact (extract_from_word_text (D := plain_decoders) [Byte.x4f; Byte.x4b]
           _ eq_refl).
Defined.

Lemma extract_text_unsupported_witness :
  extract_text (D := refusing_decoders)
    {| filename := Some "notes.TXT"; file_read := [] |}
  = Err "Error processing file: Unsupported file type: txt".
Proof.
  apply (extract_text_unsupported (D := refusing_decoders) "notes.TXT" []);
    discriminate.
Defined.

End FileProcessorMore.

(** ** More on the profile page extractor *)

Module LinkedInFetcherMore.
Import PyStr PyStrFacts PyStrMore LinkedInFetcher.

(** *** Deduplication *)

Lemma existsb_eqb_In (key : string) (seen : list string) :
  existsb (String.eqb key) seen = true <-> In key seen.
Proof.
  rewrite existsb_exists. split.
  - intros (x & Hx & E). apply String.eqb_eq in E. now subst.
  - intros H. exists key. split; [exact H | apply String.eqb_refl].
Qed.

Lemma dedupe_loop_keys (seen items : list string) (k : string) :
  In k (map dedupe_key (dedupe_loop seen items)) ->
  ~ In k seen /\ In k (map dedupe_key items).
Proof.
  revert seen; induction items as [|item items IH]; intros seen;
    cbn [dedupe_loop map]; [easy|].
  fold (dedupe_key item).
  destruct (existsb (String.eqb (dedupe_key item)) seen) eqn:E.
  - intros H. apply IH in H as [H1 H2]. split; [exact H1 | now right].
  - cbn [map In]. intros [<-|H].
    + split; [|now left]. intros H. apply existsb_eqb_In in H. congruence.
    + apply IH in H as [H1 H2]. split; [|now right].
      intros H. apply H1. now right.
Qed.

Lemma dedupe_loop_nodup (seen items : list string) :
  NoDup (map dedupe_key (dedupe_loop seen items)).
Proof.
  revert seen; induction items as [|item items IH]; intros seen;
    cbn [dedupe_loop map]; [constructor|].
  fold (dedupe_key item).
  destruct (existsb (String.eqb (dedupe_key item)) seen); [apply IH|].
  cbn [map]. constructor; [|apply IH].
  intros H. apply dedupe_loop_keys in H as [H _]. apply H. now left.
Qed.

Lemma dedupe_loop_subsequence (seen items : list string) :
  subsequence (dedupe_loop seen items) items.
Proof.
  revert seen; induction items as [|item items IH]; intros seen;
    cbn [dedupe_loop]; [constructor|].
  destruct (existsb _ seen); now constructor.
Qed.

Lemma dedupe_loop_covers (seen items : list string) (item : string) :
  In item items ->
  In (dedupe_key item) seen
  \/ In (dedupe_key item) (map dedupe_key (dedupe_loop seen items)).
Proof.
  revert seen; induction items as [|x items IH]; intros seen; [easy|].
  cbn [dedupe_loop]. fold (dedupe_key x).
  destruct (existsb (String.eqb (dedupe_key x)) seen) eqn:E.
  - intros [->|H]; [left; now apply existsb_eqb_In | now apply IH].
  - cbn [map In]. intros [->|H]; [right; now left|].
    destruct (IH (dedupe_key x :: seen) H) as [[<-|H']|H'];
      [right; now left | now left | right; now right].
Qed.

Lemma dedupe_loop_first (seen pre post : list string) (item : string) :
  ~ In (dedupe_key item) seen ->
  ~ In (dedupe_key item) (map dedupe_key pre) ->
  In item (dedupe_loop seen (pre ++ item :: post)).
Proof.
  revert seen; induction pre as [|x pre IH]; intros seen Hs Hp.
  - cbn [app dedupe_loop]. fold (dedupe_key item).
    destruct (existsb (String.eqb (dedupe_key item)) seen) eqn:E;
      [apply existsb_eqb_In in E; contradiction | now left].
  - cbn [app dedupe_loop]. fold (dedupe_key x). cbn [map In] in Hp.
    destruct (existsb (String.eqb (dedupe_key x)) seen).
    + apply IH; tauto.
    + right. apply IH; [|tauto]. cbn [In]. intros [E|H]; [|tauto].
      apply Hp. now left.
Qed.

Lemma dedupe_loop_fixed (seen items : list string) :
  NoDup (map dedupe_key items) ->
  (forall k, In k seen -> ~ In k (map dedupe_key items)) ->
  dedupe_loop seen items = items.
Proof.
  revert seen; induction items as [|item items IH]; intros seen N D; [easy|].
  cbn [dedupe_loop]. fold (dedupe_key item). cbn [map] in N, D.
  apply NoDup_cons_iff in N as [N1 N2].
  destruct (existsb (String.eqb (dedupe_key item)) seen) eqn:E.
  - apply existsb_eqb_In in E. exfalso. apply (D _ E). now left.
  - f_equal. apply IH; [exact N2|].
    intros k [<-|H]; [exact N1|]. intros H'. apply (D _ H). now right.
Qed.

Lemma subsequence_In {A : Type} (l1 l2 : list A) (x : A) :
  subsequence l1 l2 -> In x l1 -> In x l2.
Proof.
  induction 1 as [|y l1 l2 _ IH|y l1 l2 _ IH]; cbn [In]; [easy|auto|].
  intros [->|H]; auto.
Qed.

(** X5: deduplication keeps the fragments in their order, leaving some
    out; no two fragments it keeps agree on their first 200 characters; the
    first fragment of every key is kept, so every fragment of the input
    agrees on its first 200 characters with a fragment that is kept; and a
    list that has no such repetition is returned as it is, so deduplicating
    twice changes nothing more. *)
Theorem dedupe_preserve_order_spec (items : list string) :
  subsequence (_dedupe_preserve_order items) items
  /\ NoDup (map dedupe_key (_dedupe_preserve_order items))
  /\ (forall pre item post,
         items = (pre ++ item :: post)%list ->
         ~ In (dedupe_key item) (map dedupe_key pre) ->
         In item (_dedupe_preserve_order items))
  /\ (forall item,
         In item items ->
         In (dedupe_key item)
            (map dedupe_key (_dedupe_preserve_order items)))
  /\ (NoDup (map dedupe_key items) -> _dedupe_preserve_order items = items)
  /\ _dedupe_preserve_order (_dedupe_preserve_order items)
     = _dedupe_preserve_order items.
Proof.
  unfold _dedupe_preserve_order.
  split; [apply dedupe_loop_subsequence|].
  split; [apply dedupe_loop_nodup|].
  split; [intros pre item post -> H; now apply dedupe_loop_first|].
  split.
  { intros item H. now destruct (dedupe_loop_covers [] items item H). }
  split.
  - intros N. now apply dedupe_loop_fixed.
  - apply dedupe_loop_fixed; [apply dedupe_loop_nodup | easy].
Qed.

Lemma dedupe_preserve_order_spec_witness :
  In "Skills: Rocq" (_dedupe_preserve_order ["About"; "Skills: Rocq"; "About"])
  /\ _dedupe_preserve_order ["About"; "Skills: Rocq"] = ["About"; "Skills: Rocq"].
Proof.
  split.
  - apply (proj1 (proj2 (proj2 (dedupe_preserve_order_spec
                                  ["About"; "Skills: Rocq"; "About"])))
             ["About"] "Skills: Rocq" ["About"] eq_refl).
    cbn. intros [H|[]]. discriminate.
  - apply (proj1 (proj2 (proj2 (proj2 (proj2 (dedupe_preserve_order_spec
                                  ["About"; "Skills: Rocq"])))))).
    repeat constructor; cbn; intuition discriminate.
Defined.

(** *** Cleaning a fragment *)

Lemma forallb_str_remove_artifacts (p : ascii -> bool) (k : nat) (s : string) :
  forallb_str p s = true -> forallb_str p (remove_artifacts k s) = true.
Proof.
  revert k; induction s as [|c s IH]; intros k; cbn [remove_artifacts];
    [easy|].
  cbn [forallb_str]. intros H. apply andb_prop in H as [Hc Hs].
  destruct k; [|auto]. destruct (match_artifact _); [auto|].
  cbn [forallb_str]. rewrite Hc. cbn. auto.
Qed.

Lemma length_remove_artifacts (k : nat) (s : string) :
  String.length (remove_artifacts k s) <= String.length s.
Proof.
  revert k; induction s as [|c s IH]; intros k; cbn [remove_artifacts];
    [easy|].
  destruct k; [|specialize (IH k); cbn [String.length]; lia].
  destruct (match_artifact _) as [n|]; cbn [String.length].
  - specialize (IH (Nat.pred n)). lia.
  - specialize (IH 0). lia.
Qed.

(** X6: the cleaned text of a fragment has no whitespace at either end and
    none inside but the plain space, and it is never longer than the text it
    comes from. *)
Theorem clean_fragment_output (s : string) :
  lstrip (_clean_text s) = _clean_text s
  /\ rstrip (_clean_text s) = _clean_text s
  /\ forallb_str (fun c => negb (isspace c) || Ascii.eqb c " ")
                 (_clean_text s) = true
  /\ String.length (_clean_text s) <= String.length s.
Proof.
  unfold _clean_text, re_sub_plus.
  split; [apply lstrip_strip|]. split; [apply rstrip_strip|]. split.
  - apply forallb_str_strip, forallb_str_remove_artifacts, forallb_str_strip.
    eapply single_spaced_plain, collapse_single_spaced.
  - pose proof (length_sub_runs isspace " " false s) as L1.
    pose proof (length_strip (sub_runs isspace " " false s)) as L2.
    pose proof (length_remove_artifacts 0
                  (strip (sub_runs isspace " " false s))) as L3.
    pose proof (length_strip
                  (remove_artifacts 0
                     (strip (sub_runs isspace " " false s)))) as L4.
    lia.
Qed.

(** *** Scores and the ranking *)

Local Open Scope Z_scope.

Lemma hits_bounds (t : string) : 0 <= keyword_hits t <= 12.
Proof.
  unfold keyword_hits. rewrite LinkedInFetcherSpec.count_loop.
  pose proof (filter_length_le (fun kw => contains kw (lower t)) keywords) as L.
  change (List.length keywords) with 12%nat in L. lia.
Qed.

(** X7: the score of an element lies between 0 and 17: at most one point
    for each of the twelve keywords and at most five for the length. *)
Theorem score_section_bounds (n : node) : 0 <= score_section n <= 17.
Proof.
  unfold score_section, score_text, length_bonus, len.
  pose proof (hits_bounds (get_text (snd n))) as H.
  assert (0 <= Z.of_nat (String.length (get_text (snd n))) / 200)
    by (apply Z.div_pos; lia).
  lia.
Qed.

Section Ranking.
Context {A : Type} (key : A -> Z).

Lemma insert_desc_perm (x : A) (l : list A) :
  Permutation (insert_desc key x l) (x :: l).
Proof.
  induction l as [|y l IH]; cbn [insert_desc]; [reflexivity|].
  destruct (key x <? key y); [|reflexivity].
  rewrite IH. apply perm_swap.
Qed.

Lemma sorted_desc_perm (l : list A) : Permutation (sorted_desc key l) l.
Proof.
  induction l as [|x l IH]; [reflexivity|].
  change (sorted_desc key (x :: l)) with (insert_desc key x (sorted_desc key l)).
  now rewrite insert_desc_perm, IH.
Qed.

Lemma StronglySorted_app_cross (R : A -> A -> Prop) (l1 l2 : list A) :
  StronglySorted R (l1 ++ l2) ->
  forall a b, In a l1 -> In b l2 -> R a b.
Proof.
  induction l1 as [|x l1 IH]; cbn [app]; intros S a b Ha Hb; [easy|].
  apply StronglySorted_inv in S as [S F]. destruct Ha as [->|Ha].
  - rewrite Forall_forall in F. apply F, in_or_app. now right.
  - now apply IH.
Qed.

End Ranking.

Lemma In_firstn {A : Type} (n : nat) (l : list A) (x : A) :
  In x (firstn n l) -> In x l.
Proof.
  intros H. rewrite <- (firstn_skipn n l). apply in_or_app. now left.
Qed.

Lemma top_sections_incl (candidates : list node) (n : node) :
  In n (top_sections candidates) -> In n candidates.
Proof.
  intros H. apply In_firstn in H.
  eapply Permutation_in; [apply sorted_desc_perm | exact H].
Qed.

(** X8: the kept candidates and the ones left out are together the
    candidates, each as often as it was listed; no candidate left out has a
    greater score than one that is kept; the kept ones number 12, or all of
    them when there are fewer. *)
Theorem top_sections_top (candidates : list node) :
  let dropped := skipn 12 (sorted_desc score_section candidates) in
  Permutation (top_sections candidates ++ dropped) candidates
  /\ (forall a b,
         In a (top_sections candidates) -> In b dropped ->
         score_section b <= score_section a)
  /\ List.length (top_sections candidates)
     = Nat.min 12 (List.length candidates)
  /\ ((List.length candidates <= 12)%nat ->
      Permutation (top_sections candidates) candidates).
Proof.
  cbn zeta. unfold top_sections.
  pose proof (sorted_desc_perm score_section candidates) as P.
  split; [now rewrite firstn_skipn|]. split.
  - apply (StronglySorted_app_cross
             (fun a b => score_section b <= score_section a)).
    rewrite firstn_skipn. apply LinkedInFetcherSpec.sorted_desc_sorted.
  - split.
    + rewrite length_firstn. now rewrite (Permutation_length P).
    + intros L. rewrite firstn_all2; [exact P|].
      now rewrite (Permutation_length P).
Qed.

Lemma top_sections_top_witness :
  Permutation (top_sections (collect_candidates div_then_section))
              (collect_candidates div_then_section).
Proof.
  apply (proj2 (proj2 (proj2 (top_sections_top
                                (collect_candidates div_then_section))))).
  vm_compute. lia.
Defined.

Local Close Scope Z_scope.

(** *** The candidates and the fragments of a page *)

Lemma StronglySorted_NoDup {A : Type} (R : A -> A -> Prop) (l : list A) :
  (forall a, ~ R a a) -> StronglySorted R l -> NoDup l.
Proof.
  intros I. induction 1 as [|x l S IH F]; constructor; [|exact IH].
  intros H. rewrite Forall_forall in F. exact (I x (F x H)).
Qed.

Lemma document_positions (els : list Tag) (start : nat) (n : node) :
  In n (combine (seq start (List.length els)) els) ->
  nth_error els (position n - start) = Some (snd n) /\ start <= position n.
Proof.
  revert start; induction els as [|e els IH]; intros start; [easy|].
  cbn [List.length seq combine In]. intros [<-|H].
  - cbn [position fst snd]. rewrite Nat.sub_diag. now split.
  - apply IH in H as [H L]. split; [|lia].
    replace (position n - start) with (S (position n - S start)) by lia.
    exact H.
Qed.

(** X9: the candidates of a page are its [section], [main] and [div]
    elements and no others, each listed once, and each stands in the page
    at the position it carries. *)
Theorem collect_candidates_spec (soup : Soup) :
  (forall n,
      In n (collect_candidates soup)
      <-> In n (document soup) /\ In (name (snd n)) selectors)
  /\ NoDup (collect_candidates soup)
  /\ (forall n,
         In n (collect_candidates soup) ->
         nth_error (elements soup) (position n) = Some (snd n)).
Proof.
  assert (M : forall n,
             In n (collect_candidates soup)
             <-> In n (document soup) /\ In (name (snd n)) selectors).
  { intros n. unfold collect_candidates. cbn [fold_left selectors app].
    rewrite !in_app_iff. unfold select. rewrite !filter_In, !String.eqb_eq.
    unfold selectors. cbn [In]. intuition congruence. }
  split; [exact M|]. split.
  - apply StronglySorted_NoDup with (R := candidate_order).
    + unfold candidate_order. intros a. lia.
    + apply LinkedInFetcherSpec.collect_candidates_sorted.
  - intros n H. apply M in H as [H _]. unfold document in H.
    apply document_positions in H as [H _]. now rewrite Nat.sub_0_r in H.
Qed.

Lemma collect_candidates_spec_witness :
  nth_error (elements div_then_section) 1
  = Some {| name := "section"; get_text := "Based in Lisbon" |}.
Proof.
  apply (proj2 (proj2 (collect_candidates_spec div_then_section))
           (1, {| name := "section"; get_text := "Based in Lisbon" |})).
  apply (proj1 (collect_candidates_spec div_then_section)).
  split; [right; now left | now left].
Defined.

Lemma fragments_loop (candidates : list node) (acc : list string) :
  fold_left (fun extracted_sections n =>
               let text := _clean_text (get_text (snd n)) in
               if (len text >? 200)%Z then (extracted_sections ++ [text])%list
               else extracted_sections)
            candidates acc
  = (acc ++ filter (fun text => (len text >? 200)%Z)
                   (map (fun n => _clean_text (get_text (snd n))) candidates)
    )%list.
Proof.
  revert acc; induction candidates as [|n candidates IH]; intros acc;
    cbn [fold_left map filter]; [now rewrite app_nil_r|].
  rewrite IH. destruct (len (_clean_text (get_text (snd n))) >? 200)%Z;
    [now rewrite <- app_assoc | reflexivity].
Qed.

Lemma long_texts (soup : Soup) :
  let texts :=
    filter (fun text => (len text >? 200)%Z)
           (map (fun n => _clean_text (get_text (snd n)))
                (top_sections (collect_candidates soup))) in
  Forall (fragment_of soup) texts
  /\ List.length texts <= 12
  /\ (forall n,
         In n (top_sections (collect_candidates soup)) ->
         (200 < len (_clean_text (get_text (snd n))))%Z ->
         In (_clean_text (get_text (snd n))) texts).
Proof.
  cbn zeta. split; [|split].
  - apply Forall_forall. intros t H. apply filter_In in H as [H L].
    apply in_map_iff in H as (n & <- & H). right. right. exists n.
    split; [exact H|]. split; [reflexivity | now apply Z.gtb_lt].
  - eapply Nat.le_trans; [apply filter_length_le|]. rewrite length_map.
    apply firstn_le_length.
  - intros n H L. apply filter_In. split; [|now apply Z.gtb_lt].
    apply in_map_iff. now exists n.
Qed.

(** X10: the fragments gathered from a page are at most fourteen, and each
    is the line of the page's title, stripped, the line of its description,
    stripped, or the cleaned text of a kept candidate element, longer than
    200 characters.  None is missed: the title line comes first when the
    stripped title is not empty, the description line is there when the
    page has a description that is not empty, and so is the cleaned text of
    every kept candidate that is longer than 200 characters. *)
Theorem extract_sections_fragments (soup : Soup) :
  Forall (fragment_of soup) (extract_sections soup)
  /\ List.length (extract_sections soup) <= 14
  /\ (forall s,
         soup_title soup = Some (Some s) -> strip s <> "" ->
         hd_error (extract_sections soup) = Some ("Title: " ++ strip s))
  /\ (forall d,
         og_description soup = Some (Some d) -> d <> "" ->
         In ("About: " ++ strip d) (extract_sections soup))
  /\ (forall n,
         In n (top_sections (collect_candidates soup)) ->
         (200 < len (_clean_text (get_text (snd n))))%Z ->
         In (_clean_text (get_text (snd n))) (extract_sections soup)).
Proof.
  destruct (long_texts soup) as (FT & LT & IT). cbn zeta in FT, LT, IT.
  unfold extract_sections. cbn zeta. rewrite fragments_loop.
  set (texts := filter _ _) in *.
  assert (T : forall title,
             title = match soup_title soup with
                     | Some title_string =>
                         strip match title_string with
                               | Some s => s
                               | None => ""
                               end
                     | None => ""
                     end ->
             (title = ""
              /\ forall s, soup_title soup = Some (Some s) -> strip s = "")
             \/ (title <> ""
                 /\ exists s, soup_title soup = Some (Some s)
                              /\ title = strip s)).
  { intros title ->. destruct (soup_title soup) as [[s|]|].
    - destruct (strip s) eqn:E.
      + left. split; [reflexivity|]. now intros s' [= <-].
      + right. split; [discriminate|]. exists s. now rewrite E.
    - left. split; [reflexivity | discriminate].
    - left. split; [reflexivity | discriminate]. }
  specialize (T _ eq_refl).
  set (page_title := match soup_title soup with
                     | Some title_string =>
                         strip match title_string with
                               | Some s => s
                               | None => ""
                               end
                     | None => ""
                     end) in *.
  assert (A : forall acc : list string,
             let acc' :=
               match og_description soup with
               | Some (Some (String c content)) =>
                   (acc ++ [("About: " ++ strip (String c content))%string])%list
               | _ => acc
               end in
             (acc' = acc
              /\ forall d, og_description soup = Some (Some d) -> d = "")
             \/ (exists d, og_description soup = Some (Some d) /\ d <> ""
                           /\ acc' = (acc ++ [("About: " ++ strip d)%string])%list)).
  { intros acc. cbn zeta.
    destruct (og_description soup) as [[[|c content]|]|].
    - left. split; [reflexivity|]. now intros d [= <-].
    - right. exists (String c content). now repeat split.
    - left. split; [reflexivity | discriminate].
    - left. split; [reflexivity | discriminate]. }
  destruct T as [[Tn Ts]|[Tn (s & Ts & Te)]].
  - rewrite Tn. specialize (A []). cbn zeta in A.
    destruct A as [[-> Ad]|(d & Ad & Dn & ->)]; cbn [app].
    + split; [exact FT|]. split; [lia|]. split.
      { intros s' H N. now rewrite (Ts s' H) in N. }
      split; [intros d H N; now rewrite (Ad d H) in N | exact IT].
    + split.
      { constructor; [|exact FT]. right. left. now exists d. }
      split; [cbn [List.length]; lia|]. split.
      { intros s' H N. now rewrite (Ts s' H) in N. }
      split.
      * intros d' H _. rewrite Ad in H. injection H as <-. now left.
      * intros n H L. right. now apply IT.
  - destruct page_title as [|c t] eqn:P; [contradiction|].
    specialize (A ([] ++ [("Title: " ++ String c t)%string])%list).
    cbn zeta in A.
    assert (FS : fragment_of soup ("Title: " ++ String c t)).
    { left. exists s. rewrite <- Te. split; [exact Ts|].
      split; [discriminate | reflexivity]. }
    destruct A as [[-> Ad]|(d & Ad & Dn & ->)]; cbn [app].
    + split; [constructor; [exact FS | exact FT]|].
      split; [cbn [List.length]; lia|]. split.
      { intros s' H _. rewrite Ts in H. injection H as <-.
        cbn [hd_error]. now rewrite Te. }
      split; [intros d H N; now rewrite (Ad d H) in N|].
      intros n H L. right. now apply IT.
    + split.
      { constructor; [exact FS|]. constructor; [|exact FT].
        right. left. now exists d. }
      split; [cbn [List.length]; lia|]. split.
      { intros s' H _. rewrite Ts in H. injection H as <-.
        cbn [hd_error]. now rewrite Te. }
      split.
      * intros d' H _. rewrite Ad in H. injection H as <-. right. now left.
      * intros n H L. right. right. now apply IT.
Qed.

Lemma extract_sections_fragments_witness :
  hd_error (extract_sections titled_page)
  = Some "Title: Ada Lovelace | LinkedIn"
  /\ In "About: Mathematician." (extract_sections titled_page).
Proof.
  destruct (extract_sections_fragments titled_page) as (_ & _ & T & A & _).
  split.
  - apply (T "  Ada Lovelace | LinkedIn "); [reflexivity | discriminate].
  - apply (A "Mathematician. "); [reflexivity | discriminate].
Defined.

(** *** Requests and blocked pages *)

Section Requests.
Context {W : Web}.

(** X11: for an address that names the profile site the fetcher sends one
    request, to that address, with its headers and its timeout, and leaves
    the world as that request left it, whatever the page holds. *)
Theorem fetch_profile_text_one_request (self : LinkedInFetcher)
  (url : string) (w : World) :
  contains "linkedin.com" url = true ->
  fst (_fetch_profile_text_sync self url w)
  = (fst (requests_get url (_headers self) (request_timeout_seconds self) w),
     [HttpGet url]).
Proof.
  intros H. unfold _fetch_profile_text_sync, fetch_body.
  assert (U : (url =? "") = false).
  { apply String.eqb_neq. intros ->. discriminate. }
  rewrite U, H. cbn [negb orb].
  now destruct (requests_get _ _ _ _) as [w1 r].
Qed.

(** X12: a page whose text holds, in any case, one of [signin], [login],
    [captcha] and [enable javascript] yields the empty string, whatever
    else it holds and whatever its status. *)
Theorem fetch_profile_text_blocked (self : LinkedInFetcher) (url : string)
  (w w' : World) (response : Response) (marker : string) :
  requests_get url (_headers self) (request_timeout_seconds self) w
  = (w', Ok response) ->
  In marker block_markers ->
  contains marker (lower (text response)) = true ->
  snd (_fetch_profile_text_sync self url w) = "".
Proof.
  intros R M C. unfold _fetch_profile_text_sync, fetch_body.
  destruct ((url =? "") || negb (contains "linkedin.com" url))%bool;
    [reflexivity|].
  rewrite R. cbn [snd bind].
  destruct (negb (status_code response =? 200)%Z); [reflexivity|].
  assert (B : contains_any block_markers (lower (text response)) = true).
  { unfold contains_any. apply existsb_exists. now exists marker. }
  now rewrite B.
Qed.

End Requests.

Lemma fetch_profile_text_one_request_witness :
  fst (_fetch_profile_text_sync (W := offline_web) (__init__ 20)
         "https://www.linkedin.com/in/someone" [])
  = (["https://www.linkedin.com/in/someone"],
     [HttpGet "https://www.linkedin.com/in/someone"]).
Proof.
  apply (fetch_profile_text_one_request (W := offline_web) (__init__ 20)
           "https://www.linkedin.com/in/someone" []).
  reflexivity.
Defined.

Lemma fetch_profile_text_blocked_witness :
  snd (_fetch_profile_text_sync
         (W := static_web {| status_code := 200;
                             text := "<html>Please LOGIN to continue</html>" |})
         (__init__ 20) "https://www.linkedin.com/in/someone" 0)
  = "".
Proof.
  apply (fetch_profile_text_blocked
           (W := static_web {| status_code := 200;
                               text := "<html>Please LOGIN to continue</html>" |})
           (__init__ 20) "https://www.linkedin.com/in/someone" 0 1
           {| status_code := 200;
              text := "<html>Please LOGIN to continue</html>" |}
           "login").
  - reflexivity.
  - cbn. tauto.
  - reflexivity.
Defined.

End LinkedInFetcherMore.

(** ** More on the response validator *)

Module ValidatorMore.
Import PyStr PyStrFacts PyStrMore Models CVAnalyzer.

(** *** Code fences *)

Lemma take_app_length (a b : string) : take (String.length a) (a ++ b) = a.
Proof. induction a as [|c a IH]; cbn; [now destruct b | now rewrite IH]. Qed.

Lemma drop_app_length (a b : string) : drop (String.length a) (a ++ b) = b.
Proof. induction a as [|c a IH]; cbn; [now destruct b | exact IH]. Qed.

Lemma endswith_app (a suf : string) : endswith suf (a ++ suf) = true.
Proof.
  unfold endswith. rewrite length_str_app.
  replace (String.length a + String.length suf - String.length suf)
    with (String.length a) by lia.
  rewrite drop_app_length, String.eqb_refl.
  apply andb_true_intro. split; [apply Nat.leb_le; lia | reflexivity].
Qed.

Lemma drop_last_app (a suf : string) : drop_last (String.length suf) (a ++ suf) = a.
Proof.
  unfold drop_last. rewrite length_str_app.
  replace (String.length a + String.length suf - String.length suf)
    with (String.length a) by lia.
  apply take_app_length.
Qed.

Lemma rstrip_app_space (a : string) (c : ascii) :
  isspace c = true -> rstrip (a ++ String c "") = rstrip a.
Proof.
  intros H. induction a as [|x a IH]; cbn [append rstrip]; [now rewrite H|].
  now rewrite IH.
Qed.

Lemma rstrip_app_fixed (a b : string) :
  b <> "" -> rstrip b = b -> rstrip (a ++ b) = a ++ b.
Proof.
  intros N F. induction a as [|x a IH]; cbn [append rstrip]; [exact F|].
  rewrite IH. destruct (a ++ b) eqn:E; [|reflexivity].
  destruct a; [cbn in E; contradiction | discriminate].
Qed.

Lemma strip_padded (d : string) (c1 c2 : ascii) :
  isspace c1 = true -> isspace c2 = true ->
  strip (String c1 (d ++ String c2 "")) = strip d.
Proof.
  intros H1 H2. unfold strip. cbn [lstrip]. rewrite H1.
  induction d as [|x d IH]; cbn [append lstrip]; [now rewrite H2|].
  destruct (isspace x); [exact IH|].
  change (String x (d ++ String c2 "")) with (String x d ++ String c2 "").
  now apply rstrip_app_space.
Qed.

Lemma strip_strip (s : string) : strip (strip s) = strip s.
Proof. apply strip_fixed; [apply lstrip_strip | apply rstrip_strip]. Qed.

Lemma fenced_inner (d : string) :
  String "010" d ++ String "010" "```"
  = String "010" (d ++ String "010" "") ++ "```".
Proof. cbn [append]. now rewrite str_app_assoc. Qed.

Lemma strip_fenced (d : string) : strip (fenced d) = fenced d.
Proof.
  unfold strip. replace (lstrip (fenced d)) with (fenced d) by reflexivity.
  unfold fenced. rewrite fenced_inner, <- str_app_assoc.
  apply rstrip_app_fixed; [discriminate | reflexivity].
Qed.

(** X13: a document wrapped in a code fence is read back the same as the
    bare document, stripped; a reply that neither starts with the opening
    fence nor ends with the closing one is only stripped. *)
Theorem strip_fences_spec :
  (forall document, strip_fences (fenced document) = strip document)
  /\ (forall reply,
         startswith "```json" (strip reply) = false ->
         endswith "```" (strip reply) = false ->
         strip_fences reply = strip reply).
Proof.
  split.
  - intros d. unfold strip_fences. rewrite strip_fenced.
    replace (startswith "```json" (fenced d)) with true
      by (symmetry; apply prefix_iff; now eexists).
    replace (drop 7 (fenced d)) with (String "010" d ++ String "010" "```")
      by reflexivity.
    rewrite fenced_inner, endswith_app.
    change 3 with (String.length "```"). rewrite drop_last_app.
    now apply strip_padded.
  - intros reply H1 H2. unfold strip_fences. rewrite H1, H2.
    apply strip_strip.
Qed.

Lemma strip_fences_spec_witness :
  strip_fences " { } " = "{ }".
Proof.
  rewrite (proj2 strip_fences_spec " { } "); reflexivity.
Defined.

(** *** Outcomes of the validator *)

Lemma require_fields_dict (msg : string) (fields : list string)
  (entries : list (string * pyval)) :
  require_fields msg fields (PDict entries)
  = match absent_fields fields entries with
    | [] => Ok tt
    | missing :: _ => Err (msg ++ missing)
    end.
Proof.
  induction fields as [|field fields IH]; [reflexivity|].
  cbn [require_fields py_in bind absent_fields filter].
  destruct (existsb (fun kv => fst kv =? field) entries); [exact IH|].
  reflexivity.
Qed.

Lemma parse_each_raises {A : Type} (f : pyval -> res A)
  (entry : pyval -> A -> Prop) (good : list pyval) (parsed : list A)
  (bad : pyval) (rest : list pyval) (e : string) :
  (forall v a, entry v a -> f v = Ok a) ->
  Forall2 entry good parsed ->
  f bad = Err e ->
  parse_each f (good ++ bad :: rest) = Err e.
Proof.
  intros H F Hb. induction F as [|v a good parsed Hv _ IH].
  - cbn [app parse_each]. now rewrite Hb.
  - cbn [app parse_each]. rewrite (H _ _ Hv). cbn [bind]. now rewrite IH.
Qed.

Section Outcomes.
Context {J : Json} {P : Pydantic}.

Lemma validate_data_printed (data : pyval) (printed : list string)
  (result : AnalysisResult) :
  validate_data data = (printed, Ok result) ->
  printed = count_warnings (List.length (strengths result))
                           (List.length (weaknesses result)).
Proof.
  unfold validate_data.
  destruct (parse_entries data) as [[[mp ss] ws]|]; [|discriminate].
  intros H. injection H as <- H. unfold bind in H.
  repeat match type of H with
         | match ?x with _ => _ end = _ => destruct x; try discriminate
         end.
  now injection H as <-.
Qed.

Lemma parse_outcome (response : option string) :
  exists printed outcome,
    _parse_analysis_response response = (printed, outcome)
    /\ match outcome with
       | Ok result =>
           (0 <= match_percentage result <= 100)%Z
           /\ printed = count_warnings (List.length (strengths result))
                                       (List.length (weaknesses result))
       | Err e =>
           (printed = []
            /\ exists cause,
                e = "Invalid JSON response from GitHub Models: " ++ cause)
           \/ (exists cause, e = "Error parsing analysis response: " ++ cause)
       end.
Proof.
  unfold _parse_analysis_response. destruct response as [response|].
  2:{ do 2 eexists. split; [reflexivity|]. right. now eexists. }
  destruct (json_loads (strip_fences response)) as [data|e].
  2:{ do 2 eexists. split; [reflexivity|]. left. split; [easy | now eexists]. }
  destruct (validate_data data) as [printed [result|e]] eqn:V;
    do 2 eexists; (split; [reflexivity|]); cbn [wrap_exception].
  - split.
    + destruct (CVAnalyzerSpec.validate_data_range _ _ _ V) as (mp & _ & _ & R).
      exact R.
    + exact (validate_data_printed _ _ _ V).
  - right. now eexists.
Qed.


(** X14: whatever the reply, the validator either returns a result whose
    percentage lies between 0 and 100, having printed the warnings on the
    numbers of its strengths and weaknesses and nothing else, or raises an
    error that starts with [Invalid JSON response from GitHub Models: ],
    nothing printed, or with [Error parsing analysis response: ]. *)
Theorem parse_analysis_response_outcome (response : option string) :
  exists printed outcome,
    _parse_analysis_response response = (printed, outcome)
    /\ match outcome with
       | Ok result =>
           (0 <= match_percentage result <= 100)%Z
           /\ printed = count_warnings (List.length (strengths result))
                                       (List.length (weaknesses result))
       | Err e =>
           (printed = []
            /\ exists cause,
                e = "Invalid JSON response from GitHub Models: " ++ cause)
           \/ (exists cause, e = "Error parsing analysis response: " ++ cause)
       end.
Proof.
  unfold _parse_analysis_response. destruct response as [response|].
  2:{ do 2 eexists. split; [reflexivity|]. right. now eexists. }
  destruct (json_loads (strip_fences response)) as [data|e].
  2:{ do 2 eexists. split; [reflexivity|]. left. split; [easy | now eexists]. }
  destruct (validate_data data) as [printed [result|e]] eqn:V;
    do 2 eexists; (split; [reflexivity|]); cbn [wrap_exception].
  - split.
    + destruct (CVAnalyzerSpec.validate_data_range _ _ _ V) as (mp & _ & _ & R).
      exact R.
    + exact (validate_data_printed _ _ _ V).
  - right. now eexists.
Qed.

(** X15: a reply that is a JSON object lacking one of the four required
    keys is refused, nothing printed, with an error that names the first of
    them it lacks. *)
Theorem missing_required_field (reply : string)
  (entries : list (string * pyval)) (missing : string) (others : list string) :
  json_loads (strip_fences reply) = Ok (PDict entries) ->
  absent_fields required_fields entries = missing :: others ->
  _parse_analysis_response (Some reply)
  = ([], Err ("Error parsing analysis response: "
              ++ "Missing required field: " ++ missing)).
Proof.
  intros Hj Ha. unfold _parse_analysis_response. rewrite Hj.
  unfold validate_data, parse_entries.
  rewrite require_fields_dict, Ha. reflexivity.
Qed.

Lemma parse_strength_incomplete (entries : list (string * pyval)) :
  absent_fields ["title"; "description"] entries <> [] ->
  parse_strength (PDict entries)
  = Err "Strength missing title or description".
Proof.
  unfold parse_strength, absent_fields. cbn [py_in bind filter].
  destruct (existsb (fun kv => fst kv =? "title") entries); cbn [negb bind];
    [|reflexivity].
  destruct (existsb (fun kv => fst kv =? "description") entries);
    cbn [negb bind]; [contradiction | reflexivity].
Qed.

Lemma parse_weakness_incomplete (entries : list (string * pyval))
  (missing : string) (others : list string) :
  absent_fields required_weakness_fields entries = missing :: others ->
  parse_weakness (PDict entries) = Err ("Weakness missing " ++ missing).
Proof.
  intros H. unfold parse_weakness. now rewrite require_fields_dict, H.
Qed.

Lemma parse_entries_strengths (data mp : pyval) (n : Z) (s_data w_data sm : pyval) :
  py_getitem data "match_percentage" = Ok mp ->
  as_int mp = Some n -> (0 <= n <= 100)%Z ->
  py_getitem data "strengths" = Ok s_data ->
  py_getitem data "weaknesses" = Ok w_data ->
  py_getitem data "summary" = Ok sm ->
  parse_entries data
  = (do strengths_items <- py_iter s_data;
     do strengths <- parse_each parse_strength strengths_items;
     do weaknesses_items <- py_iter w_data;
     do weaknesses <- parse_each parse_weakness weaknesses_items;
     Ok (mp, strengths, weaknesses)).
Proof.
  intros Hm Hn Hr Hs Hw Ht.
  destruct (CVAnalyzerSpec.getitem_dict _ _ _ Hm) as [entries ->].
  unfold parse_entries. cbn [require_fields required_fields].
  rewrite (CVAnalyzerSpec.getitem_in _ _ _ Hm). cbn [bind].
  rewrite (CVAnalyzerSpec.getitem_in _ _ _ Hs). cbn [bind].
  rewrite (CVAnalyzerSpec.getitem_in _ _ _ Hw). cbn [bind].
  rewrite (CVAnalyzerSpec.getitem_in _ _ _ Ht). cbn [bind].
  rewrite Hm. cbn [bind]. rewrite Hn.
  replace ((n <? 0)%Z || (n >? 100)%Z) with false
    by (symmetry; apply orb_false_intro; lia).
  rewrite Hs, Hw. reflexivity.
Qed.

(** X16: one strength that lacks its title or its description makes the
    whole reply fail, whatever the entries before and after it hold;
    nothing is returned and nothing printed. *)
Theorem incomplete_strength_fails (reply : string) (data mp : pyval) (n : Z)
  (good : list pyval) (parsed : list Strength)
  (entries : list (string * pyval)) (rest : list pyval) (w_data sm : pyval) :
  json_loads (strip_fences reply) = Ok data ->
  py_getitem data "match_percentage" = Ok mp ->
  as_int mp = Some n -> (0 <= n <= 100)%Z ->
  py_getitem data "strengths" = Ok (PList (good ++ PDict entries :: rest)) ->
  Forall2 strength_entry good parsed ->
  absent_fields ["title"; "description"] entries <> [] ->
  py_getitem data "weaknesses" = Ok w_data ->
  py_getitem data "summary" = Ok sm ->
  _parse_analysis_response (Some reply)
  = ([], Err ("Error parsing analysis response: "
              ++ "Strength missing title or description")).
Proof.
  intros Hj Hm Hn Hr Hs Fs Ha Hw Ht.
  unfold _parse_analysis_response. rewrite Hj. unfold validate_data.
  rewrite (parse_entries_strengths _ _ _ _ _ _ Hm Hn Hr Hs Hw Ht).
  cbn [py_iter bind].
  rewrite (parse_each_raises _ _ _ _ _ _ _
             (@CVAnalyzerSpec.parse_strength_entry P) Fs
             (parse_strength_incomplete _ Ha)).
  reflexivity.
Qed.

(** X17: when every strength is complete, one weakness that lacks its
    title, description or suggestion makes the whole reply fail with an
    error that names the first of the three it lacks. *)
Theorem incomplete_weakness_fails (reply : string) (data mp : pyval) (n : Z)
  (s_items : list pyval) (ss : list Strength)
  (good : list pyval) (parsed : list Weakness)
  (entries : list (string * pyval)) (rest : list pyval) (sm : pyval)
  (missing : string) (others : list string) :
  json_loads (strip_fences reply) = Ok data ->
  py_getitem data "match_percentage" = Ok mp ->
  as_int mp = Some n -> (0 <= n <= 100)%Z ->
  py_getitem data "strengths" = Ok (PList s_items) ->
  Forall2 strength_entry s_items ss ->
  py_getitem data "weaknesses" = Ok (PList (good ++ PDict entries :: rest)) ->
  Forall2 weakness_entry good parsed ->
  absent_fields required_weakness_fields entries = missing :: others ->
  py_getitem data "summary" = Ok sm ->
  _parse_analysis_response (Some reply)
  = ([], Err ("Error parsing analysis response: "
              ++ "Weakness missing " ++ missing)).
Proof.
  intros Hj Hm Hn Hr Hs Fs Hw Fw Ha Ht.
  unfold _parse_analysis_response. rewrite Hj. unfold validate_data.
  rewrite (parse_entries_strengths _ _ _ _ _ _ Hm Hn Hr Hs Hw Ht).
  cbn [py_iter bind].
  rewrite (CVAnalyzerSpec.parse_each_entries _ _ _ _
             (@CVAnalyzerSpec.parse_strength_entry P) Fs).
  cbn [bind].
  rewrite (parse_each_raises _ _ _ _ _ _ _
             (@CVAnalyzerSpec.parse_weakness_entry P) Fw
             (parse_weakness_incomplete _ _ _ Ha)).
  reflexivity.
Qed.

End Outcomes.

Lemma missing_required_field_witness :
  _parse_analysis_response (J := canned_json "{ ... }" reply_without_lists)
    (P := strict_models) (Some (fenced "{ ... }"))
  = ([], Err "Error parsing analysis response: Missing required field: strengths").
Proof.
  apply (missing_required_field
           (J := canned_json "{ ... }" reply_without_lists)
           (P := strict_models) (fenced "{ ... }")
           [("match_percentage", PInt 72); ("summary", PStr "Fine.")]
           "strengths" ["weaknesses"]); reflexivity.
Defined.

Lemma incomplete_strength_fails_witness :
  _parse_analysis_response
    (J := canned_json "{ ... }" reply_incomplete_strength)
    (P := strict_models) (Some (fenced "{ ... }"))
  = ([], Err "Error parsing analysis response: Strength missing title or description").
Proof.
  apply (incomplete_strength_fails
           (J := canned_json "{ ... }" reply_incomplete_strength)
           (P := strict_models) (fenced "{ ... }")
           reply_incomplete_strength (PInt 72) 72
           [PDict [("title", PStr "Python"); ("description", PStr "Five years")]]
           [ {| s_title := "Python"; s_description := "Five years" |} ]
           [("title", PStr "Cloud")] [] (PList []) (PStr "Fine."));
    try reflexivity; try lia; try discriminate.
  repeat constructor. eexists. repeat split; reflexivity.
Defined.

Lemma incomplete_weakness_fails_witness :
  _parse_analysis_response
    (J := canned_json "{ ... }" reply_incomplete_weakness)
    (P := strict_models) (Some (fenced "{ ... }"))
  = ([], Err "Error parsing analysis response: Weakness missing description").
Proof.
  apply (incomplete_weakness_fails
           (J := canned_json "{ ... }" reply_incomplete_weakness)
           (P := strict_models) (fenced "{ ... }")
           reply_incomplete_weakness (PInt 72) 72
           [] [] [] []
           [("title", PStr "Testing"); ("suggestion", PStr "Write tests")]
           [] (PStr "Fine.") "description" []);
    try reflexivity; try lia; constructor.
Defined.

End ValidatorMore.

(** ** More on the model orchestrator *)

Module OrchestratorMore.
Import PyStr PyStrFacts PyStrMore Models CVAnalyzer.

(** *** The override *)

Lemma split_pieces (sep : ascii) (s : string) :
  Forall (fun m => forallb_str (fun c => negb (Ascii.eqb c sep)) m = true)
         (split sep s).
Proof.
  induction s as [|c s IH]; cbn [split]; [now repeat constructor|].
  destruct (Ascii.eqb c sep) eqn:E; [now constructor|].
  destruct (split sep s) as [|h t]; [now repeat constructor; cbn; rewrite E|].
  apply Forall_cons_iff in IH as [Hh Ht].
  constructor; [cbn [forallb_str]; now rewrite E | exact Ht].
Qed.

Lemma strip_fixed_parts (m : string) :
  strip m = m -> lstrip m = m /\ rstrip m = m.
Proof.
  intros H. split; [rewrite <- H; apply lstrip_strip|].
  rewrite <- H. apply rstrip_strip.
Qed.

Lemma listed_candidates_names (s : string) :
  Forall model_name (listed_candidates s).
Proof.
  unfold listed_candidates. pose proof (split_pieces "," s) as F.
  induction F as [|m l Hm _ IH]; cbn [filter map]; [constructor|].
  destruct (strip m) eqn:E; cbn [nonempty]; [exact IH|].
  cbn [map]. constructor; [|exact IH]. rewrite E. split; [discriminate|].
  split; [rewrite <- E; apply ValidatorMore.strip_strip|].
  rewrite <- E. now apply forallb_str_strip.
Qed.

Lemma split_join (names : list string) :
  names <> [] ->
  Forall (fun m => forallb_str (fun c => negb (Ascii.eqb c ",")) m = true)
         names ->
  split "," (join "," names) = names.
Proof.
  intros N F. induction F as [|m l Hm F IH]; [contradiction|].
  destruct l as [|m' l].
  - cbn [join]. now apply FileProcessorSpec.split_without_sep.
  - change (join "," (m :: m' :: l)) with (m ++ String "," (join "," (m' :: l))).
    rewrite FileProcessorSpec.split_app, IH by discriminate.
    now rewrite FileProcessorSpec.split_without_sep.
Qed.

Lemma join_nonempty (m : string) (l : list string) :
  m <> "" -> join "," (m :: l) <> "".
Proof. destruct m; [contradiction|]. now destruct l. Qed.

Lemma strip_join (names : list string) :
  Forall model_name names -> strip (join "," names) = join "," names.
Proof.
  intros F. destruct F as [|m l [Hne [Hs _]] F]; [reflexivity|].
  apply strip_fixed.
  - apply strip_fixed_parts in Hs as [Hl _].
    destruct m as [|c m]; [contradiction|].
    apply lstrip_fixed_head in Hl.
    destruct l; cbn [join append lstrip]; now rewrite Hl.
  - revert m Hne Hs. induction F as [|m' l [Hne' [Hs' _]] F IH];
      intros m Hne Hs.
    + cbn [join]. now apply strip_fixed_parts in Hs.
    + change (join "," (m :: m' :: l))
        with (m ++ String "," (join "," (m' :: l))).
      change (m ++ String "," (join "," (m' :: l)))
        with (m ++ "," ++ join "," (m' :: l)).
      rewrite <- str_app_assoc.
      apply ValidatorMore.rstrip_app_fixed;
        [now apply join_nonempty | now apply IH].
Qed.

Lemma listed_candidates_join (names : list string) :
  Forall model_name names -> listed_candidates (join "," names) = names.
Proof.
  intros F. destruct names as [|m l]; [reflexivity|].
  unfold listed_candidates. rewrite split_join; [|discriminate|].
  - induction F as [|x xs [Hne [Hs _]] _ IH]; [reflexivity|].
    cbn [filter]. rewrite Hs. destruct x; [contradiction|].
    cbn [nonempty map]. now rewrite Hs, IH.
  - eapply Forall_impl; [|exact F]. now intros x (_ & _ & H).
Qed.

(** X18: when the override lists at least one name, the candidates are the
    listed names and only them, the configured model not added; each is a
    name without whitespace at either end, not empty and without a comma.
    Conversely a list of such names, joined with commas, is read back as it
    is. *)
Theorem init_override (env : environ) (self : CVAnalyzer) :
  __init__ env = Ok self ->
  (forall first others,
      listed_candidates (strip (getenv env "GITHUB_MODEL_CANDIDATES" ""))
      = first :: others ->
      model_candidates self = first :: others
      /\ Forall model_name (model_candidates self))
  /\ (forall names,
         names <> [] -> Forall model_name names ->
         env "GITHUB_MODEL_CANDIDATES" = Some (join "," names) ->
         model_candidates self = names).
Proof.
  intros H. apply CVAnalyzerSpec.init_fields in H as [_ Hc]. split.
  - intros first others L. rewrite L in Hc. split; [exact Hc|].
    rewrite Hc, <- L. apply listed_candidates_names.
  - intros names N F E. unfold getenv in Hc. rewrite E in Hc.
    rewrite strip_join, listed_candidates_join in Hc by exact F.
    now destruct names.
Qed.

Lemma init_override_witness :
  exists self,
    __init__ (with_override "openai/gpt-4o-mini,openai/gpt-4o") = Ok self
    /\ model_candidates self = ["openai/gpt-4o-mini"; "openai/gpt-4o"].
Proof.
  eexists. split; [reflexivity|].
  apply (proj2 (init_override
                  (with_override "openai/gpt-4o-mini,openai/gpt-4o") _ eq_refl)
           ["openai/gpt-4o-mini"; "openai/gpt-4o"]);
    [discriminate | | reflexivity].
  repeat constructor; try discriminate; reflexivity.
Defined.

(** *** The cascade *)

Section Cascade.
Context {M : ModelEndpoint}.

Lemma cascade_shape (self : CVAnalyzer) (prompt : string)
  (candidates : list string) (last : option string) (r : Remote) :
  exists r' self' attempted result,
    cascade self prompt candidates last r = (r', self', attempted, result)
    /\ (exists rest, candidates = (attempted ++ rest)%list)
    /\ match result with
       | Ok _ =>
           exists before c,
             attempted = (before ++ [c])%list /\ self' = set_model_id self c
       | Err e =>
           self' = self
           /\ exists cause, e = "Error calling GitHub Models API: " ++ cause
       end.
Proof.
  revert last r; induction candidates as [|c rest IH]; intros last r.
  - cbn [cascade]. do 4 eexists. split; [reflexivity|].
    split; [now exists []|]. split; [reflexivity|]. now eexists.
  - cbn [cascade]. destruct (try_candidate self prompt c r) as [r1 [text|e]].
    + do 4 eexists. split; [reflexivity|]. split; [now exists rest|].
      now exists [], c.
    + destruct (unavailable (lower e)).
      * destruct (IH (Some e) r1)
          as (r' & self' & attempted & result & E & [rest' ->] & S).
        rewrite E. cbn [with_attempts app]. do 4 eexists.
        split; [reflexivity|]. split; [now exists rest'|].
        destruct result as [text|e']; [|exact S].
        destruct S as (before & c' & -> & ->). now exists (c :: before), c'.
      * do 4 eexists. split; [reflexivity|]. split; [now exists rest|].
        split; [reflexivity|]. now eexists.
Qed.

(** X19: whatever the endpoint answers, the candidates attempted are a
    first part of the candidate list, in its order; the list itself, the
    token and the endpoint are left as they were; the analyzer's model
    changes only on success, to the last candidate attempted; and every
    error starts with [Error calling GitHub Models API: ]. *)
Theorem call_github_models_shape (self : CVAnalyzer) (prompt : string)
  (r : Remote) :
  exists r' self' attempted result,
    _call_github_models self prompt r = (r', self', attempted, result)
    /\ (exists rest, model_candidates self = (attempted ++ rest)%list)
    /\ model_candidates self' = model_candidates self
    /\ github_token self' = github_token self
    /\ model_endpoint self' = model_endpoint self
    /\ match result with
       | Ok _ =>
           exists before c,
             attempted = (before ++ [c])%list /\ model_id self' = c
       | Err e =>
           self' = self
           /\ exists cause, e = "Error calling GitHub Models API: " ++ cause
       end.
Proof.
  unfold _call_github_models.
  destruct (cascade_shape self prompt (model_candidates self) None r)
    as (r' & self' & attempted & result & E & R & S).
  exists r', self', attempted, result. split; [exact E|]. split; [exact R|].
  destruct result as [text|e].
  - destruct S as (before & c & -> & ->). repeat split. now exists before, c.
  - destruct S as [-> S]. repeat split. exact S.
Qed.

(** X20: a candidate whose call returns no reply, a reply without choices
    or a first choice without message ends the cascade at once: the error
    is [No response returned from GitHub Models] in its wrapping, the
    candidates after it are not attempted and the analyzer is unchanged. *)
Theorem empty_reply_aborts (self : CVAnalyzer) (prompt c : string)
  (rest : list string) (last : option string) (r r' : Remote)
  (reply : option ChatCompletions) :
  call_model self prompt c r = (r', Ok reply) ->
  match reply with
  | None => True
  | Some completions =>
      match choices completions with
      | [] => True
      | choice :: _ => message choice = None
      end
  end ->
  cascade self prompt (c :: rest) last r
  = (r', self, [c],
     Err ("Error calling GitHub Models API: "
          ++ "No response returned from GitHub Models")).
Proof.
  intros H E. apply CVAnalyzerSpec.cascade_hard;
    [|exact CVAnalyzerSpec.no_response_is_hard].
  unfold try_candidate. rewrite H. cbn [bind].
  destruct reply as [completions|]; [|reflexivity].
  destruct (choices completions) as [|choice others]; [reflexivity|].
  now rewrite E.
Qed.

End Cascade.

Lemma empty_reply_aborts_witness :
  cascade (M := scripted_endpoint) default_analyzer "prompt"
    ["openai/gpt-5"; "openai/gpt-4o"] None
    [Ok (Some {| choices := [] |}); Ok (Some json_reply)]
  = ([Ok (Some json_reply)], default_analyzer, ["openai/gpt-5"],
     Err "Error calling GitHub Models API: No response returned from GitHub Models").
Proof.
  apply (empty_reply_aborts (M := scripted_endpoint) default_analyzer "prompt"
           "openai/gpt-5" ["openai/gpt-4o"] None
           [Ok (Some {| choices := [] |}); Ok (Some json_reply)]
           [Ok (Some json_reply)] (Some {| choices := [] |}));
    [reflexivity | exact I].
Defined.

(** *** The analysis *)

Section Analysis.
Context {M : ModelEndpoint} {J : Json} {P : Pydantic}.

Lemma analyze_shape (self : CVAnalyzer) (cv_text job_description : string)
  (r : Remote) :
  exists r' self' attempted printed outcome,
    analyze self cv_text job_description r
    = (r', self', attempted, printed, outcome)
    /\ match outcome with
       | Ok result =>
           (0 <= match_percentage result <= 100)%Z
           /\ exists before c,
               attempted = (before ++ [c])%list /\ model_id self' = c
       | Err e =>
           exists stage cause,
             In stage analysis_stages
             /\ e = "Error during CV analysis: " ++ stage ++ cause
       end.
Proof.
  unfold analyze, _call_github_models.
  destruct (cascade_shape self (_create_analysis_prompt cv_text job_description)
              (model_candidates self) None r)
    as (r' & self' & attempted & result & E & _ & S).
  rewrite E. destruct result as [text|e].
  - destruct (ValidatorMore.parse_outcome text)
      as (printed & outcome & E' & O).
    rewrite E'. do 5 eexists. split; [reflexivity|].
    destruct outcome as [result|e]; cbn [wrap_exception].
    + destruct O as [O _]. split; [exact O|].
      destruct S as (before & c & -> & ->). now exists before, c.
    + destruct O as [[_ [cause ->]]|[cause ->]]; do 2 eexists;
        (split; [|reflexivity]); cbn; tauto.
  - destruct S as [_ [cause ->]]. do 5 eexists. split; [reflexivity|].
    do 2 eexists. split; [|reflexivity]. cbn; tauto.
Qed.


(** X21: an analysis either returns a result whose percentage lies
    between 0 and 100, the analyzer's model being the last candidate
    attempted, or raises an error made of [Error during CV analysis: ], the
    context of the stage that failed (the model call, the JSON decoding or
    the validation) and the cause. *)
Theorem analyze_outcome (self : CVAnalyzer) (cv_text job_description : string)
  (r : Remote) :
  exists r' self' attempted printed outcome,
    analyze self cv_text job_description r
    = (r', self', attempted, printed, outcome)
    /\ match outcome with
       | Ok result =>
           (0 <= match_percentage result <= 100)%Z
           /\ exists before c,
               attempted = (before ++ [c])%list /\ model_id self' = c
       | Err e =>
           exists stage cause,
             In stage analysis_stages
             /\ e = "Error during CV analysis: " ++ stage ++ cause
       end.
Proof.
  unfold analyze, _call_github_models.
  destruct (cascade_shape self (_create_analysis_prompt cv_text job_description)
              (model_candidates self) None r)
    as (r' & self' & attempted & result & E & _ & S).
  rewrite E. destruct result as [text|e].
  - destruct (ValidatorMore.parse_outcome text)
      as (printed & outcome & E' & O).
    rewrite E'. do 5 eexists. split; [reflexivity|].
    destruct outcome as [result|e]; cbn [wrap_exception].
    + destruct O as [O _]. split; [exact O|].
      destruct S as (before & c & -> & ->). now exists before, c.
    + destruct O as [[_ [cause ->]]|[cause ->]]; do 2 eexists;
        (split; [|reflexivity]); cbn; tauto.
  - destruct S as [_ [cause ->]]. do 5 eexists. split; [reflexivity|].
    do 2 eexists. split; [|reflexivity]. cbn; tauto.
Qed.

End Analysis.

(** *** The prompt *)

Lemma unlines_app (a b : list string) :
  unlines (a ++ b) = unlines a ++ unlines b.
Proof.
  unfold unlines, cat. induction a as [|x a IH]; cbn [app map fold_right];
    [reflexivity|].
  now rewrite IH, !str_app_assoc.
Qed.

Lemma prompt_parts (cv_text job_description : string) :
  _create_analysis_prompt cv_text job_description
  = unlines prompt_head ++ job_description
    ++ (String "010" (unlines prompt_middle)) ++ cv_text
    ++ String "010" (unlines prompt_tail).
Proof.
  unfold _create_analysis_prompt. rewrite !unlines_app.
  unfold unlines at 2 4. cbn [map cat fold_right].
  now rewrite !str_app_nil_r, !str_app_assoc.
Qed.

(** X22: the prompt is the fixed template with the job description and
    then the CV set in it as they are, each on lines of its own; so both
    occur in it, and its length is theirs plus 1495 characters. *)
Theorem create_analysis_prompt_embeds (cv_text job_description : string) :
  _create_analysis_prompt cv_text job_description
  = unlines prompt_head ++ job_description
    ++ (String "010" (unlines prompt_middle)) ++ cv_text
    ++ String "010" (unlines prompt_tail)
  /\ contains job_description
              (_create_analysis_prompt cv_text job_description) = true
  /\ contains cv_text (_create_analysis_prompt cv_text job_description) = true
  /\ String.length (_create_analysis_prompt cv_text job_description)
     = 1495 + String.length job_description + String.length cv_text.
Proof.
  split; [apply prompt_parts|]. rewrite prompt_parts. split; [|split].
  - apply contains_iff. now do 2 eexists.
  - apply contains_iff.
    exists (unlines prompt_head ++ job_description
            ++ String "010" (unlines prompt_middle)),
           (String "010" (unlines prompt_tail)).
    now rewrite !str_app_assoc.
  - rewrite !length_str_app. cbn [String.length].
    replace (String.length (unlines prompt_head)) with 167
      by (vm_compute; reflexivity).
    replace (String.length (unlines prompt_middle)) with 13
      by (vm_compute; reflexivity).
    replace (String.length (unlines prompt_tail)) with 1313
      by (vm_compute; reflexivity).
    lia.
Qed.

(** *** The fallback *)

Lemma intersection_In (a b : list string) (w : string) :
  In w (intersection a b) <-> In w a /\ In w b.
Proof.
  unfold intersection. rewrite filter_In, existsb_exists. split.
  - intros (Ha & x & Hx & E). apply String.eqb_eq in E. now subst.
  - intros (Ha & Hb). split; [exact Ha|]. exists w.
    split; [exact Hb | apply String.eqb_refl].
Qed.

Lemma intersection_length_sym (a b : list string) :
  NoDup a -> NoDup b ->
  List.length (intersection a b) = List.length (intersection b a).
Proof.
  intros Na Nb. apply Permutation_length, NoDup_Permutation.
  - now apply NoDup_filter.
  - now apply NoDup_filter.
  - intros w. rewrite !intersection_In. tauto.
Qed.

(** X23: the fallback always gives four strengths, five weaknesses and an
    even percentage between 0 and 100, twice the number of distinct
    lowercased words the two texts share, capped at 100; the percentage is
    the same when the two texts are exchanged. *)
Theorem fallback_analysis_spec (cv_text job_description : string) :
  let result := _fallback_analysis cv_text job_description in
  (0 <= match_percentage result <= 100)%Z
  /\ (match_percentage result mod 2 = 0)%Z
  /\ (forall w,
         In w (intersection (word_set cv_text) (word_set job_description))
         <-> In w (split_whitespace (lower cv_text))
             /\ In w (split_whitespace (lower job_description)))
  /\ match_percentage result
     = Z.min 100
         (2 * Z.of_nat (List.length
                          (intersection (word_set cv_text)
                                        (word_set job_description))))
  /\ List.length (strengths result) = 4
  /\ List.length (weaknesses result) = 5
  /\ match_percentage (_fallback_analysis job_description cv_text)
     = match_percentage result.
Proof.
  cbn zeta. unfold _fallback_analysis. cbn [match_percentage strengths weaknesses].
  set (n := List.length (intersection (word_set cv_text)
                                      (word_set job_description))).
  split; [lia|]. split.
  - destruct (Z.min_spec 100 (Z.of_nat n * 2)) as [[_ ->]|[_ ->]];
      [reflexivity | apply Z.mod_mul; lia].
  - split.
    { intros w. rewrite intersection_In. unfold word_set.
      now rewrite !nodup_In. }
    split; [f_equal; lia|]. split; [reflexivity|]. split; [reflexivity|].
    subst n. rewrite (intersection_length_sym (word_set job_description));
      [reflexivity | apply NoDup_nodup | apply NoDup_nodup].
Qed.

End OrchestratorMore.

(** ** The route *)

Module RouteMore.
Import PyStr PyStrFacts PyStrMore Models Main.

Lemma take_drop (k : nat) (s : string) : take k s ++ drop k s = s.
Proof.
  revert s; induction k as [|k IH]; intros [|c s]; cbn; try reflexivity.
  now rewrite IH.
Qed.

Lemma endswith_inv (suf s : string) :
  endswith suf s = true -> exists pre, s = pre ++ suf.
Proof.
  unfold endswith. intros H. apply andb_prop in H as [_ H].
  apply String.eqb_eq in H.
  exists (take (String.length s - String.length suf) s).
  rewrite <- H at 2. symmetry. apply take_drop.
Qed.

Lemma accepted_extension (name : string) :
  endswith_any supported_suffixes (lower name) = true ->
  FileProcessor.file_extension name = "pdf"
  \/ FileProcessor.file_extension name = "doc"
  \/ FileProcessor.file_extension name = "docx".
Proof.
  unfold endswith_any, supported_suffixes. cbn [existsb].
  rewrite !orb_true_iff. intros [H|[H|[H|H]]]; [| | |discriminate];
    apply endswith_inv in H as [pre H]; [left | right; left | right; right];
    apply (FileProcessorSpec.file_extension_after_last_dot name pre);
    solve [exact H | reflexivity].
Qed.

Section Route.
Context {D : FileProcessor.Decoders} {W : LinkedInFetcher.Web}
  {M : CVAnalyzer.ModelEndpoint} {J : CVAnalyzer.Json}
  {P : CVAnalyzer.Pydantic}.

Lemma given_url_blank (u : string) :
  forallb_str isspace u = true -> given_url (Some u) = None.
Proof.
  intros H. unfold given_url. destruct u as [|c u]; [reflexivity|].
  now rewrite (CVAnalyzerSpec.strip_blank _ H).
Qed.

(** X24: a request with no file, or a file without a name, and with no
    address, or an address of whitespace only, is refused with status 400
    before anything is read, fetched or asked of the model. *)
Theorem no_input_rejected (cv_analyzer : CVAnalyzer.CVAnalyzer)
  (linkedin_fetcher : LinkedInFetcher.LinkedInFetcher)
  (job_description : string) (cv_file : option FileProcessor.UploadFile)
  (linkedin_url : option string)
  (w : LinkedInFetcher.World) (r : CVAnalyzer.Remote) :
  match cv_file with
  | None => True
  | Some file =>
      FileProcessor.filename file = None
      \/ FileProcessor.filename file = Some ""
  end ->
  match linkedin_url with
  | None => True
  | Some u => forallb_str isspace u = true
  end ->
  analyze_cv cv_analyzer linkedin_fetcher job_description cv_file
             linkedin_url w r
  = {| world := w; remote := r; analyzer := cv_analyzer;
       requests := []; attempted := []; printed := [];
       reply :=
         HTTPException 400 "Please upload a CV or provide a LinkedIn URL." |}.
Proof.
  intros Hf Hu. unfold analyze_cv.
  assert (N : named_file cv_file = None).
  { unfold named_file. destruct cv_file as [file|]; [|reflexivity].
    now destruct Hf as [-> | ->]. }
  assert (U : given_url linkedin_url = None).
  { destruct linkedin_url as [u|]; [now apply given_url_blank | reflexivity]. }
  now rewrite N, U.
Qed.

(** X25: a file whose lowercased name ends with none of [.pdf], [.doc] and
    [.docx] is refused with status 400; its payload is not decoded and the
    address, even a valid one, is not fetched. *)
Theorem unsupported_name_rejected (cv_analyzer : CVAnalyzer.CVAnalyzer)
  (linkedin_fetcher : LinkedInFetcher.LinkedInFetcher)
  (job_description : string) (file : FileProcessor.UploadFile)
  (name : string) (linkedin_url : option string)
  (w : LinkedInFetcher.World) (r : CVAnalyzer.Remote) :
  FileProcessor.filename file = Some name ->
  name <> "" ->
  endswith_any supported_suffixes (lower name) = false ->
  analyze_cv cv_analyzer linkedin_fetcher job_description (Some file)
             linkedin_url w r
  = {| world := w; remote := r; analyzer := cv_analyzer;
       requests := []; attempted := []; printed := [];
       reply :=
         HTTPException 400 "Only PDF, DOC, and DOCX files are supported" |}.
Proof.
  intros Hn Hne He. unfold analyze_cv, cv_sources, named_file.
  rewrite Hn. destruct name as [|c name]; [contradiction|].
  rewrite He. reflexivity.
Qed.

(** X26: a file name that the route accepts has the extension [pdf], [doc]
    or [docx], so the extractor decodes it and never refuses its type. *)
Theorem accepted_name_decoded (name : string) (content : FileProcessor.bytes) :
  endswith_any supported_suffixes (lower name) = true ->
  let file := {| FileProcessor.filename := Some name;
                 FileProcessor.file_read := content |} in
  FileProcessor.extract_text file
  = wrap_exception "Error processing file: "
                   (FileProcessor._extract_from_pdf content)
  \/ FileProcessor.extract_text file
     = wrap_exception "Error processing file: "
                      (FileProcessor._extract_from_word content).
Proof.
  intros H. cbn zeta. unfold FileProcessor.extract_text.
  cbn [FileProcessor.filename FileProcessor.file_read].
  destruct (accepted_extension name H) as [E|[E|E]]; rewrite E;
    [left | right | right]; reflexivity.
Qed.

(** X27: a file that the route accepts and the extractor cannot read ends
    the request with status 500 and the extractor's error; the address is
    not fetched and the model is not asked. *)
Theorem unreadable_file (cv_analyzer : CVAnalyzer.CVAnalyzer)
  (linkedin_fetcher : LinkedInFetcher.LinkedInFetcher)
  (job_description : string) (file : FileProcessor.UploadFile)
  (name : string) (linkedin_url : option string)
  (w : LinkedInFetcher.World) (r : CVAnalyzer.Remote) (e : string) :
  FileProcessor.filename file = Some name ->
  endswith_any supported_suffixes (lower name) = true ->
  FileProcessor.extract_text file = Err e ->
  analyze_cv cv_analyzer linkedin_fetcher job_description (Some file)
             linkedin_url w r
  = {| world := w; remote := r; analyzer := cv_analyzer;
       requests := []; attempted := []; printed := [];
       reply := HTTPException 500 e |}.
Proof.
  intros Hn He Hx. unfold analyze_cv, cv_sources, named_file.
  rewrite Hn. destruct name as [|c name]; [discriminate|].
  rewrite He, Hx. reflexivity.
Qed.

Lemma cv_sources_exception (cv_file : option FileProcessor.UploadFile)
  (exception : Reply) :
  cv_sources cv_file = inl exception ->
  exists status detail,
    exception = HTTPException status detail /\ (status = 400 \/ status = 500)%Z.
Proof.
  unfold cv_sources. destruct (named_file cv_file) as [[file name]|];
    [|discriminate].
  destruct (negb _); [intros [= <-]; do 2 eexists; split; [reflexivity|now left]|].
  destruct (FileProcessor.extract_text file) as [t|e].
  - destruct (has_text t); discriminate.
  - intros [= <-]. do 2 eexists. split; [reflexivity | now right].
Qed.

Lemma profile_sources_requests
  (linkedin_fetcher : LinkedInFetcher.LinkedInFetcher) (url : option string)
  (sources : list string) (w : LinkedInFetcher.World) :
  snd (fst (profile_sources linkedin_fetcher url sources w)) = []
  \/ exists u,
      url = Some u
      /\ snd (fst (profile_sources linkedin_fetcher url sources w))
         = [LinkedInFetcher.HttpGet u].
Proof.
  unfold profile_sources. destruct url as [u|]; [|now left].
  unfold LinkedInFetcher._fetch_profile_text_sync, LinkedInFetcher.fetch_body.
  destruct ((u =? "") || negb (contains "linkedin.com" u)); [now left|].
  destruct (LinkedInFetcher.requests_get _ _ _ _) as [w1 res].
  right. now exists u.
Qed.

Lemma has_text_strip (t : string) : has_text t = true -> strip t <> "".
Proof.
  unfold has_text. intros H. apply andb_prop in H as [_ H].
  now destruct (strip t).
Qed.

Lemma cv_sources_texts (cv_file : option FileProcessor.UploadFile)
  (sources : list string) :
  cv_sources cv_file = inr sources ->
  sources = []
  \/ exists file name cv_text,
      named_file cv_file = Some (file, name)
      /\ FileProcessor.extract_text file = Ok cv_text
      /\ strip cv_text <> "".
Proof.
  unfold cv_sources. destruct (named_file cv_file) as [[file name]|];
    [|intros [= <-]; now left].
  destruct (negb _); [discriminate|].
  destruct (FileProcessor.extract_text file) as [t|e] eqn:E; [|discriminate].
  destruct (has_text t) eqn:H; intros [= <-]; [|now left].
  right. exists file, name, t.
  split; [reflexivity|]. split; [exact E | now apply has_text_strip].
Qed.

Lemma profile_sources_texts
  (linkedin_fetcher : LinkedInFetcher.LinkedInFetcher) (url : option string)
  (sources : list string) (w : LinkedInFetcher.World) :
  snd (profile_sources linkedin_fetcher url sources w) = sources
  \/ exists u,
      url = Some u
      /\ strip (snd (LinkedInFetcher._fetch_profile_text_sync
                       linkedin_fetcher u w)) <> "".
Proof.
  unfold profile_sources. destruct url as [u|]; [|now left].
  destruct (LinkedInFetcher._fetch_profile_text_sync linkedin_fetcher u w)
    as [[w' events] li_text] eqn:F.
  cbn [snd]. destruct (has_text li_text) eqn:H; [|now left].
  right. exists u. split; [reflexivity|].
  rewrite F. cbn [snd]. now apply has_text_strip.
Qed.

Lemma analyze_sources_shape (cv_analyzer : CVAnalyzer.CVAnalyzer)
  (job_description : string) (sources : list string)
  (w : LinkedInFetcher.World) (requests : list LinkedInFetcher.event)
  (r : CVAnalyzer.Remote) :
  let o := analyze_sources cv_analyzer job_description sources w requests r in
  world o = w /\ Main.requests o = requests
  /\ (attempted o <> [] -> sources <> [])
  /\ match reply o with
     | Respond result =>
         (0 <= match_percentage result <= 100)%Z /\ attempted o <> []
     | HTTPException status detail =>
         (status = 400%Z /\ attempted o = [] /\ printed o = []
          /\ remote o = r /\ analyzer o = cv_analyzer)
         \/ status = 500%Z
     end.
Proof.
  cbn zeta. unfold analyze_sources. destruct sources as [|s0 sources].
  - cbn. split; [reflexivity|]. split; [reflexivity|].
    split; [contradiction|]. left. tauto.
  - destruct (OrchestratorMore.analyze_shape cv_analyzer
                (join separator (s0 :: sources)) job_description r)
      as (r' & self' & att & pr & outcome & E & O).
    rewrite E. cbn [world Main.requests reply attempted].
    split; [reflexivity|]. split; [reflexivity|]. split; [discriminate|].
    destruct outcome as [result|e]; [|now right].
    destruct O as [R (before & c & -> & _)].
    split; [exact R | now destruct before].
Qed.

(** The route from the reading of the file on. *)
Lemma route_tail (cv_analyzer : CVAnalyzer.CVAnalyzer)
  (linkedin_fetcher : LinkedInFetcher.LinkedInFetcher)
  (job_description : string) (cv_file : option FileProcessor.UploadFile)
  (linkedin_url : option string)
  (w : LinkedInFetcher.World) (r : CVAnalyzer.Remote) :
  let o :=
    match cv_sources cv_file with
    | inl exception => ended cv_analyzer w r [] exception
    | inr sources_text =>
        let '(w', requests, sources_text) :=
          profile_sources linkedin_fetcher (given_url linkedin_url)
                          sources_text w in
        analyze_sources cv_analyzer job_description sources_text w' requests r
    end in
  match reply o with
  | Respond result =>
      (0 <= match_percentage result <= 100)%Z /\ attempted o <> []
  | HTTPException status detail =>
      (status = 400%Z /\ attempted o = [] /\ printed o = []
       /\ remote o = r /\ analyzer o = cv_analyzer)
      \/ (status = 500)%Z
  end
  /\ (attempted o <> [] ->
      text_extracted linkedin_fetcher cv_file linkedin_url w)
  /\ (requests o = []
      \/ exists u,
          given_url linkedin_url = Some u
          /\ requests o = [LinkedInFetcher.HttpGet u]).
Proof.
  cbn zeta. destruct (cv_sources cv_file) as [exception|sources] eqn:C.
  - destruct (cv_sources_exception _ _ C) as (status & detail & -> & S).
    cbn. split; [destruct S as [-> | ->]; [left | right]; tauto|].
    split; [contradiction | now left].
  - pose proof (profile_sources_requests linkedin_fetcher
                  (given_url linkedin_url) sources w) as R.
    pose proof (profile_sources_texts linkedin_fetcher
                  (given_url linkedin_url) sources w) as X.
    destruct (profile_sources linkedin_fetcher (given_url linkedin_url)
                              sources w) as [[w' requests] sources'].
    cbn [fst snd] in R, X.
    destruct (analyze_sources_shape cv_analyzer job_description sources'
                w' requests r) as (_ & Q & N & S).
    split; [exact S|]. split.
    + intros A. specialize (N A).
      destruct X as [->|(u & U & X)].
      * destruct (cv_sources_texts _ _ C) as [->|T]; [contradiction|].
        now left.
      * right. now exists u.
    + rewrite Q. destruct R as [R|(u & U & R)]; [now left|].
      right. now exists u.
Qed.

(** X28: every request is answered with the analysis, its percentage
    between 0 and 100, or with status 400 or 500.  The model is asked only
    when some text was extracted: the named file was read as a text that is
    not blank, or the page at the given address was fetched as one.  A
    request answered with 400 leaves the model service and the analyzer
    untouched.  At most one page is requested: the given address,
    stripped. *)
Theorem analyze_cv_outcome (cv_analyzer : CVAnalyzer.CVAnalyzer)
  (linkedin_fetcher : LinkedInFetcher.LinkedInFetcher)
  (job_description : string) (cv_file : option FileProcessor.UploadFile)
  (linkedin_url : option string)
  (w : LinkedInFetcher.World) (r : CVAnalyzer.Remote) :
  let o := analyze_cv cv_analyzer linkedin_fetcher job_description cv_file
                      linkedin_url w r in
  match reply o with
  | Respond result =>
      (0 <= match_percentage result <= 100)%Z /\ attempted o <> []
  | HTTPException status detail =>
      (status = 400%Z /\ attempted o = [] /\ printed o = []
       /\ remote o = r /\ analyzer o = cv_analyzer)
      \/ (status = 500)%Z
  end
  /\ (attempted o <> [] ->
      (exists file name cv_text,
          named_file cv_file = Some (file, name)
          /\ FileProcessor.extract_text file = Ok cv_text
          /\ strip cv_text <> "")
      \/ (exists u,
             given_url linkedin_url = Some u
             /\ strip (snd (LinkedInFetcher._fetch_profile_text_sync
                              linkedin_fetcher u w)) <> ""))
  /\ (requests o = []
      \/ exists u,
          given_url linkedin_url = Some u
          /\ requests o = [LinkedInFetcher.HttpGet u]).
Proof.
  cbn zeta.
  pose proof (route_tail cv_analyzer linkedin_fetcher job_description cv_file
                linkedin_url w r) as T.
  cbn zeta in T. unfold text_extracted in T. unfold analyze_cv.
  destruct (named_file cv_file) as [[file name]|] eqn:N;
    destruct (given_url linkedin_url) as [u|] eqn:U; try exact T.
  cbn [reply attempted requests ended].
  split; [left; tauto|]. split; [contradiction | now left].
Qed.

End Route.

Lemma no_input_rejected_witness :
  reply (analyze_cv (D := FileProcessor.refusing_decoders)
           (W := LinkedInFetcher.offline_web)
           (M := CVAnalyzer.scripted_endpoint)
           (J := CVAnalyzer.canned_json "{ ... }" CVAnalyzer.drifting_reply)
           (P := CVAnalyzer.strict_models)
           CVAnalyzer.default_analyzer (LinkedInFetcher.__init__ 20)
           "Rocq engineer" None (Some "   ") [] [])
  = HTTPException 400 "Please upload a CV or provide a LinkedIn URL.".
Proof.
  rewrite (no_input_rejected (D := FileProcessor.refusing_decoders)
             (W := LinkedInFetcher.offline_web)
             (M := CVAnalyzer.scripted_endpoint)
             (J := CVAnalyzer.canned_json "{ ... }" CVAnalyzer.drifting_reply)
             (P := CVAnalyzer.strict_models)
             CVAnalyzer.default_analyzer (LinkedInFetcher.__init__ 20)
             "Rocq engineer" None (Some "   ") [] []);
    [reflexivity | exact I | reflexivity].
Defined.

Lemma unsupported_name_rejected_witness :
  reply (analyze_cv (D := FileProcessor.refusing_decoders)
           (W := LinkedInFetcher.offline_web)
           (M := CVAnalyzer.scripted_endpoint)
           (J := CVAnalyzer.canned_json "{ ... }" CVAnalyzer.drifting_reply)
           (P := CVAnalyzer.strict_models)
           CVAnalyzer.default_analyzer (LinkedInFetcher.__init__ 20)
           "Rocq engineer"
           (Some {| FileProcessor.filename := Some "cv.pdf.exe";
                    FileProcessor.file_read := [] |})
           (Some "https://www.linkedin.com/in/someone") [] [])
  = HTTPException 400 "Only PDF, DOC, and DOCX files are supported".
Proof.
  rewrite (unsupported_name_rejected (D := FileProcessor.refusing_decoders)
             (W := LinkedInFetcher.offline_web)
             (M := CVAnalyzer.scripted_endpoint)
             (J := CVAnalyzer.canned_json "{ ... }" CVAnalyzer.drifting_reply)
             (P := CVAnalyzer.strict_models)
             CVAnalyzer.default_analyzer (LinkedInFetcher.__init__ 20)
             "Rocq engineer"
             {| FileProcessor.filename := Some "cv.pdf.exe";
                FileProcessor.file_read := [] |}
             "cv.pdf.exe" (Some "https://www.linkedin.com/in/someone") [] []);
    [reflexivity | reflexivity | discriminate | reflexivity].
Defined.

Lemma accepted_name_decoded_witness :
  FileProcessor.extract_text (D := FileProcessor.plain_decoders)
    {| FileProcessor.filename := Some "Resume.DOCX";
       FileProcessor.file_read := [Byte.x4f; Byte.x4b] |}
  = Ok "O K".
Proof.
  destruct (accepted_name_decoded (D := FileProcessor.plain_decoders)
              "Resume.DOCX" [Byte.x4f; Byte.x4b] eq_refl) as [E|E];
    rewrite E; reflexivity.
Defined.

Lemma unreadable_file_witness :
  reply (analyze_cv (D := FileProcessor.refusing_decoders)
           (W := LinkedInFetcher.offline_web)
           (M := CVAnalyzer.scripted_endpoint)
           (J := CVAnalyzer.canned_json "{ ... }" CVAnalyzer.drifting_reply)
           (P := CVAnalyzer.strict_models)
           CVAnalyzer.default_analyzer (LinkedInFetcher.__init__ 20)
           "Rocq engineer"
           (Some {| FileProcessor.filename := Some "cv.doc";
                    FileProcessor.file_read := [] |})
           (Some "https://www.linkedin.com/in/someone") [] [])
  = HTTPException 500
      "Error processing file: Failed to extract Word document text: File is not a zip file".
Proof.
  rewrite (unreadable_file (D := FileProcessor.refusing_decoders)
             (W := LinkedInFetcher.offline_web)
             (M := CVAnalyzer.scripted_endpoint)
             (J := CVAnalyzer.canned_json "{ ... }" CVAnalyzer.drifting_reply)
             (P := CVAnalyzer.strict_models)
             CVAnalyzer.default_analyzer (LinkedInFetcher.__init__ 20)
             "Rocq engineer"
             {| FileProcessor.filename := Some "cv.doc";
                FileProcessor.file_read := [] |}
             "cv.doc" (Some "https://www.linkedin.com/in/someone") [] []
             "Error processing file: Failed to extract Word document text: File is not a zip file");
    reflexivity.
Defined.

Lemma analyze_cv_outcome_witness :
  (exists file name cv_text,
      named_file (Some {| FileProcessor.filename := Some "cv.pdf";
                          FileProcessor.file_read := [Byte.x4f; Byte.x4b] |})
      = Some (file, name)
      /\ FileProcessor.extract_text (D := FileProcessor.plain_decoders) file
         = Ok cv_text
      /\ strip cv_text <> "")
  \/ (exists u,
         given_url None = Some u
         /\ strip (snd (LinkedInFetcher._fetch_profile_text_sync
                          (W := LinkedInFetcher.offline_web)
                          (LinkedInFetcher.__init__ 20) u [])) <> "").
Proof.
  apply (proj1 (proj2
           (analyze_cv_outcome (D := FileProcessor.plain_decoders)
              (W := LinkedInFetcher.offline_web)
              (M := CVAnalyzer.catalogue_endpoint)
              (J := CVAnalyzer.canned_json "{}" CVAnalyzer.drifting_reply)
              (P := CVAnalyzer.strict_models)
              CVAnalyzer.default_analyzer (LinkedInFetcher.__init__ 20)
              "Rocq engineer"
              (Some {| FileProcessor.filename := Some "cv.pdf";
                       FileProcessor.file_read := [Byte.x4f; Byte.x4b] |})
              None [] []))).
  vm_compute. discriminate.
Defined.

End RouteMore.
